(** * Instagram data extractor: a shallow embedding of [instagram_extractor.py]

    The script is sequential glue around an external platform client.  Its
    methods are embedded as computations in a state-and-exception monad [M]:

    - the state holds the history of external interactions (the [trace]) and
      the files the script itself opens and writes (the [fs]);
    - every external call (platform client, HTTP, clock, [open], pandas) is
      answered by an oracle of the [World], which may depend on the whole
      history, so that the same call can fail once and succeed later;
    - Python exceptions are values of [exn]; [try_except] is the [try] /
      [except] statement, with the handler deciding which classes it takes.

    A string is the UTF-8 text, byte by byte.  Progress bars ([tqdm]) write
    to the terminal only and are left out. *)

From Stdlib Require Import QArith.
From Stdlib Require Import Ascii String.
From stdpp Require Import gmap strings list pretty.
Close Scope Q_scope.
Set Warnings "-register-all".

(** ** Python values *)

(** Attribute values of the objects handed back by the platform client. *)
Inductive atom : Type :=
| ANone
| ABool (b : bool)
| AInt (z : Z)
| AStr (s : string)
| ADatetime (date time : string)   (* [datetime]: date and time-of-day parts *)
| AObject (cls repr : string).     (* any other object: its class, its [str()] *)

(** Documents built by the script: what ends up in the JSON file. *)
Inductive pyval : Type :=
| VAtom (a : atom)
| VList (l : list pyval)
| VDict (d : list (string * pyval)).

(** A Python dict keeps insertion order: an association list with unique keys. *)
Abbreviation dict := (list (string * pyval)).

Definition VNone : pyval := VAtom ANone.
Definition VStr (s : string) : pyval := VAtom (AStr s).
Definition VInt (z : Z) : pyval := VAtom (AInt z).

(** [str(x)] *)
Definition py_str (a : atom) : string :=
  match a with
  | ANone => "None"
  | ABool true => "True"
  | ABool false => "False"
  | AInt z => pretty z
  | AStr s => s
  | ADatetime d t => d +:+ " " +:+ t
  | AObject _ r => r
  end.

(** The type as the text of an [AttributeError] names it. *)
Definition type_name (a : atom) : string :=
  match a with
  | ANone => "NoneType"
  | ABool _ => "bool"
  | AInt _ => "int"
  | AStr _ => "str"
  | ADatetime _ _ => "datetime.datetime"
  | AObject c _ => c
  end.

(** [type(x).__name__], as the text of the encoder's [TypeError] has it. *)
Definition class_name (a : atom) : string :=
  match a with
  | ADatetime _ _ => "datetime"
  | _ => type_name a
  end.

(** Truth value of an attribute, as tested by [x if a else y]. *)
Definition atom_truthy (a : atom) : bool :=
  match a with
  | ANone => false
  | ABool b => b
  | AInt z => negb (z =? 0)%Z
  | AStr s => negb (String.eqb s "")
  | ADatetime _ _ => true
  | AObject _ _ => true
  end.

(** Truth value of a document, as tested by [if data:] and [if not user_info]. *)
Definition truthy (v : pyval) : bool :=
  match v with
  | VAtom a => atom_truthy a
  | VList [] => false
  | VList (_ :: _) => true
  | VDict [] => false
  | VDict (_ :: _) => true
  end.

(** [a == n] for an integer literal [n]; [True == 1] and [False == 0] hold in
    Python since [bool] is a subclass of [int]. *)
Definition py_eq_int (a : atom) (n : Z) : bool :=
  match a with
  | AInt z => (z =? n)%Z
  | ABool b => ((if b then 1 else 0) =? n)%Z
  | _ => false
  end.

(** The value stored under [k], if any. *)
Fixpoint dict_lookup (d : dict) (k : string) : option pyval :=
  match d with
  | [] => None
  | (k', v) :: d' => if String.eqb k' k then Some v else dict_lookup d' k
  end.

(** [d.get(k, dflt)]; [d.get(k)] is [dict_get d k VNone]. *)
Definition dict_get (d : dict) (k : string) (dflt : pyval) : pyval :=
  default dflt (dict_lookup d k).


(** [d[k] = v]: in place when [k] is present, at the end otherwise. *)
Fixpoint dict_set (d : dict) (k : string) (v : pyval) : dict :=
  match d with
  | [] => [(k, v)]
  | (k', v') :: d' =>
      if String.eqb k' k then (k', v) :: d' else (k', v') :: dict_set d' k v
  end.

(** [list(d.keys())] *)
Definition dict_keys (d : dict) : list string := map fst d.

(** What [json.dump] accepts: [None], booleans, integers, strings, and lists
    and string-keyed dicts of those.  Anything else is a [TypeError]. *)
Fixpoint json_ok (v : pyval) : bool :=
  match v with
  | VAtom (ADatetime _ _) | VAtom (AObject _ _) => false
  | VAtom _ => true
  | VList l => forallb json_ok l
  | VDict d => forallb (fun kv => json_ok (snd kv)) d
  end.

(** The first value, in the order of the text, that [json.dump] cannot
    encode. *)
Fixpoint unencodable (v : pyval) : option atom :=
  match v with
  | VAtom a => if json_ok (VAtom a) then None else Some a
  | VList l =>
      foldr (fun x rest => match unencodable x with Some a => Some a | None => rest end)
            None l
  | VDict d =>
      foldr (fun kv rest =>
               match unencodable (snd kv) with Some a => Some a | None => rest end)
            None d
  end.

(** ** Strings *)

(** [c.lower()] on one byte: only [A]..[Z] change.  No character outside
    ASCII lowers to a letter of ["true"], so comparing the result with
    ["true"] is exact. *)
Definition ascii_lower (c : ascii) : ascii :=
  let n := nat_of_ascii c in
  if (65 <=? n) && (n <=? 90) then ascii_of_nat (n + 32) else c.

Fixpoint str_lower (s : string) : string :=
  match s with
  | EmptyString => EmptyString
  | String c s' => String (ascii_lower c) (str_lower s')
  end.

(** White space as [str.isspace] has it.  A string is the UTF-8 text: the
    white space of one byte is U+0009..U+000D and U+001C..U+0020, ... *)
Definition py_isspace (c : ascii) : bool :=
  let n := nat_of_ascii c in
  ((9 <=? n) && (n <=? 13)) || ((28 <=? n) && (n <=? 32)).

Definition byte_is (c : ascii) (n : nat) : bool := nat_of_ascii c =? n.

(** ... of two bytes U+0085 and U+00A0, ... *)
Definition space2 (c1 c2 : ascii) : bool :=
  byte_is c1 194 && (byte_is c2 133 || byte_is c2 160).

(** ... and of three bytes U+1680, U+2000..U+200A, U+2028, U+2029, U+202F,
    U+205F and U+3000. *)
Definition space3 (c1 c2 c3 : ascii) : bool :=
  let n3 := nat_of_ascii c3 in
  (byte_is c1 225 && byte_is c2 154 && byte_is c3 128) ||
  (byte_is c1 226 && byte_is c2 128 &&
   (((128 <=? n3) && (n3 <=? 138)) || (n3 =? 168) || (n3 =? 169) || (n3 =? 175))) ||
  (byte_is c1 226 && byte_is c2 129 && byte_is c3 159) ||
  (byte_is c1 227 && byte_is c2 128 && byte_is c3 128).

(** [s.lstrip()] *)
Fixpoint lstrip (s : string) : string :=
  match s with
  | EmptyString => EmptyString
  | String c1 s1 =>
      if py_isspace c1 then lstrip s1
      else
        match s1 with
        | String c2 s2 =>
            if space2 c1 c2 then lstrip s2
            else
              match s2 with
              | String c3 s3 => if space3 c1 c2 c3 then lstrip s3 else s
              | EmptyString => s
              end
        | EmptyString => s
        end
  end.

(** [s.rstrip()] on the bytes in reverse: a white-space character is met
    last byte first. *)
Fixpoint rstrip_rev (s : string) : string :=
  match s with
  | EmptyString => EmptyString
  | String c1 s1 =>
      if py_isspace c1 then rstrip_rev s1
      else
        match s1 with
        | String c2 s2 =>
            if space2 c2 c1 then rstrip_rev s2
            else
              match s2 with
              | String c3 s3 => if space3 c3 c2 c1 then rstrip_rev s3 else s
              | EmptyString => s
              end
        | EmptyString => s
        end
  end.

(** [s.strip()] *)
Definition py_strip (s : string) : string :=
  String.rev (rstrip_rev (String.rev (lstrip s))).

(** Last byte of a string. *)
Fixpoint last_char (s : string) : option ascii :=
  match s with
  | EmptyString => None
  | String c EmptyString => Some c
  | String _ s' => last_char s'
  end.

(** ** Paths

    [pathlib] on POSIX.  A path is a root and its components; parsing drops
    empty components and [.] components. *)

Definition is_slash (c : ascii) : bool := Ascii.eqb c "/".

(** [s.split('/')] *)
Fixpoint split_slash (s : string) : list string :=
  match s with
  | EmptyString => [EmptyString]
  | String c s' =>
      if is_slash c then EmptyString :: split_slash s'
      else
        match split_slash s' with
        | x :: rest => String c x :: rest
        | [] => [String c EmptyString]
        end
  end.

Definition is_part (x : string) : bool :=
  negb (String.eqb x "") && negb (String.eqb x ".").

Definition path_parts (s : string) : list string :=
  List.filter is_part (split_slash s).

(** The root: [/], or [//] for exactly two leading slashes. *)
Definition path_root (s : string) : string :=
  match s with
  | String "/"%char (String "/"%char (String "/"%char _)) => "/"
  | String "/"%char (String "/"%char _) => "//"
  | String "/"%char _ => "/"
  | _ => ""
  end.

Fixpoint join_slash (parts : list string) : string :=
  match parts with
  | [] => ""
  | x :: rest =>
      match rest with
      | [] => x
      | _ :: _ => x +:+ "/" +:+ join_slash rest
      end
  end.

(** [str(p)] for the path [p] with this root and these components. *)
Definition path_str (root : string) (parts : list string) : string :=
  match root, parts with
  | EmptyString, [] => "."
  | _, _ => root +:+ join_slash parts
  end.

(** [str(Path(s))] *)
Definition path_of (s : string) : string := path_str (path_root s) (path_parts s).

(** [str(Path(dir) / name)]: a rooted right operand replaces the left one. *)
Definition path_join (dir name : string) : string :=
  match path_root name with
  | EmptyString => path_str (path_root dir) (path_parts dir ++ path_parts name)
  | root => path_str root (path_parts name)
  end.

(** ** Exceptions *)

Inductive exn_class : Type :=
| BadPassword
| ReloginAttemptExceeded
| ChallengeRequired
| ValueError
| AttributeError
| TypeError
| OtherException      (* every other subclass of [Exception] *)
| KeyboardInterrupt   (* a [BaseException] that is not an [Exception] *)
| OtherBaseException. (* the others of that kind: [SystemExit], [GeneratorExit] *)

Record exn : Type := Exn { exn_class_of : exn_class; exn_msg : string }.

(** [isinstance(e, Exception)]: what [except Exception] takes. *)
Definition is_Exception (e : exn) : bool :=
  match exn_class_of e with
  | KeyboardInterrupt | OtherBaseException => false
  | _ => true
  end.

Inductive Res (A : Type) : Type :=
| Ret (a : A)
| Raise (e : exn).
Arguments Ret {A} a.
Arguments Raise {A} e.

Global Instance Res_ret : MRet Res := fun A a => Ret a.

Global Instance Res_bind : MBind Res := fun A B k r =>
  match r with
  | Ret a => k a
  | Raise e => Raise e
  end.

(** [d[k]]: a missing key is a [KeyError]. *)
Definition dict_item (d : dict) (k : string) : Res pyval :=
  match dict_lookup d k with
  | Some v => Ret v
  | None => Raise (Exn OtherException ("'" +:+ k +:+ "'"))
  end.

(** [len(x)]: defined on strings, lists and dicts. *)
Definition py_len (v : pyval) : Res nat :=
  match v with
  | VList l => Ret (length l)
  | VDict d => Ret (length d)
  | VAtom (AStr s) => Ret (String.length s)
  | VAtom a =>
      Raise (Exn TypeError ("object of type '" +:+ type_name a +:+ "' has no len()"))
  end.

(** ** Platform objects *)

(** An object of the client library: its class name and its attributes. *)
Record obj : Type := Obj { obj_class : string; obj_attrs : gmap string atom }.

(** [o.name] *)
Definition getattr (o : obj) (name : string) : Res atom :=
  match obj_attrs o !! name with
  | Some a => Ret a
  | None =>
      Raise (Exn AttributeError
               ("'" +:+ obj_class o +:+ "' object has no attribute '" +:+ name +:+ "'"))
  end.

(** [hasattr(o, name)] *)
Definition hasattr (o : obj) (name : string) : bool :=
  match obj_attrs o !! name with
  | Some _ => true
  | None => false
  end.

(** [getattr(o, name, dflt)] *)
Definition getattr_default (o : obj) (name : string) (dflt : atom) : atom :=
  default dflt (obj_attrs o !! name).

(** [x.isoformat()]: only a [datetime] has the method. *)
Definition isoformat (a : atom) : Res atom :=
  match a with
  | ADatetime d t => Ret (AStr (d +:+ "T" +:+ t))
  | _ =>
      Raise (Exn AttributeError
               ("'" +:+ type_name a +:+ "' object has no attribute 'isoformat'"))
  end.

(** ** The world outside the script *)

Inductive level : Type := INFO | WARNING | ERROR.

(** What the script does to the outside, in the order it does it. *)
Inductive event : Type :=
| EvLog (lvl : level) (msg : string)              (* [self.logger.*] *)
| EvPrint (line : string)                         (* [print] *)
| EvSleep (secs : Q)                              (* [time.sleep] *)
| EvInput (prompt : string)                       (* [input] *)
| EvPathExists (path : string)                    (* [os.path.exists] *)
| EvLoadSettings (path : string)                  (* [client.load_settings] *)
| EvLogin (user password : option string)         (* [client.login] *)
| EvDumpSettings (path : string)                  (* [client.dump_settings] *)
| EvUserInfoByUsername (username : string)
| EvUserIdFromUsername (username : string)
| EvUserMedias (user_id : atom) (amount : Z)
| EvUserFollowers (user_id : atom) (amount : Z)
| EvUserFollowing (user_id : atom) (amount : Z)
| EvHttpGet (url : string)                        (* [requests.get] *)
| EvOpen (path : string)                          (* [open(path, 'w' / 'wb')] *)
| EvWrite (path : string)                         (* a write to an open file *)
| EvDataFrame (rows : pyval)                      (* [pd.DataFrame] *)
| EvDownloadMedia (url filename : string) (ok : bool)
   (* return marker of [download_media]: the boolean it handed back *)
| EvClient                                        (* [Client()] *)
| EvFileHandler (path : string)                   (* [logging.FileHandler] *)
| EvMkdir (path : string).                        (* [Path.mkdir] *)

(** What one write put into a file. *)
Inductive written : Type :=
| WBytes (chunk : string)        (* a chunk of a downloaded body *)
| WJson (doc : pyval)            (* the complete JSON text of [doc] *)
| WJsonPrefix (doc : pyval)      (* a proper prefix of that text *)
| WCsv (rows : pyval).           (* the CSV table of a data frame *)

(** A streamed HTTP response. *)
Record response : Type := Response {
  status_error : option exn;     (* what [raise_for_status] raises, if anything *)
  chunks : list string;          (* what [iter_content] yields ... *)
  stream_error : option exn      (* ... before it raises, if it does *)
}.

Record State : Type := MkState {
  trace : list event;
  fs : gmap string (list written)
}.

(** The oracles.  Each one sees the history up to the call. *)
Record World : Type := MkWorld {
  environ : gmap string string;                   (* after [load_dotenv()] *)
  datetime_now : list event -> string * string;   (* date, time of day *)
  stdin_line : list event -> Res string;
  path_exists : list event -> string -> bool;
  load_settings_result : list event -> string -> Res unit;
  login_result : list event -> option string -> option string -> Res bool;
  dump_settings_result : list event -> string -> Res unit;
  user_info_result : list event -> string -> Res obj;
  user_id_result : list event -> string -> Res atom;
  user_medias_result : list event -> atom -> Z -> Res (list obj);
  user_followers_result : list event -> atom -> Z -> Res (list (string * obj));
  user_following_result : list event -> atom -> Z -> Res (list (string * obj));
  http_get_result : list event -> string -> Res response;
  open_error : list event -> string -> option exn;
  write_error : list event -> string -> option exn;
  dataframe_error : list event -> pyval -> option exn;
  sleep_result : list event -> Q -> Res unit;     (* how a pause ends *)
  client_result : list event -> Res unit;
  int_result : string -> Res Z;                   (* [int(text)] *)
  file_handler_result : list event -> string -> Res unit;
  mkdir_result : list event -> string -> Res unit
}.

(** The extractor object after [__init__]. *)
Record Config : Type := MkConfig {
  username : option string;      (* [INSTAGRAM_USERNAME] *)
  password : option string;      (* [INSTAGRAM_PASSWORD] *)
  session_file : string;         (* [SESSION_FILE] *)
  output_dir : string;           (* [OUTPUT_DIR] *)
  request_delay : Z              (* [int(REQUEST_DELAY)] *)
}.

(** ** The monad *)

Definition M (A : Type) : Type := State -> Res A * State.

Global Instance M_ret : MRet M := fun A a st => (Ret a, st).

Global Instance M_bind : MBind M := fun A B k m st =>
  match m st with
  | (Ret a, st') => k a st'
  | (Raise e, st') => (Raise e, st')
  end.

Definition raise {A} (e : exn) : M A := fun st => (Raise e, st).

(** A computation without effects. *)
Definition lift {A} (r : Res A) : M A := fun st => (r, st).

(** [try: m except ...: h].  The handler takes [e] when it answers [Some]. *)
Definition try_except {A} (m : M A) (h : exn -> option (M A)) : M A :=
  fun st =>
    match m st with
    | (Ret a, st') => (Ret a, st')
    | (Raise e, st') =>
        match h e with
        | Some k => k st'
        | None => (Raise e, st')
        end
    end.

(** [except Exception as e: k e] *)
Definition except_Exception {A} (k : exn -> M A) (e : exn) : option (M A) :=
  if is_Exception e then Some (k e) else None.

Definition emit (ev : event) : M unit :=
  fun st => (Ret tt, MkState (trace st ++ [ev]) (fs st)).

(** An external call: recorded, then answered from the history before it. *)
Definition call {A} (ev : event) (answer : list event -> Res A) : M A :=
  fun st => (answer (trace st), MkState (trace st ++ [ev]) (fs st)).

Definition log (lvl : level) (msg : string) : M unit := emit (EvLog lvl msg).
Definition print (line : string) : M unit := emit (EvPrint line).

Section Files.
Variable w : World.

(** [time.sleep(secs)]: a negative length is a [ValueError]; otherwise the
    pause begins, and ends as the world has it: in time, with an interrupt,
    or with an [OverflowError] for a length the platform cannot count. *)
Definition sleep (secs : Q) : M unit :=
  if Qle_bool (inject_Z 0) secs
  then call (EvSleep secs) (fun tr => sleep_result w tr secs)
  else raise (Exn ValueError "sleep length must be non-negative").

(** [open(path, 'w')]: creates or truncates the file. *)
Definition fs_open (path : string) : M unit :=
  fun st =>
    let tr := trace st ++ [EvOpen path] in
    match open_error w (trace st) path with
    | Some e => (Raise e, MkState tr (fs st))
    | None => (Ret tt, MkState tr (<[path := []]> (fs st)))
    end.

(** [f.write(...)] on the file opened at [path].  A write that fails is
    taken to leave the file as it was. *)
Definition fs_write (path : string) (item : written) : M unit :=
  fun st =>
    let tr := trace st ++ [EvWrite path] in
    match write_error w (trace st) path with
    | Some e => (Raise e, MkState tr (fs st))
    | None =>
        (Ret tt, MkState tr (<[path := default [] (fs st !! path) ++ [item]]> (fs st)))
    end.

(** [json.dump(doc, f, indent=2, ensure_ascii=False)].  The encoder emits
    the text piece by piece, so a value it cannot encode leaves a prefix;
    the [TypeError] names the class of that value. *)
Definition json_dump (path : string) (doc : pyval) : M unit :=
  match unencodable doc with
  | None => fs_write path (WJson doc)
  | Some a =>
      fs_write path (WJsonPrefix doc) ;;
      raise (Exn TypeError
               ("Object of type " +:+ class_name a +:+ " is not JSON serializable"))
  end.

(** [pd.DataFrame(rows)] *)
Definition pd_DataFrame (rows : pyval) : M pyval :=
  call (EvDataFrame rows)
       (fun tr => match dataframe_error w tr rows with
                  | Some e => Raise e
                  | None => Ret rows
                  end).

(** [df.to_csv(path, index=False)] *)
Definition to_csv (df : pyval) (path : string) : M unit :=
  fs_open path ;;
  fs_write path (WCsv df).
End Files.

(** ** The extractor *)

Definition LF : string := String (ascii_of_nat 10) EmptyString.

(** A dict display [{k1: e1, ...}]: the values are computed in order. *)
Fixpoint dict_literal (entries : list (string * M pyval)) : M dict :=
  match entries with
  | [] => mret []
  | (k, m) :: rest =>
      v ← m;
      d ← dict_literal rest;
      mret ((k, v) :: d)
  end.

(** [o.name] as a dict value. *)
Definition attr (o : obj) (name : string) : M pyval :=
  lift (a ← getattr o name; mret (VAtom a)).

(** [str(o.name)] as a dict value. *)
Definition str_attr (o : obj) (name : string) : M pyval :=
  lift (a ← getattr o name; mret (VStr (py_str a))).

(** [str(o.name) if o.name else ''] *)
Definition str_attr_or_empty (o : obj) (name : string) : M pyval :=
  lift (c ← getattr o name;
        if atom_truthy c then a ← getattr o name; mret (VStr (py_str a))
        else mret (VStr "")).

Section Extractor.
Variable w : World.
Variable cfg : Config.

(** [os.getenv(name, dflt)] *)
Definition getenv (name dflt : string) : string :=
  default dflt (environ w !! name).

(** [os.getenv(name, 'true').lower() == 'true'] *)
Definition toggle (name : string) : bool :=
  String.eqb (str_lower (getenv name "true")) "true".

(** [datetime.now().isoformat()] *)
Definition now_isoformat : M pyval :=
  fun st =>
    let '(d, t) := datetime_now w (trace st) in
    (Ret (VStr (d +:+ "T" +:+ t)), st).

Definition client_login : M bool :=
  call (EvLogin (username cfg) (password cfg))
       (fun tr => login_result w tr (username cfg) (password cfg)).

(** [login]: the first [try] either returns from the method ([Some]) or
    falls through to the second one ([None]). *)
Definition login_reuse : M (option bool) :=
  try_except
    (ex ← call (EvPathExists (session_file cfg))
               (fun tr => Ret (path_exists w tr (session_file cfg)));
     if (ex : bool) then
       call (EvLoadSettings (session_file cfg))
            (fun tr => load_settings_result w tr (session_file cfg)) ;;
       client_login ;;
       log INFO "Logged in using existing session" ;;
       mret (Some true)
     else mret None)
    (except_Exception (fun e =>
       log WARNING ("Failed to load session: " +:+ exn_msg e) ;;
       mret None)).

(** The [except] clauses of the second [try], in their order. *)
Definition login_fresh_handler (e : exn) : option (M (option bool)) :=
  match exn_class_of e with
  | BadPassword =>
      Some (log ERROR "Invalid username or password" ;; mret None)
  | ReloginAttemptExceeded =>
      Some (log ERROR "Too many login attempts" ;; mret None)
  | ChallengeRequired =>
      Some (log ERROR ("Challenge required: " +:+ exn_msg e) ;; mret None)
  | _ =>
      except_Exception (fun e =>
        log ERROR ("Login failed: " +:+ exn_msg e) ;; mret None) e
  end.

Definition login_fresh : M (option bool) :=
  try_except
    (client_login ;;
     call (EvDumpSettings (session_file cfg))
          (fun tr => dump_settings_result w tr (session_file cfg)) ;;
     log INFO "Successfully logged in with fresh session" ;;
     mret (Some true))
    login_fresh_handler.

Definition login : M bool :=
  r ← login_reuse;
  match r with
  | Some b => mret b
  | None =>
      r' ← login_fresh;
      match r' with
      | Some b => mret b
      | None => mret false
      end
  end.

(** [get_user_info]: the profile as a dict, or [None]. *)
Definition get_user_info_try (name : string) : M pyval :=
  sleep w (inject_Z (request_delay cfg)) ;;
  user_info ← call (EvUserInfoByUsername name)
                   (fun tr => user_info_result w tr name);
  user_data ← dict_literal [
    ("pk", str_attr user_info "pk");
    ("username", attr user_info "username");
    ("full_name", attr user_info "full_name");
    ("biography", attr user_info "biography");
    ("external_url", attr user_info "external_url");
    ("follower_count", attr user_info "follower_count");
    ("following_count", attr user_info "following_count");
    ("media_count", attr user_info "media_count");
    ("is_private", attr user_info "is_private");
    ("is_verified", attr user_info "is_verified");
    ("profile_pic_url", attr user_info "profile_pic_url");
    ("extracted_at", now_isoformat)
  ];
  log INFO ("Retrieved user info for " +:+ name) ;;
  mret (VDict user_data).

Definition get_user_info (name : string) : M pyval :=
  try_except (get_user_info_try name)
    (except_Exception (fun e =>
       log ERROR ("Failed to get user info for " +:+ name +:+ ": " +:+ exn_msg e) ;;
       mret VNone)).

(** [for chunk in response.iter_content(...): f.write(chunk)] *)
Fixpoint write_chunks (path : string) (cs : list string) : M unit :=
  match cs with
  | [] => mret tt
  | c :: cs' => fs_write w path (WBytes c) ;; write_chunks path cs'
  end.

Definition media_path (filename : string) : string :=
  path_join (path_join (output_dir cfg) "media") filename.

(** The [try] of [download_media].  [import requests] and [requests.get]
    are one call: whatever either raises is the answer to the request. *)
Definition download_media_try (media_url filename : string) : M bool :=
  resp ← call (EvHttpGet media_url) (fun tr => http_get_result w tr media_url);
  match status_error resp with Some e => raise e | None => mret tt end ;;
  let filepath := media_path filename in
  fs_open w filepath ;;
  write_chunks filepath (chunks resp) ;;
  match stream_error resp with Some e => raise e | None => mret tt end ;;
  mret true.

(** [download_media].  The last event is not an effect of the method: it
    records, for the history, the boolean the call returned. *)
Definition download_media (media_url filename : string) : M bool :=
  ok ← try_except (download_media_try media_url filename)
         (except_Exception (fun e =>
            log ERROR ("Failed to download media " +:+ filename +:+ ": " +:+ exn_msg e) ;;
            mret false));
  emit (EvDownloadMedia media_url filename ok) ;;
  mret ok.

(** [get_user_posts]: the record built for one media item. *)
Definition post_record (media : obj) : M dict :=
  dict_literal [
    ("id", str_attr media "id");
    ("code", attr media "code");
    ("taken_at",
      lift (c ← getattr media "taken_at";
            if atom_truthy c
            then t ← getattr media "taken_at"; s ← isoformat t; mret (VAtom s)
            else mret VNone));
    ("media_type", str_attr media "media_type");
    ("caption",
      if hasattr media "caption_text" then attr media "caption_text"
      else mret (VStr ""));
    ("like_count", attr media "like_count");
    ("comment_count", attr media "comment_count");
    ("play_count", mret (VAtom (getattr_default media "play_count" (AInt 0))));
    ("thumbnail_url", str_attr_or_empty media "thumbnail_url");
    ("resources", mret (VList []))
  ].

(** [if os.getenv('DOWNLOAD_PHOTOS', ...): if media.media_type == 1: ...] *)
Definition photo_download (name : string) (media : obj) (post_data : dict) : M dict :=
  if toggle "DOWNLOAD_PHOTOS" then
    mt ← lift (getattr media "media_type");
    if py_eq_int mt 1 then            (* Photo *)
      mid ← lift (getattr media "id");
      let filename := name +:+ "_" +:+ py_str mid +:+ ".jpg" in
      url ← lift (getattr media "thumbnail_url");
      ok ← download_media (py_str url) filename;
      if (ok : bool)
      then mret (dict_set post_data "local_file" (VStr ("media/" +:+ filename)))
      else mret post_data
    else mret post_data
  else mret post_data.

(** [if os.getenv('DOWNLOAD_VIDEOS', ...): if media.media_type == 2: ...] *)
Definition video_download (name : string) (media : obj) (post_data : dict) : M dict :=
  if toggle "DOWNLOAD_VIDEOS" then
    mt ← lift (getattr media "media_type");
    if py_eq_int mt 2 then            (* Video *)
      mid ← lift (getattr media "id");
      let filename := name +:+ "_" +:+ py_str mid +:+ ".mp4" in
      if hasattr media "video_url" then
        url ← lift (getattr media "video_url");
        ok ← download_media (py_str url) filename;
        if (ok : bool)
        then mret (dict_set post_data "local_file" (VStr ("media/" +:+ filename)))
        else mret post_data
      else mret post_data
    else mret post_data
  else mret post_data.

(** The body of the [for] loop, for one media item. *)
Definition post_of_media (name : string) (media : obj) : M dict :=
  sleep w (inject_Z (request_delay cfg)) ;;
  post_data ← post_record media;
  (* Download media files *)
  post_data ← photo_download name media post_data;
  post_data ← video_download name media post_data;
  mret post_data.

(** The [for] loop: [posts_data] is the list built so far. *)
Fixpoint for_medias (name : string) (medias : list obj) (posts_data : list pyval)
  : M (list pyval) :=
  match medias with
  | [] => mret posts_data
  | media :: rest =>
      post_data ← post_of_media name media;
      for_medias name rest (posts_data ++ [VDict post_data])
  end.

Definition get_user_posts_try (name : string) (limit : Z) : M (list pyval) :=
  user_id ← call (EvUserIdFromUsername name) (fun tr => user_id_result w tr name);
  medias ← call (EvUserMedias user_id limit)
                (fun tr => user_medias_result w tr user_id limit);
  posts_data ← for_medias name medias [];
  log INFO ("Retrieved " +:+ pretty (length posts_data) +:+ " posts for " +:+ name) ;;
  mret posts_data.

(** [limit] is [None] when the caller leaves the argument out. *)
Definition get_user_posts (name : string) (limit : option Z) : M (list pyval) :=
  let limit := default 100%Z limit in
  try_except (get_user_posts_try name limit)
    (except_Exception (fun e =>
       log ERROR ("Failed to get posts for " +:+ name +:+ ": " +:+ exn_msg e) ;;
       mret [])).

(** [get_followers] and [get_following] build the same record. *)
Definition relationship_entry (info : obj) : M dict :=
  dict_literal [
    ("pk", str_attr info "pk");
    ("username", attr info "username");
    ("full_name", attr info "full_name");
    ("is_private", attr info "is_private");
    ("is_verified", attr info "is_verified");
    ("follower_count", mret (VAtom (getattr_default info "follower_count" (AInt 0))));
    ("following_count", mret (VAtom (getattr_default info "following_count" (AInt 0))));
    ("profile_pic_url", str_attr_or_empty info "profile_pic_url")
  ].

(** [for _id, info in mapping.items()]: the mapping in its own order.
    The pause [request_delay / 2] is a float; halving an integer of less
    than 54 bits is exact, so the pause is the rational [request_delay / 2]. *)
Fixpoint for_relations (items : list (string * obj)) (acc : list pyval)
  : M (list pyval) :=
  match items with
  | [] => mret acc
  | (_, info) :: rest =>
      sleep w (Qmake (request_delay cfg) 2) ;;
      entry ← relationship_entry info;
      for_relations rest (acc ++ [VDict entry])
  end.

Definition get_followers_try (name : string) (limit : Z) : M (list pyval) :=
  user_id ← call (EvUserIdFromUsername name) (fun tr => user_id_result w tr name);
  followers ← call (EvUserFollowers user_id limit)
                   (fun tr => user_followers_result w tr user_id limit);
  followers_data ← for_relations followers [];
  log INFO ("Retrieved " +:+ pretty (length followers_data) +:+ " followers for " +:+ name) ;;
  mret followers_data.

Definition get_followers (name : string) (limit : option Z) : M (list pyval) :=
  let limit := default 1000%Z limit in
  try_except (get_followers_try name limit)
    (except_Exception (fun e =>
       log ERROR ("Failed to get followers for " +:+ name +:+ ": " +:+ exn_msg e) ;;
       mret [])).

Definition get_following_try (name : string) (limit : Z) : M (list pyval) :=
  user_id ← call (EvUserIdFromUsername name) (fun tr => user_id_result w tr name);
  following ← call (EvUserFollowing user_id limit)
                   (fun tr => user_following_result w tr user_id limit);
  following_data ← for_relations following [];
  log INFO ("Retrieved " +:+ pretty (length following_data) +:+ " following for " +:+ name) ;;
  mret following_data.

Definition get_following (name : string) (limit : option Z) : M (list pyval) :=
  let limit := default 1000%Z limit in
  try_except (get_following_try name limit)
    (except_Exception (fun e =>
       log ERROR ("Failed to get following for " +:+ name +:+ ": " +:+ exn_msg e) ;;
       mret [])).

(** [extract_user_data] *)
Definition json_path (name : string) : string :=
  path_join (path_join (output_dir cfg) "json_data") (name +:+ "_data.json").

Definition extract_user_data (name : string) : M dict :=
  log INFO ("Starting data extraction for " +:+ name) ;;
  (* Get user profile info *)
  user_info ← get_user_info name;
  if negb (truthy user_info) then mret []
  else
    (* Extract all data *)
    extracted_data ← dict_literal [
      ("user_info", mret user_info);
      ("posts", l ← get_user_posts name None; mret (VList l));
      ("followers", l ← get_followers name None; mret (VList l));
      ("following", l ← get_following name None; mret (VList l));
      ("extraction_timestamp", now_isoformat)
    ];
    (* Save to JSON *)
    let output_file := json_path name in
    fs_open w output_file ;;
    json_dump w output_file (VDict extracted_data) ;;
    log INFO ("Data extraction completed for " +:+ name +:+ ". Saved to " +:+ output_file) ;;
    mret extracted_data.

(** [generate_csv_reports] *)
Definition csv_path (name category : string) : string :=
  path_join (output_dir cfg) (name +:+ "_" +:+ category +:+ ".csv").

Definition csv_report (name : string) (data : dict) (category : string) : M unit :=
  if truthy (dict_get data category VNone) then
    rows ← lift (dict_item data category);
    df ← pd_DataFrame w rows;
    to_csv w df (csv_path name category)
  else mret tt.

Definition generate_csv_reports (name : string) (data : dict) : M unit :=
  try_except
    (csv_report name data "posts" ;;       (* Posts CSV *)
     csv_report name data "followers" ;;   (* Followers CSV *)
     csv_report name data "following" ;;   (* Following CSV *)
     log INFO ("CSV reports generated for " +:+ name))
    (except_Exception (fun e =>
       log ERROR ("Failed to generate CSV reports: " +:+ exn_msg e))).

(** [main]: the text of one summary line, [len(data.get(key, dflt))]. *)
Definition summary_line (label unit_ key : string) (dflt : pyval) (data : dict)
  : M unit :=
  n ← lift (py_len (dict_get data key dflt));
  print ("- " +:+ label +:+ ": " +:+ pretty n +:+ " " +:+ unit_).

(** The [try] block of [main], once the target is known. *)
Definition main_try (target_username : string) : M unit :=
  (* Extract data *)
  data ← extract_user_data target_username;
  if truthy (VDict data) then
    (* Generate CSV reports *)
    generate_csv_reports target_username data ;;
    print (LF +:+ "Data extraction completed for @" +:+ target_username) ;;
    print ("Results saved in: " +:+ output_dir cfg) ;;
    summary_line "Profile info" "fields" "user_info" (VDict []) data ;;
    summary_line "Posts" "items" "posts" (VList []) data ;;
    summary_line "Followers" "users" "followers" (VList []) data ;;
    summary_line "Following" "users" "following" (VList []) data
  else print "Failed to extract data. Check logs for details.".

(** [setup_directories] *)
Fixpoint mkdirs (directories : list string) : M unit :=
  match directories with
  | [] => mret tt
  | directory :: rest =>
      call (EvMkdir directory) (fun tr => mkdir_result w tr directory) ;;
      mkdirs rest
  end.

Definition setup_directories : M unit :=
  let directories := [
    output_dir cfg;
    path_join (output_dir cfg) "profiles";
    path_join (output_dir cfg) "posts";
    path_join (output_dir cfg) "stories";
    path_join (output_dir cfg) "media";
    path_join (output_dir cfg) "json_data"
  ] in
  mkdirs directories.
End Extractor.

(** [InstagramExtractor()]: [__init__].  The object is the configuration;
    [output_dir] holds the text of the [Path]. *)
Definition InstagramExtractor (w : World) : M Config :=
  call EvClient (client_result w) ;;
  let username := environ w !! "INSTAGRAM_USERNAME" in
  let password := environ w !! "INSTAGRAM_PASSWORD" in
  let session_file := getenv w "SESSION_FILE" "instagram_session.json" in
  let output_dir := path_of (getenv w "OUTPUT_DIR" "./extracted_data") in
  request_delay ← lift (int_result w (getenv w "REQUEST_DELAY" "2"));
  (* Setup logging *)
  call (EvFileHandler "instagram_extractor.log")
       (fun tr => file_handler_result w tr "instagram_extractor.log") ;;
  let self := MkConfig username password session_file output_dir request_delay in
  (* Create output directories *)
  setup_directories w self ;;
  mret self.

Definition main (w : World) : M unit :=
  extractor ← InstagramExtractor w;
  (* Login *)
  ok ← login w extractor;
  if negb ok then print "Failed to login. Please check your credentials."
  else
    (* Get target username from user *)
    line ← call (EvInput "Enter the Instagram username to extract data from: ")
                (stdin_line w);
    let target_username := py_strip line in
    if negb (truthy (VStr target_username)) then print "No username provided."
    else
      try_except (main_try w extractor target_username)
        (fun e =>
           match exn_class_of e with
           | KeyboardInterrupt =>
               Some (print (LF +:+ "Extraction interrupted by user."))
           | _ =>
               except_Exception (fun e =>
                 print ("An error occurred: " +:+ exn_msg e)) e
           end).

(** ** A concrete world

    The scenario of the specification: target [alice], [REQUEST_DELAY=0], a
    profile with two posts (a photo and a video), downloads enabled. *)

Definition obj_of (cls : string) (attrs : list (string * atom)) : obj :=
  Obj cls (list_to_map attrs).

Definition alice_profile : obj :=
  obj_of "User" [
    ("pk", AInt 42); ("username", AStr "alice"); ("full_name", AStr "Alice A.");
    ("biography", AStr "hello"); ("external_url", ANone);
    ("follower_count", AInt 2); ("following_count", AInt 1);
    ("media_count", AInt 2); ("is_private", ABool false);
    ("is_verified", ABool true); ("profile_pic_url", AStr "https://cdn/p.jpg")
  ].

Definition alice_photo : obj :=
  obj_of "Media" [
    ("id", AStr "111_42"); ("code", AStr "Cphoto");
    ("taken_at", ADatetime "2024-01-02" "03:04:05"); ("media_type", AInt 1);
    ("caption_text", AStr "a photo"); ("like_count", AInt 7);
    ("comment_count", AInt 1); ("play_count", AInt 0);
    ("thumbnail_url", AObject "HttpUrl" "https://cdn/111.jpg"); ("video_url", ANone)
  ].

Definition alice_video : obj :=
  obj_of "Media" [
    ("id", AStr "222_42"); ("code", AStr "Cvideo");
    ("taken_at", ADatetime "2024-02-03" "04:05:06"); ("media_type", AInt 2);
    ("caption_text", AStr "a video"); ("like_count", AInt 9);
    ("comment_count", AInt 0); ("play_count", AInt 30);
    ("thumbnail_url", AObject "HttpUrl" "https://cdn/222.jpg");
    ("video_url", AObject "HttpUrl" "https://cdn/222.mp4")
  ].

(** A media item without its [code] attribute. *)
Definition broken_media : obj :=
  obj_of "Media" [("id", AStr "333_42"); ("media_type", AInt 8)].

Definition bob_short : obj :=
  obj_of "UserShort" [
    ("pk", AInt 7); ("username", AStr "bob"); ("full_name", AStr "Bob");
    ("is_private", ABool false); ("is_verified", ABool false);
    ("profile_pic_url", AObject "HttpUrl" "https://cdn/bob.jpg")
  ].

Definition carol_short : obj :=
  obj_of "UserShort" [
    ("pk", AInt 9); ("username", AStr "carol"); ("full_name", AStr "Carol");
    ("is_private", ABool true); ("is_verified", ABool false);
    ("profile_pic_url", ANone)
  ].

(** [int(text)] on plain decimal text: an optional sign and digits. *)
Fixpoint digits (s : string) (acc : Z) : option Z :=
  match s with
  | EmptyString => Some acc
  | String c s' =>
      let n := nat_of_ascii c in
      if (48 <=? n) && (n <=? 57)
      then digits s' (10 * acc + Z.of_nat (n - 48))%Z
      else None
  end.

Definition decimal (s : string) : Res Z :=
  let invalid :=
    Raise (Exn ValueError ("invalid literal for int() with base 10: '" +:+ s +:+ "'")) in
  match s with
  | EmptyString => invalid
  | String "-"%char (String c s') =>
      match digits (String c s') 0 with Some z => Ret (- z)%Z | None => invalid end
  | String "+"%char (String c s') =>
      match digits (String c s') 0 with Some z => Ret z | None => invalid end
  | _ => match digits s 0 with Some z => Ret z | None => invalid end
  end.

Definition alice_world : World := {|
  environ :=
    <["INSTAGRAM_USERNAME" := "me"]>
      (<["INSTAGRAM_PASSWORD" := "secret"]> (<["REQUEST_DELAY" := "0"]> ∅));
  datetime_now := fun _ => ("2024-05-06", "07:08:09");
  stdin_line := fun _ => Ret " alice ";
  path_exists := fun _ _ => true;
  load_settings_result := fun _ _ => Ret tt;
  login_result := fun _ _ _ => Ret true;
  dump_settings_result := fun _ _ => Ret tt;
  user_info_result := fun _ _ => Ret alice_profile;
  user_id_result := fun _ _ => Ret (AStr "42");
  user_medias_result := fun _ _ _ => Ret [alice_photo; alice_video];
  user_followers_result := fun _ _ _ => Ret [("9", carol_short); ("7", bob_short)];
  user_following_result := fun _ _ _ => Ret [("7", bob_short)];
  http_get_result := fun _ _ => Ret (Response None ["chunk1"; "chunk2"] None);
  open_error := fun _ _ => None;
  write_error := fun _ _ => None;
  dataframe_error := fun _ _ => None;
  sleep_result := fun _ _ => Ret tt;
  client_result := fun _ => Ret tt;
  int_result := decimal;
  file_handler_result := fun _ _ => Ret tt;
  mkdir_result := fun _ _ => Ret tt
|}.

Definition alice_cfg : Config := {|
  username := Some "me";
  password := Some "secret";
  session_file := "instagram_session.json";
  output_dir := "extracted_data";
  request_delay := 0
|}.

Definition st0 : State := MkState [] ∅.

Definition offline_world : World := {|
  environ := environ alice_world;
  datetime_now := datetime_now alice_world;
  stdin_line := stdin_line alice_world;
  path_exists := path_exists alice_world;
  load_settings_result := load_settings_result alice_world;
  login_result := login_result alice_world;
  dump_settings_result := dump_settings_result alice_world;
  user_info_result := fun _ _ => Raise (Exn OtherException "User not found");
  user_id_result := user_id_result alice_world;
  user_medias_result := user_medias_result alice_world;
  user_followers_result := user_followers_result alice_world;
  user_following_result := user_following_result alice_world;
  http_get_result := http_get_result alice_world;
  open_error := open_error alice_world;
  write_error := write_error alice_world;
  dataframe_error := dataframe_error alice_world;
  sleep_result := sleep_result alice_world;
  client_result := client_result alice_world;
  int_result := int_result alice_world;
  file_handler_result := file_handler_result alice_world;
  mkdir_result := mkdir_result alice_world
|}.

Definition locked_out_world : World := {|
  environ := environ alice_world;
  datetime_now := datetime_now alice_world;
  stdin_line := stdin_line alice_world;
  path_exists := path_exists alice_world;
  load_settings_result := load_settings_result alice_world;
  login_result := fun _ _ _ => Raise (Exn BadPassword "bad password");
  dump_settings_result := dump_settings_result alice_world;
  user_info_result := user_info_result alice_world;
  user_id_result := user_id_result alice_world;
  user_medias_result := user_medias_result alice_world;
  user_followers_result := user_followers_result alice_world;
  user_following_result := user_following_result alice_world;
  http_get_result := http_get_result alice_world;
  open_error := open_error alice_world;
  write_error := write_error alice_world;
  dataframe_error := dataframe_error alice_world;
  sleep_result := sleep_result alice_world;
  client_result := client_result alice_world;
  int_result := int_result alice_world;
  file_handler_result := file_handler_result alice_world;
  mkdir_result := mkdir_result alice_world
|}.


(** The platform returns a good item followed by a broken one. *)
Definition partial_world : World := {|
  environ := environ alice_world;
  datetime_now := datetime_now alice_world;
  stdin_line := stdin_line alice_world;
  path_exists := path_exists alice_world;
  load_settings_result := load_settings_result alice_world;
  login_result := login_result alice_world;
  dump_settings_result := dump_settings_result alice_world;
  user_info_result := user_info_result alice_world;
  user_id_result := user_id_result alice_world;
  user_medias_result := fun _ _ _ => Ret [alice_photo; broken_media];
  user_followers_result := user_followers_result alice_world;
  user_following_result := user_following_result alice_world;
  http_get_result := http_get_result alice_world;
  open_error := open_error alice_world;
  write_error := write_error alice_world;
  dataframe_error := dataframe_error alice_world;
  sleep_result := sleep_result alice_world;
  client_result := client_result alice_world;
  int_result := int_result alice_world;
  file_handler_result := file_handler_result alice_world;
  mkdir_result := mkdir_result alice_world
|}.


(** The disk is full: every write fails. *)
Definition full_disk_world : World := {|
  environ := environ alice_world;
  datetime_now := datetime_now alice_world;
  stdin_line := stdin_line alice_world;
  path_exists := path_exists alice_world;
  load_settings_result := load_settings_result alice_world;
  login_result := login_result alice_world;
  dump_settings_result := dump_settings_result alice_world;
  user_info_result := user_info_result alice_world;
  user_id_result := user_id_result alice_world;
  user_medias_result := user_medias_result alice_world;
  user_followers_result := user_followers_result alice_world;
  user_following_result := user_following_result alice_world;
  http_get_result := http_get_result alice_world;
  open_error := open_error alice_world;
  write_error := fun _ _ => Some (Exn OtherException "No space left on device");
  dataframe_error := dataframe_error alice_world;
  sleep_result := sleep_result alice_world;
  client_result := client_result alice_world;
  int_result := int_result alice_world;
  file_handler_result := file_handler_result alice_world;
  mkdir_result := mkdir_result alice_world
|}.

(** A result with one post and nobody following or followed. *)
Definition lonely_data : dict :=
  [("user_info", VDict [("pk", VStr "42")]);
   ("posts", VList [VDict [("id", VStr "111_42")]]);
   ("followers", VList []);
   ("following", VList [])].

(** * Specification vocabulary

    The predicates and functions in which the properties of the extractor
    are stated. *)

(** ** Effects of a computation *)

(** [follows R m]: every run of [m], however it ends, takes the state along
    the relation [R]. *)
Definition follows {A} (R : relation State) (m : M A) : Prop :=
  forall st r st', m st = (r, st') -> R st st'.

(** [touches P Q]: the new events all satisfy [P], and only files whose path
    satisfies [Q] are changed. *)
Definition touches (P : event -> Prop) (Q : string -> Prop) : relation State :=
  fun st st' =>
    (exists evs, trace st' = trace st ++ evs /\ Forall P evs) /\
    (forall path, ~ Q path -> fs st' !! path = fs st !! path).

(** The only events of a profile fetch. *)
Definition profile_event (name : string) (ev : event) : Prop :=
  match ev with
  | EvLog _ _ | EvSleep _ => True
  | EvUserInfoByUsername n => n = name
  | _ => False
  end.

(** The state in which [extract_user_data] calls [get_user_info]: its opening
    log record has been emitted. *)
Definition started (name : string) (st : State) : State :=
  MkState (trace st ++ [EvLog INFO ("Starting data extraction for " +:+ name)]) (fs st).

(** The text logged by the second [try] of [login] for a failure [e]. *)
Definition login_error_message (e : exn) : string :=
  match exn_class_of e with
  | BadPassword => "Invalid username or password"
  | ReloginAttemptExceeded => "Too many login attempts"
  | ChallengeRequired => "Challenge required: " +:+ exn_msg e
  | _ => "Login failed: " +:+ exn_msg e
  end.

(** Any event but a [dump_settings] call. *)
Definition not_dump (ev : event) : Prop :=
  match ev with EvDumpSettings _ => False | _ => True end.

(** ** Failures and interrupts

    A failure is an [Exception]; anything else that can be raised is an
    interrupt. *)

(** An answer that is a value or a failure. *)
Definition failure_or_value {A} (r : Res A) : Prop :=
  match r with
  | Ret _ => True
  | Raise e => is_Exception e = true
  end.

(** An optional error that is a failure when there is one. *)
Definition failure_or_none (o : option exn) : Prop :=
  match o with
  | None => True
  | Some e => is_Exception e = true
  end.

(** [fails_only m]: whatever [m] raises is a failure. *)
Definition fails_only {A} (m : M A) : Prop :=
  forall st e st', m st = (Raise e, st') -> is_Exception e = true.

(** [returns m]: [m] raises nothing at all. *)
Definition returns {A} (m : M A) : Prop :=
  forall st, exists a st', m st = (Ret a, st').

(** ** Records and documents *)

(** The fields of a Post, in the order the record is built. *)
Definition post_fields : list string :=
  ["id"; "code"; "taken_at"; "media_type"; "caption"; "like_count";
   "comment_count"; "play_count"; "thumbnail_url"; "resources"].

(** Events of [download_media] after its request: storing the body, or
    logging the failure. *)
Definition transfer_event (ev : event) : Prop :=
  match ev with
  | EvOpen _ | EvWrite _ | EvLog _ _ => True
  | _ => False
  end.

(** Follows the specification's words: the download an item calls for, as
    the URL to fetch and the file name to store it under.  A photo
    (media-type 1, photos enabled) is fetched from the thumbnail URL into
    [{username}_{postId}.jpg]; a video (media-type 2, videos enabled, with
    a [video_url] attribute) from the video URL into
    [{username}_{postId}.mp4]; any other item calls for none. *)
Definition spec_download_target (w : World) (name : string) (media : obj)
  : option (string * string) :=
  match obj_attrs media !! "media_type", obj_attrs media !! "id" with
  | Some mt, Some mid =>
      if py_eq_int mt 1 && toggle w "DOWNLOAD_PHOTOS" then
        match obj_attrs media !! "thumbnail_url" with
        | Some thumb => Some (py_str thumb, name +:+ "_" +:+ py_str mid +:+ ".jpg")
        | None => None
        end
      else if py_eq_int mt 2 && toggle w "DOWNLOAD_VIDEOS" then
        match obj_attrs media !! "video_url" with
        | Some url => Some (py_str url, name +:+ "_" +:+ py_str mid +:+ ".mp4")
        | None => None
        end
      else None
  | _, _ => None
  end.

(** What a download leaves in the record. *)
Definition with_local_file (base : dict) (fn : string) (ok : bool) : dict :=
  if ok then dict_set base "local_file" (VStr ("media/" +:+ fn)) else base.

(** The downloads that returned, as (URL, file name), and the URLs
    requested, in the order of the events. *)
Definition attempts (evs : list event) : list (string * string) :=
  omap (fun ev => match ev with
                  | EvDownloadMedia url fn _ => Some (url, fn)
                  | _ => None
                  end) evs.

Definition requests (evs : list event) : list string :=
  omap (fun ev => match ev with EvHttpGet url => Some url | _ => None end) evs.

(** What a record produced by the loop body looks like. *)
Definition post_of (media : obj) (post : pyval) : Prop :=
  exists d mid,
    post = VDict d /\
    obj_attrs media !! "id" = Some mid /\
    dict_lookup d "id" = Some (VStr (py_str mid)) /\
    (dict_keys d = post_fields \/ dict_keys d = post_fields ++ ["local_file"]).

(** The fields of a RelationshipEntry, in the order the record is built. *)
Definition relationship_fields : list string :=
  ["pk"; "username"; "full_name"; "is_private"; "is_verified";
   "follower_count"; "following_count"; "profile_pic_url"].

(** The record built for one item of the mapping. *)
Definition relation_of (item : string * obj) (v : pyval) : Prop :=
  exists d pk uname,
    v = VDict d /\
    obj_attrs item.2 !! "pk" = Some pk /\
    obj_attrs item.2 !! "username" = Some uname /\
    dict_keys d = relationship_fields /\
    dict_lookup d "pk" = Some (VStr (py_str pk)) /\
    dict_lookup d "username" = Some (VAtom uname).




(** The three report categories. *)
Definition categories : list string := ["posts"; "followers"; "following"].

(** The files [generate_csv_reports] may write for [name] and [data]: the
    report of each category whose entry in [data] is truthy. *)
Definition report_file (cfg : Config) (name : string) (data : dict) (path : string)
  : Prop :=
  exists category,
    category ∈ categories /\
    truthy (dict_get data category VNone) = true /\
    path = csv_path cfg name category.

(** The events of [generate_csv_reports]: log records, data frames, and
    storage on report files. *)
Definition report_event (cfg : Config) (name : string) (data : dict) (ev : event)
  : Prop :=
  match ev with
  | EvLog _ _ | EvDataFrame _ => True
  | EvOpen path | EvWrite path => report_file cfg name data path
  | _ => False
  end.

(** The fields of a Profile and of an ExtractionResult, in order. *)
Definition profile_fields : list string :=
  ["pk"; "username"; "full_name"; "biography"; "external_url";
   "follower_count"; "following_count"; "media_count"; "is_private";
   "is_verified"; "profile_pic_url"; "extracted_at"].

(** A dict with exactly the keys [fields]. *)
Definition has_fields (fields : list string) (v : pyval) : Prop :=
  exists d, v = VDict d /\ dict_keys d = fields.

(** A Post: the ten fields, and the local file when there is one. *)
Definition post_shape (v : pyval) : Prop :=
  has_fields post_fields v \/ has_fields (post_fields ++ ["local_file"]) v.

(** An ExtractionResult with the fields of the data model throughout. *)
Definition well_formed_document (doc : pyval) : Prop :=
  exists ui posts followers following ts,
    doc = VDict [("user_info", VDict ui); ("posts", VList posts);
                 ("followers", VList followers); ("following", VList following);
                 ("extraction_timestamp", VStr ts)] /\
    dict_keys ui = profile_fields /\
    Forall post_shape posts /\
    Forall (has_fields relationship_fields) followers /\
    Forall (has_fields relationship_fields) following.

(** The number of entries a document holds under [key]. *)
Definition seq_len (doc : pyval) (key : string) : nat :=
  match doc with
  | VDict d =>
      match dict_lookup d key with
      | Some (VList l) => length l
      | Some (VDict l) => length l
      | _ => 0
      end
  | _ => 0
  end.

(** The console summary for a document. *)
Definition summary (cfg : Config) (target : string) (doc : pyval) : list event :=
  [EvPrint (LF +:+ "Data extraction completed for @" +:+ target);
   EvPrint ("Results saved in: " +:+ output_dir cfg);
   EvPrint ("- Profile info: " +:+ pretty (seq_len doc "user_info") +:+ " fields");
   EvPrint ("- Posts: " +:+ pretty (seq_len doc "posts") +:+ " items");
   EvPrint ("- Followers: " +:+ pretty (seq_len doc "followers") +:+ " users");
   EvPrint ("- Following: " +:+ pretty (seq_len doc "following") +:+ " users")].

(** * More of the program, and the vocabulary for it *)

(** ** [setup.py]: the requirement list *)

(** [s.startswith(prefix)] *)
Definition startswith (s prefix : string) : bool := String.prefix prefix s.

(** [[line.strip() for line in fh if line.strip() and not line.startswith("#")]],
    with [lines] the lines of [requirements.txt], each with its line end. *)
Definition read_requirements (lines : list string) : list string :=
  py_strip <$>
    List.filter
      (fun line => truthy (VStr (py_strip line)) && negb (startswith line "#"))
      lines.

(** First byte of a string. *)
Definition first_char (s : string) : option ascii :=
  match s with
  | EmptyString => None
  | String c _ => Some c
  end.

(** A requirement as [setup] wants it: not empty, no white space around. *)
Definition clean (s : string) : Prop :=
  s <> "" /\
  (forall c, first_char s = Some c -> py_isspace c = false) /\
  (forall c, last_char s = Some c -> py_isspace c = false).

(** A [requirements.txt] with a comment, a blank line and stray blanks. *)
Definition requirements_txt : list string :=
  ["# core" +:+ LF; "instagrapi>=2.0.0" +:+ LF; LF; "  pandas " +:+ LF].

(** ** Vocabulary for the session manager and the entry point *)

Definition is_login_call (ev : event) : bool :=
  match ev with EvLogin _ _ => true | _ => false end.

(** The number of [client.login] calls among some events. *)
Definition login_calls (evs : list event) : nat :=
  length (List.filter is_login_call evs).

(** The events of [login]. *)
Definition session_event (ev : event) : Prop :=
  match ev with
  | EvPathExists _ | EvLoadSettings _ | EvLogin _ _ | EvDumpSettings _
  | EvLog _ _ => True
  | _ => False
  end.

(** The events of an extraction: platform requests for data, transfers,
    and storage. *)
Definition extraction_event (ev : event) : Prop :=
  match ev with
  | EvUserInfoByUsername _ | EvUserIdFromUsername _ | EvUserMedias _ _
  | EvUserFollowers _ _ | EvUserFollowing _ _ | EvHttpGet _ | EvOpen _
  | EvWrite _ | EvDataFrame _ | EvDownloadMedia _ _ _ => True
  | _ => False
  end.

(** The state once [main] has read the answer to its prompt. *)
Definition prompted (st : State) : State :=
  MkState (trace st ++ [EvInput "Enter the Instagram username to extract data from: "])
          (fs st).

(** ** More concrete worlds *)

(** No session file; [client.login] answers [False] without raising. *)
Definition first_run_world : World := {|
  environ := environ alice_world;
  datetime_now := datetime_now alice_world;
  stdin_line := stdin_line alice_world;
  path_exists := fun _ _ => false;
  load_settings_result := load_settings_result alice_world;
  login_result := fun _ _ _ => Ret false;
  dump_settings_result := dump_settings_result alice_world;
  user_info_result := user_info_result alice_world;
  user_id_result := user_id_result alice_world;
  user_medias_result := user_medias_result alice_world;
  user_followers_result := user_followers_result alice_world;
  user_following_result := user_following_result alice_world;
  http_get_result := http_get_result alice_world;
  open_error := open_error alice_world;
  write_error := write_error alice_world;
  dataframe_error := dataframe_error alice_world;
  sleep_result := sleep_result alice_world;
  client_result := client_result alice_world;
  int_result := int_result alice_world;
  file_handler_result := file_handler_result alice_world;
  mkdir_result := mkdir_result alice_world
|}.

(** No session file, and the session cannot be stored. *)
Definition readonly_home_world : World := {|
  environ := environ alice_world;
  datetime_now := datetime_now alice_world;
  stdin_line := stdin_line alice_world;
  path_exists := fun _ _ => false;
  load_settings_result := load_settings_result alice_world;
  login_result := login_result alice_world;
  dump_settings_result := fun _ _ => Raise (Exn OtherException "Permission denied");
  user_info_result := user_info_result alice_world;
  user_id_result := user_id_result alice_world;
  user_medias_result := user_medias_result alice_world;
  user_followers_result := user_followers_result alice_world;
  user_following_result := user_following_result alice_world;
  http_get_result := http_get_result alice_world;
  open_error := open_error alice_world;
  write_error := write_error alice_world;
  dataframe_error := dataframe_error alice_world;
  sleep_result := sleep_result alice_world;
  client_result := client_result alice_world;
  int_result := int_result alice_world;
  file_handler_result := file_handler_result alice_world;
  mkdir_result := mkdir_result alice_world
|}.

(** The stored session has expired: the first [client.login] call fails,
    the next one succeeds. *)
Definition expired_session_world : World := {|
  environ := environ alice_world;
  datetime_now := datetime_now alice_world;
  stdin_line := stdin_line alice_world;
  path_exists := path_exists alice_world;
  load_settings_result := load_settings_result alice_world;
  login_result := fun tr _ _ =>
    if Nat.leb (length tr) 2 then Raise (Exn OtherException "login_required")
    else Ret true;
  dump_settings_result := dump_settings_result alice_world;
  user_info_result := user_info_result alice_world;
  user_id_result := user_id_result alice_world;
  user_medias_result := user_medias_result alice_world;
  user_followers_result := user_followers_result alice_world;
  user_following_result := user_following_result alice_world;
  http_get_result := http_get_result alice_world;
  open_error := open_error alice_world;
  write_error := write_error alice_world;
  dataframe_error := dataframe_error alice_world;
  sleep_result := sleep_result alice_world;
  client_result := client_result alice_world;
  int_result := int_result alice_world;
  file_handler_result := file_handler_result alice_world;
  mkdir_result := mkdir_result alice_world
|}.

(** Standard input is closed. *)
Definition closed_stdin_world : World := {|
  environ := environ alice_world;
  datetime_now := datetime_now alice_world;
  stdin_line := fun _ => Raise (Exn OtherException "EOF when reading a line");
  path_exists := path_exists alice_world;
  load_settings_result := load_settings_result alice_world;
  login_result := login_result alice_world;
  dump_settings_result := dump_settings_result alice_world;
  user_info_result := user_info_result alice_world;
  user_id_result := user_id_result alice_world;
  user_medias_result := user_medias_result alice_world;
  user_followers_result := user_followers_result alice_world;
  user_following_result := user_following_result alice_world;
  http_get_result := http_get_result alice_world;
  open_error := open_error alice_world;
  write_error := write_error alice_world;
  dataframe_error := dataframe_error alice_world;
  sleep_result := sleep_result alice_world;
  client_result := client_result alice_world;
  int_result := int_result alice_world;
  file_handler_result := file_handler_result alice_world;
  mkdir_result := mkdir_result alice_world
|}.

(** The operator interrupts the run while the followers are listed. *)
Definition interrupted_world : World := {|
  environ := environ alice_world;
  datetime_now := datetime_now alice_world;
  stdin_line := stdin_line alice_world;
  path_exists := path_exists alice_world;
  load_settings_result := load_settings_result alice_world;
  login_result := login_result alice_world;
  dump_settings_result := dump_settings_result alice_world;
  user_info_result := user_info_result alice_world;
  user_id_result := user_id_result alice_world;
  user_medias_result := user_medias_result alice_world;
  user_followers_result := fun _ _ _ => Raise (Exn KeyboardInterrupt "");
  user_following_result := user_following_result alice_world;
  http_get_result := http_get_result alice_world;
  open_error := open_error alice_world;
  write_error := write_error alice_world;
  dataframe_error := dataframe_error alice_world;
  sleep_result := sleep_result alice_world;
  client_result := client_result alice_world;
  int_result := int_result alice_world;
  file_handler_result := file_handler_result alice_world;
  mkdir_result := mkdir_result alice_world
|}.

(** ** Vocabulary for frames *)

(** A file a download for [target] is stored in: the path the code builds
    for [{target}_{id}.jpg] or [{target}_{id}.mp4] in the media directory. *)
Definition media_file (cfg : Config) (target : string) (path : string) : Prop :=
  exists mid ext,
    (ext = ".jpg" \/ ext = ".mp4") /\
    path = media_path cfg (target +:+ "_" +:+ mid +:+ ext).

(** The files an extraction for [target] may open: its media files and its
    JSON document. *)
Definition extractor_file (cfg : Config) (target : string) (path : string) : Prop :=
  media_file cfg target path \/ path = json_path cfg target.

(** The events of an extraction for the account [target]: no console or
    session traffic, platform requests about [target] only, and storage on
    the files of [target] only. *)
Definition extractor_event (cfg : Config) (target : string) (ev : event) : Prop :=
  match ev with
  | EvUserInfoByUsername n | EvUserIdFromUsername n => n = target
  | EvOpen path | EvWrite path => extractor_file cfg target path
  | EvLog _ _ | EvSleep _ | EvUserMedias _ _ | EvUserFollowers _ _
  | EvUserFollowing _ _ | EvHttpGet _ | EvDownloadMedia _ _ _ => True
  | _ => False
  end.

(** Any event but a platform request about an account other than [target]. *)
Definition asks_about (target : string) (ev : event) : Prop :=
  match ev with
  | EvUserInfoByUsername n | EvUserIdFromUsername n => n = target
  | _ => True
  end.

(** The connection drops while the photo is streamed: two chunks arrive,
    then the stream fails. *)
Definition dropped_stream_world : World := {|
  environ := environ alice_world;
  datetime_now := datetime_now alice_world;
  stdin_line := stdin_line alice_world;
  path_exists := path_exists alice_world;
  load_settings_result := load_settings_result alice_world;
  login_result := login_result alice_world;
  dump_settings_result := dump_settings_result alice_world;
  user_info_result := user_info_result alice_world;
  user_id_result := user_id_result alice_world;
  user_medias_result := user_medias_result alice_world;
  user_followers_result := user_followers_result alice_world;
  user_following_result := user_following_result alice_world;
  http_get_result := fun _ _ =>
    Ret (Response None ["chunk1"; "chunk2"]
           (Some (Exn OtherException "Connection broken")));
  open_error := open_error alice_world;
  write_error := write_error alice_world;
  dataframe_error := dataframe_error alice_world;
  sleep_result := sleep_result alice_world;
  client_result := client_result alice_world;
  int_result := int_result alice_world;
  file_handler_result := file_handler_result alice_world;
  mkdir_result := mkdir_result alice_world
|}.

(** The server answers 404. *)
Definition not_found_world : World := {|
  environ := environ alice_world;
  datetime_now := datetime_now alice_world;
  stdin_line := stdin_line alice_world;
  path_exists := path_exists alice_world;
  load_settings_result := load_settings_result alice_world;
  login_result := login_result alice_world;
  dump_settings_result := dump_settings_result alice_world;
  user_info_result := user_info_result alice_world;
  user_id_result := user_id_result alice_world;
  user_medias_result := user_medias_result alice_world;
  user_followers_result := user_followers_result alice_world;
  user_following_result := user_following_result alice_world;
  http_get_result := fun _ _ =>
    Ret (Response (Some (Exn OtherException "404 Client Error")) [] None);
  open_error := open_error alice_world;
  write_error := write_error alice_world;
  dataframe_error := dataframe_error alice_world;
  sleep_result := sleep_result alice_world;
  client_result := client_result alice_world;
  int_result := int_result alice_world;
  file_handler_result := file_handler_result alice_world;
  mkdir_result := mkdir_result alice_world
|}.

(** The text [download_media] logs for a failure. *)
Definition download_error_message (filename : string) (e : exn) : string :=
  "Failed to download media " +:+ filename +:+ ": " +:+ exn_msg e.

(** A configuration with a negative delay, [REQUEST_DELAY=-1]. *)
Definition hasty_cfg : Config := {|
  username := Some "me";
  password := Some "secret";
  session_file := "instagram_session.json";
  output_dir := "extracted_data";
  request_delay := -1
|}.

(** Both download toggles are set to something other than [true]. *)
Definition metadata_only_world : World := {|
  environ := <["DOWNLOAD_PHOTOS" := "False"]> (<["DOWNLOAD_VIDEOS" := "0"]> ∅);
  datetime_now := datetime_now alice_world;
  stdin_line := stdin_line alice_world;
  path_exists := path_exists alice_world;
  load_settings_result := load_settings_result alice_world;
  login_result := login_result alice_world;
  dump_settings_result := dump_settings_result alice_world;
  user_info_result := user_info_result alice_world;
  user_id_result := user_id_result alice_world;
  user_medias_result := user_medias_result alice_world;
  user_followers_result := user_followers_result alice_world;
  user_following_result := user_following_result alice_world;
  http_get_result := http_get_result alice_world;
  open_error := open_error alice_world;
  write_error := write_error alice_world;
  dataframe_error := dataframe_error alice_world;
  sleep_result := sleep_result alice_world;
  client_result := client_result alice_world;
  int_result := int_result alice_world;
  file_handler_result := file_handler_result alice_world;
  mkdir_result := mkdir_result alice_world
|}.

(** Log records, pauses and platform listings: no transfer, no storage. *)
Definition lookup_event (ev : event) : Prop :=
  match ev with
  | EvLog _ _ | EvSleep _ | EvUserIdFromUsername _ | EvUserMedias _ _
  | EvUserFollowers _ _ | EvUserFollowing _ _ => True
  | _ => False
  end.



(** A photo the platform reports without a thumbnail. *)
Definition bare_photo : obj :=
  obj_of "Media"
    [("id", AStr "7_42"); ("code", AStr "Cbare"); ("taken_at", ANone);
     ("media_type", AInt 1); ("like_count", AInt 0); ("comment_count", AInt 0);
     ("thumbnail_url", ANone)].

(** The profile can be fetched, but every user-id lookup is refused. *)
Definition rate_limited_world : World := {|
  environ := environ alice_world;
  datetime_now := datetime_now alice_world;
  stdin_line := stdin_line alice_world;
  path_exists := path_exists alice_world;
  load_settings_result := load_settings_result alice_world;
  login_result := login_result alice_world;
  dump_settings_result := dump_settings_result alice_world;
  user_info_result := user_info_result alice_world;
  user_id_result := fun _ _ => Raise (Exn OtherException "Please wait a few minutes");
  user_medias_result := user_medias_result alice_world;
  user_followers_result := user_followers_result alice_world;
  user_following_result := user_following_result alice_world;
  http_get_result := http_get_result alice_world;
  open_error := open_error alice_world;
  write_error := write_error alice_world;
  dataframe_error := dataframe_error alice_world;
  sleep_result := sleep_result alice_world;
  client_result := client_result alice_world;
  int_result := int_result alice_world;
  file_handler_result := file_handler_result alice_world;
  mkdir_result := mkdir_result alice_world
|}.



(** What a successful report of [category] leaves in the file store. *)
Definition with_report (cfg : Config) (name : string) (data : dict) (category : string)
    (files : gmap string (list written)) : gmap string (list written) :=
  if truthy (dict_get data category VNone)
  then <[csv_path cfg name category := [WCsv (dict_get data category VNone)]]> files
  else files.

(** A result with one post and one follower. *)
Definition popular_data : dict :=
  [("user_info", VDict [("pk", VStr "42")]);
   ("posts", VList [VDict [("id", VStr "111_42")]]);
   ("followers", VList [VDict [("pk", VStr "7")]]);
   ("following", VList [])].

(** An account name as the platform has them: without a slash. *)
Definition plain_name (s : string) : bool :=
  forallb (fun c => negb (is_slash c)) (list_ascii_of_string s).

(** A last part of a file name: a text without a slash, neither empty nor
    a single dot. *)
Definition is_tail (t : string) : bool := is_part t && plain_name t.

(** The events of [main] before it prompts: building the extractor (client,
    log file, directories) and logging in. *)
Definition startup_event (ev : event) : Prop :=
  match ev with
  | EvClient | EvFileHandler _ | EvMkdir _ => True
  | _ => session_event ev
  end.

(** [REQUEST_DELAY=abc]: the constructor cannot read the delay. *)
Definition bad_delay_world : World := {|
  environ := <["REQUEST_DELAY" := "abc"]> ∅;
  datetime_now := datetime_now alice_world;
  stdin_line := stdin_line alice_world;
  path_exists := path_exists alice_world;
  load_settings_result := load_settings_result alice_world;
  login_result := login_result alice_world;
  dump_settings_result := dump_settings_result alice_world;
  user_info_result := user_info_result alice_world;
  user_id_result := user_id_result alice_world;
  user_medias_result := user_medias_result alice_world;
  user_followers_result := user_followers_result alice_world;
  user_following_result := user_following_result alice_world;
  http_get_result := http_get_result alice_world;
  open_error := open_error alice_world;
  write_error := write_error alice_world;
  dataframe_error := dataframe_error alice_world;
  sleep_result := sleep_result alice_world;
  client_result := client_result alice_world;
  int_result := int_result alice_world;
  file_handler_result := file_handler_result alice_world;
  mkdir_result := mkdir_result alice_world
|}.

(** The operator types a no-break space and nothing else. *)
Definition nbsp_world : World := {|
  environ := environ alice_world;
  datetime_now := datetime_now alice_world;
  stdin_line := fun _ => Ret (String (ascii_of_nat 194) (String (ascii_of_nat 160) ""));
  path_exists := path_exists alice_world;
  load_settings_result := load_settings_result alice_world;
  login_result := login_result alice_world;
  dump_settings_result := dump_settings_result alice_world;
  user_info_result := user_info_result alice_world;
  user_id_result := user_id_result alice_world;
  user_medias_result := user_medias_result alice_world;
  user_followers_result := user_followers_result alice_world;
  user_following_result := user_following_result alice_world;
  http_get_result := http_get_result alice_world;
  open_error := open_error alice_world;
  write_error := write_error alice_world;
  dataframe_error := dataframe_error alice_world;
  sleep_result := sleep_result alice_world;
  client_result := client_result alice_world;
  int_result := int_result alice_world;
  file_handler_result := file_handler_result alice_world;
  mkdir_result := mkdir_result alice_world
|}.

(** * Reasoning about computations *)

(** ** Running a computation step by step *)

Lemma bind_run {A B} (m : M A) (k : A -> M B) st :
  (m ≫= k) st =
  match m st with
  | (Ret a, st') => k a st'
  | (Raise e, st') => (Raise e, st')
  end.
Proof. reflexivity. Qed.

Lemma bind_ret_inv {A B} (m : M A) (k : A -> M B) st b st' :
  (m ≫= k) st = (Ret b, st') ->
  exists a st1, m st = (Ret a, st1) /\ k a st1 = (Ret b, st').
Proof.
  rewrite bind_run. destruct (m st) as [[a|e] st1]; intros H.
  - exists a, st1. split; [reflexivity | exact H].
  - discriminate H.
Qed.

Lemma bind_raise_inv {A B} (m : M A) (k : A -> M B) st e st' :
  (m ≫= k) st = (Raise e, st') ->
  m st = (Raise e, st') \/
  exists a st1, m st = (Ret a, st1) /\ k a st1 = (Raise e, st').
Proof.
  rewrite bind_run. destruct (m st) as [[a|e1] st1]; intros H.
  - right. exists a, st1. split; [reflexivity | exact H].
  - left. injection H as -> ->. reflexivity.
Qed.

Lemma try_except_run {A} (m : M A) h st :
  try_except m h st =
  match m st with
  | (Ret a, st') => (Ret a, st')
  | (Raise e, st') =>
      match h e with Some k => k st' | None => (Raise e, st') end
  end.
Proof. reflexivity. Qed.

(** ** What a computation may do to the state

    For a pre-order [R], [follows R] is closed under sequencing and
    exception handling. *)

Section Follows.
Context (R : relation State) `{!PreOrder R}.

Lemma follows_ret {A} (a : A) : follows R (mret a).
Proof. intros st r st' [= _ <-]. reflexivity. Qed.

Lemma follows_raise {A} e : follows R (@raise A e).
Proof. intros st r st' [= _ <-]. reflexivity. Qed.

Lemma follows_lift {A} (r : Res A) : follows R (lift r).
Proof. intros st r' st' [= _ <-]. reflexivity. Qed.

Lemma follows_bind {A B} (m : M A) (k : A -> M B) :
  follows R m -> (forall a, follows R (k a)) -> follows R (m ≫= k).
Proof.
  intros Hm Hk st r st'. rewrite bind_run.
  destruct (m st) as [[a|e] st1] eqn:E; intros H.
  - transitivity st1; [eapply Hm, E | eapply Hk, H].
  - injection H as _ <-. eapply Hm, E.
Qed.

Lemma follows_try_except {A} (m : M A) h :
  follows R m -> (forall e k, h e = Some k -> follows R k) ->
  follows R (try_except m h).
Proof.
  intros Hm Hh st r st'. rewrite try_except_run.
  destruct (m st) as [[a|e] st1] eqn:E.
  - intros [= _ <-]. eapply Hm, E.
  - destruct (h e) as [k|] eqn:Eh.
    + intros H. transitivity st1; [eapply Hm, E | eapply Hh; eauto].
    + intros [= _ <-]. eapply Hm, E.
Qed.

Lemma follows_except_Exception {A} (m : M A) k :
  follows R m -> (forall e, follows R (k e)) ->
  follows R (try_except m (except_Exception k)).
Proof.
  intros Hm Hk. apply follows_try_except; [exact Hm |].
  intros e k'. unfold except_Exception.
  destruct (is_Exception e); [intros [= <-]; apply Hk | discriminate].
Qed.

(** A [try] that starts with an external call: the rest runs from the
    state in which the call has been recorded. *)
Lemma follows_after_call {A B} ev (answer : list event -> Res A)
      (k : A -> M B) h st r st' :
  (forall a, follows R (try_except (k a) h)) ->
  (forall e k', h e = Some k' -> follows R k') ->
  try_except (call ev answer ≫= k) h st = (r, st') ->
  R (MkState (trace st ++ [ev]) (fs st)) st'.
Proof.
  intros Hk Hh. rewrite try_except_run, bind_run. unfold call at 1.
  destruct (answer (trace st)) as [a|e].
  - intros H. eapply (Hk a). rewrite try_except_run. exact H.
  - destruct (h e) as [k'|] eqn:Eh.
    + intros H. eapply Hh; eauto.
    + intros [= _ <-]. reflexivity.
Qed.

Lemma follows_dict_literal entries :
  Forall (fun km => follows R (snd km)) entries ->
  follows R (dict_literal entries).
Proof.
  induction 1 as [|[k m] rest Hm _ IH]; simpl.
  - apply follows_ret.
  - apply follows_bind; [exact Hm |]. intros v.
    apply follows_bind; [exact IH |]. intros d. apply follows_ret.
Qed.
End Follows.

Global Instance touches_preorder P Q : PreOrder (touches P Q).
Proof.
  split.
  - intros st. split; [exists []; split; [by rewrite app_nil_r | constructor] | done].
  - intros s1 s2 s3 [(e1 & H1 & F1) K1] [(e2 & H2 & F2) K2]. split.
    + exists (e1 ++ e2). split; [by rewrite H2, H1, app_assoc | by apply Forall_app].
    + intros p Hp. by rewrite K2, K1.
Qed.

Lemma touches_weaken (P P' : event -> Prop) (Q Q' : string -> Prop) st st' :
  (forall ev, P ev -> P' ev) -> (forall p, Q p -> Q' p) ->
  touches P Q st st' -> touches P' Q' st st'.
Proof.
  intros HP HQ [(evs & H & F) K]. split.
  - exists evs. split; [exact H | eapply Forall_impl; eauto].
  - intros p Hp. apply K. intros Hq. apply Hp, HQ, Hq.
Qed.

(** No file is touched at all: the file store is the same. *)
Lemma touches_no_file P st st' :
  touches P (fun _ => False) st st' -> fs st' = fs st.
Proof. intros [_ K]. apply map_eq. intros p. apply K. tauto. Qed.

Section Touches.
Context (P : event -> Prop) (Q : string -> Prop).
Variable w : World.

Lemma touches_emit ev : P ev -> follows (touches P Q) (emit ev).
Proof.
  intros Hev st r st' [= _ <-]. split; [|done].
  exists [ev]. split; [done | by constructor].
Qed.

Lemma touches_call {A} ev (answer : list event -> Res A) :
  P ev -> follows (touches P Q) (call ev answer).
Proof.
  intros Hev st r st' [= _ <-]. split; [|done].
  exists [ev]. split; [done | by constructor].
Qed.

Lemma touches_sleep secs : P (EvSleep secs) -> follows (touches P Q) (sleep w secs).
Proof.
  intros Hev. unfold sleep. destruct (Qle_bool _ _).
  - by apply touches_call.
  - apply follows_raise, _.
Qed.

Lemma touches_now : follows (touches P Q) (now_isoformat w).
Proof.
  intros st r st'. unfold now_isoformat.
  destruct (datetime_now w (trace st)). intros [= _ <-]. reflexivity.
Qed.

Lemma touches_fs_open path :
  P (EvOpen path) -> Q path -> follows (touches P Q) (fs_open w path).
Proof.
  intros Hev Hq st r st'. unfold fs_open.
  destruct (open_error w (trace st) path); intros [= _ <-]; (split;
    [exists [EvOpen path]; split; [done | by constructor] | simpl]).
  - done.
  - intros p Hp. apply lookup_insert_ne. by intros ->.
Qed.

Lemma touches_fs_write path item :
  P (EvWrite path) -> Q path -> follows (touches P Q) (fs_write w path item).
Proof.
  intros Hev Hq st r st'. unfold fs_write.
  destruct (write_error w (trace st) path); intros [= _ <-]; (split;
    [exists [EvWrite path]; split; [done | by constructor] | simpl]).
  - done.
  - intros p Hp. apply lookup_insert_ne. by intros ->.
Qed.
End Touches.

(** Structural proof of a [follows (touches P Q)] goal: one rule per
    construct of the monad, case analysis on tests. *)
Ltac touches_step :=
  lazymatch goal with
  | |- follows _ (mret _) => apply follows_ret; apply _
  | |- follows _ (raise _) => apply follows_raise; apply _
  | |- follows _ (lift _) => apply follows_lift; apply _
  | |- follows _ (attr _ _) => apply follows_lift; apply _
  | |- follows _ (str_attr _ _) => apply follows_lift; apply _
  | |- follows _ (str_attr_or_empty _ _) => apply follows_lift; apply _
  | |- follows _ (now_isoformat _) => apply touches_now
  | |- follows _ (log _ _) => apply touches_emit
  | |- follows _ (print _) => apply touches_emit
  | |- follows _ (emit _) => apply touches_emit
  | |- follows _ (call _ _) => apply touches_call
  | |- follows _ (sleep _ _) => apply touches_sleep
  | |- follows _ (fs_open _ _) => apply touches_fs_open
  | |- follows _ (fs_write _ _ _) => apply touches_fs_write
  | |- follows _ (_ ≫= _) => apply follows_bind; [apply _ | | intros ?]
  | |- follows _ (try_except _ (except_Exception _)) =>
      apply follows_except_Exception; [apply _ | | intros ?]
  | |- follows _ (dict_literal _) =>
      apply follows_dict_literal;
        [apply _ | repeat (apply Forall_cons_2 || apply Forall_nil_2); simpl]
  | |- follows _ (if ?b then _ else _) => destruct b
  | |- follows _ (match ?x with _ => _ end) => destruct x
  end.

(** ** Profile fetch *)

Lemma get_user_info_touches w cfg name :
  follows (touches (profile_event name) (fun _ => False)) (get_user_info w cfg name).
Proof.
  unfold get_user_info, get_user_info_try.
  repeat touches_step; simpl; auto.
Qed.

(** C1.  When [get_user_info] returns [None], [extract_user_data] returns the
    empty dict and stops there: the file store is unchanged, and the only
    events are log records, the delay and the profile request itself, so no
    file is opened or written and none of the three collectors, which all
    start by resolving the user id, has been entered. *)
Theorem extract_user_data_profile_absent w cfg name st st1 :
  get_user_info w cfg name (started name st) = (Ret VNone, st1) ->
  extract_user_data w cfg name st = (Ret [], st1) /\
  fs st1 = fs st /\
  exists evs,
    trace st1 = trace st ++ evs /\
    Forall (profile_event name) evs /\
    (forall path, (EvOpen path ∉ evs) /\ (EvWrite path ∉ evs)) /\
    (forall n, EvUserIdFromUsername n ∉ evs).
Proof.
  intros Hinfo. split; [| split].
  - unfold extract_user_data. rewrite bind_run. simpl.
    fold (started name st). rewrite bind_run, Hinfo. reflexivity.
  - apply get_user_info_touches in Hinfo.
    apply (touches_no_file _ _ _ Hinfo).
  - apply get_user_info_touches in Hinfo as [(evs & Htr & Hevs) _].
    exists (EvLog INFO ("Starting data extraction for " +:+ name) :: evs).
    assert (Hall : Forall (profile_event name)
                     (EvLog INFO ("Starting data extraction for " +:+ name) :: evs))
      by (constructor; [exact I | exact Hevs]).
    split; [| split; [exact Hall | split]].
    + rewrite Htr. simpl. by rewrite <- app_assoc.
    + intros path. rewrite Forall_forall in Hall.
      split; intros Hin; apply (Hall _ Hin).
    + intros n Hin. rewrite Forall_forall in Hall.
      (* a user-id lookup is not a profile event *)
      apply (Hall _ Hin).
Qed.

Lemma extract_user_data_profile_absent_witness :
  exists st1,
    get_user_info offline_world alice_cfg "ghost" (started "ghost" st0) = (Ret VNone, st1) /\
    (extract_user_data offline_world alice_cfg "ghost" st0 = (Ret [], st1) /\
     fs st1 = fs st0 /\
     exists evs,
       trace st1 = trace st0 ++ evs /\
       Forall (profile_event "ghost") evs /\
       (forall path, (EvOpen path ∉ evs) /\ (EvWrite path ∉ evs)) /\
       (forall n, EvUserIdFromUsername n ∉ evs)).
Proof.
  eexists. split; [vm_compute; reflexivity |].
  apply (extract_user_data_profile_absent offline_world alice_cfg "ghost" st0).
  vm_compute; reflexivity.
Defined.

(** ** Session manager *)

(** Unfolds the monad down to case analyses on the oracles' answers. *)
Ltac unfold_monad :=
  unfold mbind, M_bind, mret, M_ret, try_except, except_Exception, raise, lift,
    call, log, print, emit in *;
  simpl in *.

(** Case analysis on an answer that is not itself a case analysis. *)
Ltac case_inner :=
  match goal with
  | H : context [match ?x with _ => _ end] |- _ =>
      lazymatch x with
      | context [match _ with _ => _ end] => fail
      | _ => destruct x eqn:?
      end
  | |- context [match ?x with _ => _ end] =>
      lazymatch x with
      | context [match _ with _ => _ end] => fail
      | _ => destruct x eqn:?
      end
  end.

Ltac case_oracles := repeat (case_inner; simpl in *; try discriminate).

Lemma login_reuse_success w cfg st b st1 :
  login_reuse w cfg st = (Ret (Some b), st1) <->
  let sf := session_file cfg in
  b = true /\
  path_exists w (trace st) sf = true /\
  load_settings_result w (trace st ++ [EvPathExists sf]) sf = Ret tt /\
  (exists b', login_result w (trace st ++ [EvPathExists sf; EvLoadSettings sf])
                (username cfg) (password cfg) = Ret b') /\
  st1 = MkState (trace st ++ [EvPathExists sf; EvLoadSettings sf;
                              EvLogin (username cfg) (password cfg);
                              EvLog INFO "Logged in using existing session"])
                (fs st).
Proof.
  unfold login_reuse, client_login. unfold_monad. split.
  - intros H. case_oracles.
    simplify_eq. rewrite <- !app_assoc in *. simpl in *.
    repeat match goal with u : unit |- _ => destruct u end. eauto 10.
  - intros (-> & -> & Hload & [b' Hlogin] & ->). simpl.
    rewrite Hload. simpl. rewrite <- !app_assoc. simpl. rewrite Hlogin. reflexivity.
Qed.

(** Between them the four [except] clauses take every [Exception]. *)
Lemma login_fresh_handler_spec e :
  login_fresh_handler e =
  if is_Exception e then Some (log ERROR (login_error_message e) ;; mret None)
  else None.
Proof. destruct e as [[] msg]; reflexivity. Qed.

Lemma login_reuse_no_dump w cfg :
  follows (touches not_dump (fun _ => False)) (login_reuse w cfg).
Proof.
  unfold login_reuse, client_login. repeat touches_step; simpl; auto.
Qed.

Lemma not_dump_forall evs p : Forall not_dump evs -> EvDumpSettings p ∉ evs.
Proof. rewrite Forall_forall. intros H Hin. apply (H _ Hin). Qed.

Lemma login_run w cfg st :
  login w cfg st =
  match login_reuse w cfg st with
  | (Ret (Some b), st1) => (Ret b, st1)
  | (Ret None, st1) =>
      match login_fresh w cfg st1 with
      | (Ret (Some b), st2) => (Ret b, st2)
      | (Ret None, st2) => (Ret false, st2)
      | (Raise e, st2) => (Raise e, st2)
      end
  | (Raise e, st1) => (Raise e, st1)
  end.
Proof.
  unfold login. rewrite bind_run.
  destruct (login_reuse w cfg st) as [[[b|]|e] st1]; try reflexivity.
  rewrite bind_run. destruct (login_fresh w cfg st1) as [[[b|]|e] st2]; reflexivity.
Qed.

(** The second [try], by the answer to its [client.login] call. *)
Lemma login_fresh_run w cfg st :
  let sf := session_file cfg in
  let st1 := MkState (trace st ++ [EvLogin (username cfg) (password cfg)]) (fs st) in
  login_fresh w cfg st =
  match login_result w (trace st) (username cfg) (password cfg) with
  | Raise e =>
      if is_Exception e
      then (Ret None, MkState (trace st1 ++ [EvLog ERROR (login_error_message e)]) (fs st))
      else (Raise e, st1)
  | Ret _ =>
      let st2 := MkState (trace st1 ++ [EvDumpSettings sf]) (fs st) in
      match dump_settings_result w (trace st1) sf with
      | Raise e =>
          if is_Exception e
          then (Ret None, MkState (trace st2 ++ [EvLog ERROR (login_error_message e)]) (fs st))
          else (Raise e, st2)
      | Ret _ =>
          (Ret (Some true),
           MkState (trace st2 ++ [EvLog INFO "Successfully logged in with fresh session"])
                   (fs st))
      end
  end.
Proof.
  unfold login_fresh, client_login. unfold_monad.
  destruct (login_result _ _ _ _) as [b|e]; simpl.
  - destruct (dump_settings_result _ _ _) as [u|e]; simpl; [reflexivity |].
    rewrite login_fresh_handler_spec. by destruct (is_Exception e).
  - rewrite login_fresh_handler_spec. by destruct (is_Exception e).
Qed.


(** C5.  [login] dumps the session only on the fresh-login path.
    For every run of [login], with [evs] the events it adds:
    - a [dump_settings] call is in [evs] only if the reuse attempt fell
      through and the fresh [client.login] call returned;
    - if the session file exists and loading it and logging in with it both
      return, [login] returns [True] after exactly the events listed: one
      [client.login] call and no dump;
    - if the reuse attempt did not log in and the fresh [client.login] call
      fails, [login] returns [False] and [evs] holds no dump. *)
Theorem login_dumps_on_fresh_login_only w cfg st :
  let sf := session_file cfg in
  let r := (login w cfg st).1 in
  let st' := (login w cfg st).2 in
  exists evs,
    trace st' = trace st ++ evs /\
    (forall p, EvDumpSettings p ∈ evs ->
       p = sf /\
       exists st1 b st2,
         login_reuse w cfg st = (Ret None, st1) /\
         client_login w cfg st1 = (Ret b, st2)) /\
    (forall b,
       path_exists w (trace st) sf = true ->
       load_settings_result w (trace st ++ [EvPathExists sf]) sf = Ret tt ->
       login_result w (trace st ++ [EvPathExists sf; EvLoadSettings sf])
         (username cfg) (password cfg) = Ret b ->
       r = Ret true /\
       evs = [EvPathExists sf; EvLoadSettings sf;
              EvLogin (username cfg) (password cfg);
              EvLog INFO "Logged in using existing session"]) /\
    (forall st1 e st2,
       login_reuse w cfg st = (Ret None, st1) ->
       client_login w cfg st1 = (Raise e, st2) ->
       is_Exception e = true ->
       r = Ret false /\ forall p, EvDumpSettings p ∉ evs).
Proof.
  intros sf r st'. subst r st'. rewrite login_run.
  assert (Hreuse : forall b' st1,
             path_exists w (trace st) sf = true ->
             load_settings_result w (trace st ++ [EvPathExists sf]) sf = Ret tt ->
             login_result w (trace st ++ [EvPathExists sf; EvLoadSettings sf])
               (username cfg) (password cfg) = Ret b' ->
             login_reuse w cfg st = (Ret None, st1) -> False).
  { intros b' st1 H1 H2 H3 Hre.
    assert (Hs : login_reuse w cfg st =
                 (Ret (Some true),
                  MkState (trace st ++ [EvPathExists sf; EvLoadSettings sf;
                                        EvLogin (username cfg) (password cfg);
                                        EvLog INFO "Logged in using existing session"])
                          (fs st)))
      by (apply login_reuse_success; eauto 10).
    rewrite Hs in Hre. discriminate Hre. }
  destruct (login_reuse w cfg st) as [[[b|]|e] st1] eqn:Hre.
  - (* the reuse attempt logged in *)
    apply login_reuse_success in Hre as (-> & Hex & Hload & [b' Hlogin] & ->).
    eexists. split; [reflexivity |]. simpl. split; [| split].
    + intros p Hin.
      repeat (apply elem_of_cons in Hin as [Hin|Hin]; [discriminate Hin|]).
      by apply elem_of_nil in Hin.
    + done.
    + intros st1 e st2 Hnone. discriminate Hnone.
  - (* it fell through: the second try runs *)
    pose proof (login_reuse_no_dump w cfg _ _ _ Hre) as [(evs1 & Htr & Hnd) _].
    rewrite login_fresh_run. unfold client_login, call. simpl.
    destruct (login_result w (trace st1) (username cfg) (password cfg))
      as [b|e] eqn:Hlogin.
    + (* fresh login accepted: the dump is attempted *)
      exists (evs1 ++ [EvLogin (username cfg) (password cfg); EvDumpSettings sf] ++
              match (dump_settings_result w
                       (trace st1 ++ [EvLogin (username cfg) (password cfg)]) sf) with
              | Ret _ => [EvLog INFO "Successfully logged in with fresh session"]
              | Raise e => if is_Exception e
                           then [EvLog ERROR (login_error_message e)] else []
              end).
      split; [| split; [| split]].
      * destruct (dump_settings_result _ _ _) as [u|e]; [| destruct (is_Exception e)];
          simpl; rewrite Htr, <- ?app_assoc; simpl; by rewrite ?app_nil_r.
      * intros p Hin. apply elem_of_app in Hin as [Hin|Hin];
          [by apply not_dump_forall in Hin |].
        apply elem_of_cons in Hin as [Hin|Hin]; [discriminate Hin|].
        apply elem_of_cons in Hin as [Hin|Hin].
        -- injection Hin as ->. split; [reflexivity |].
           eexists st1, b, _. split; [reflexivity | by rewrite Hlogin].
        -- destruct (dump_settings_result _ _ _) as [u|e]; [| destruct (is_Exception e)];
             repeat (apply elem_of_cons in Hin as [Hin|Hin]; [discriminate Hin|]);
             by apply elem_of_nil in Hin.
      * intros b' H1 H2 H3. destruct (Hreuse b' st1 H1 H2 H3 eq_refl).
      * intros st1' e st2 [= <-] [= Hc _]. rewrite Hlogin in Hc. discriminate Hc.
    + (* fresh login refused *)
      exists (evs1 ++ [EvLogin (username cfg) (password cfg)] ++
              if is_Exception e then [EvLog ERROR (login_error_message e)] else []).
      split; [| split; [| split]].
      * destruct (is_Exception e); simpl; rewrite Htr, <- ?app_assoc; simpl; done.
      * intros p Hin. apply elem_of_app in Hin as [Hin|Hin];
          [by apply not_dump_forall in Hin |].
        apply elem_of_cons in Hin as [Hin|Hin]; [discriminate Hin|].
        destruct (is_Exception e);
          repeat (apply elem_of_cons in Hin as [Hin|Hin]; [discriminate Hin|]);
          by apply elem_of_nil in Hin.
      * intros b' H1 H2 H3. destruct (Hreuse b' st1 H1 H2 H3 eq_refl).
      * intros st1' e' st2 [= <-] [= Hc _] Hexn. rewrite Hlogin in Hc.
        injection Hc as <-. rewrite Hexn. simpl.
        split; [reflexivity |]. intros p Hin.
        apply elem_of_app in Hin as [Hin|Hin];
          [by apply not_dump_forall in Hin |].
        repeat (apply elem_of_cons in Hin as [Hin|Hin]; [discriminate Hin|]).
        by apply elem_of_nil in Hin.
  - (* interrupted during the reuse attempt *)
    pose proof (login_reuse_no_dump w cfg _ _ _ Hre) as [(evs1 & Htr & Hnd) _].
    exists evs1. split; [exact Htr |]. split; [| split].
    + intros p Hin. by apply not_dump_forall in Hin.
    + intros b' H1 H2 H3.
      assert (Hs : exists s, login_reuse w cfg st = (Ret (Some true), s))
        by (eexists; apply login_reuse_success; eauto 10).
      destruct Hs as [s Hs]. rewrite Hs in Hre. discriminate Hre.
    + intros st1' e' st2 [=].
Qed.

Lemma login_dumps_on_fresh_login_only_witness :
  ((login alice_world alice_cfg st0).1 = Ret true /\
   (login alice_world alice_cfg st0).2 =
     MkState [EvPathExists "instagram_session.json";
              EvLoadSettings "instagram_session.json";
              EvLogin (Some "me") (Some "secret");
              EvLog INFO "Logged in using existing session"] ∅) /\
  (login locked_out_world alice_cfg st0).1 = Ret false.
Proof.
  split.
  - destruct (login_dumps_on_fresh_login_only alice_world alice_cfg st0)
      as (evs & _ & _ & Hreuse & _).
    split; [apply (Hreuse true); reflexivity | vm_compute; reflexivity].
  - destruct (login_dumps_on_fresh_login_only locked_out_world alice_cfg st0)
      as (evs & _ & _ & _ & Hfail).
    edestruct Hfail as [Hr _]; [| | | exact Hr]; vm_compute; reflexivity.
Defined.

(** ** Failures and interrupts *)

Lemma fails_only_ret {A} (a : A) : fails_only (mret a).
Proof. intros st e st' [=]. Qed.

Lemma fails_only_raise {A} e : is_Exception e = true -> fails_only (@raise A e).
Proof. intros He st e' st' [= <- _]. exact He. Qed.

Lemma fails_only_lift {A} (r : Res A) : failure_or_value r -> fails_only (lift r).
Proof. intros Hr st e st' [= -> _]. exact Hr. Qed.

Lemma fails_only_emit ev : fails_only (emit ev).
Proof. intros st e st' [=]. Qed.

Lemma fails_only_call {A} ev (answer : list event -> Res A) :
  (forall tr, failure_or_value (answer tr)) -> fails_only (call ev answer).
Proof.
  intros Ha st e st' [= He _]. specialize (Ha (trace st)). by rewrite He in Ha.
Qed.

Lemma fails_only_sleep w secs :
  (forall tr, failure_or_value (sleep_result w tr secs)) -> fails_only (sleep w secs).
Proof.
  intros Hs. unfold sleep. destruct (Qle_bool _ _).
  - by apply fails_only_call.
  - by apply fails_only_raise.
Qed.

Lemma fails_only_bind {A B} (m : M A) (k : A -> M B) :
  fails_only m -> (forall a, fails_only (k a)) -> fails_only (m ≫= k).
Proof.
  intros Hm Hk st e st' H. apply bind_raise_inv in H as [H|(a & st1 & _ & H)].
  - eapply Hm, H.
  - eapply Hk, H.
Qed.

Lemma fails_only_try_except {A} (m : M A) h :
  fails_only m -> (forall e k, h e = Some k -> fails_only k) ->
  fails_only (try_except m h).
Proof.
  intros Hm Hh st e st'. rewrite try_except_run.
  destruct (m st) as [[a|e1] st1] eqn:E; [discriminate |].
  destruct (h e1) as [k|] eqn:Eh.
  - intros H. eapply Hh; eauto.
  - intros [= <- <-]. eapply Hm, E.
Qed.

Lemma fails_only_dict_literal entries :
  Forall (fun km => fails_only (snd km)) entries -> fails_only (dict_literal entries).
Proof.
  induction 1 as [|[k m] rest Hm _ IH]; simpl.
  - apply fails_only_ret.
  - apply fails_only_bind; [exact Hm |]. intros v.
    apply fails_only_bind; [exact IH |]. intros d. apply fails_only_ret.
Qed.

Lemma getattr_failure o name : failure_or_value (getattr o name).
Proof. unfold getattr. by destruct (_ !! _). Qed.

Lemma isoformat_failure a : failure_or_value (isoformat a).
Proof. by destruct a. Qed.

Lemma fails_only_attr o name : fails_only (attr o name).
Proof.
  apply fails_only_lift. pose proof (getattr_failure o name) as H.
  by destruct (getattr o name).
Qed.

Lemma fails_only_str_attr o name : fails_only (str_attr o name).
Proof.
  apply fails_only_lift. pose proof (getattr_failure o name) as H.
  by destruct (getattr o name).
Qed.

Lemma fails_only_str_attr_or_empty o name : fails_only (str_attr_or_empty o name).
Proof.
  apply fails_only_lift. pose proof (getattr_failure o name) as H.
  destruct (getattr o name) as [a|e]; [| exact H]. simpl.
  by destruct (atom_truthy a).
Qed.

Lemma returns_ret {A} (a : A) : returns (mret a).
Proof. intros st. by exists a, st. Qed.

Lemma returns_emit ev : returns (emit ev).
Proof. intros st. by eexists _, _. Qed.

Lemma returns_bind {A B} (m : M A) (k : A -> M B) :
  returns m -> (forall a, returns (k a)) -> returns (m ≫= k).
Proof.
  intros Hm Hk st. destruct (Hm st) as (a & st1 & E).
  rewrite bind_run, E. apply Hk.
Qed.

(** A [try] whose body raises failures only and whose [except Exception]
    clause returns, returns. *)
Lemma returns_except_Exception {A} (m : M A) k :
  fails_only m -> (forall e, returns (k e)) ->
  returns (try_except m (except_Exception k)).
Proof.
  intros Hm Hk st. rewrite try_except_run.
  destruct (m st) as [[a|e] st1] eqn:E; [by eexists _, _ |].
  unfold except_Exception. rewrite (Hm _ _ _ E). apply Hk.
Qed.

Lemma login_reuse_returns w cfg :
  (forall tr p, failure_or_value (load_settings_result w tr p)) ->
  (forall tr u p, failure_or_value (login_result w tr u p)) ->
  returns (login_reuse w cfg).
Proof.
  intros Hload Hlogin. unfold login_reuse.
  apply returns_except_Exception.
  - apply fails_only_bind; [by apply fails_only_call |].
    intros [|]; [| apply fails_only_ret].
    apply fails_only_bind; [apply fails_only_call; intros tr; apply Hload |].
    intros _. apply fails_only_bind;
      [apply fails_only_call; intros tr; apply Hlogin |].
    intros _. apply fails_only_bind; [apply fails_only_emit |].
    intros _. apply fails_only_ret.
  - intros e. apply returns_bind; [apply returns_emit |].
    intros _. apply returns_ret.
Qed.

Lemma login_fresh_returns w cfg :
  (forall tr u p, failure_or_value (login_result w tr u p)) ->
  (forall tr p, failure_or_value (dump_settings_result w tr p)) ->
  returns (login_fresh w cfg).
Proof.
  intros Hlogin Hdump st. rewrite login_fresh_run. simpl.
  pose proof (Hlogin (trace st) (username cfg) (password cfg)) as H1.
  destruct (login_result _ _ _ _) as [b|e]; simpl in H1.
  - pose proof (Hdump (trace st ++ [EvLogin (username cfg) (password cfg)])
                  (session_file cfg)) as H2.
    destruct (dump_settings_result _ _ _) as [u|e]; simpl in H2.
    + by eexists _, _.
    + rewrite H2. by eexists _, _.
  - rewrite H1. by eexists _, _.
Qed.

(** C10.  [login] is total at its boundary: whatever failures the client's
    [load_settings], [login] and [dump_settings] calls answer with, [login]
    returns a boolean and raises nothing. *)
Theorem login_returns_bool w cfg :
  (forall tr p, failure_or_value (load_settings_result w tr p)) ->
  (forall tr u p, failure_or_value (login_result w tr u p)) ->
  (forall tr p, failure_or_value (dump_settings_result w tr p)) ->
  forall st, exists (b : bool) st', login w cfg st = (Ret b, st').
Proof.
  intros Hload Hlogin Hdump. change (returns (login w cfg)). unfold login.
  apply returns_bind; [by apply login_reuse_returns |].
  intros [b|]; [apply returns_ret |].
  apply returns_bind; [by apply login_fresh_returns |].
  intros [b|]; apply returns_ret.
Qed.

Lemma login_returns_bool_witness :
  exists st', login locked_out_world alice_cfg st0 = (Ret false, st').
Proof.
  destruct (login_returns_bool locked_out_world alice_cfg) with (st := st0)
    as (b & st' & H).
  - intros tr p. exact I.
  - intros tr u p. reflexivity.
  - intros tr p. exact I.
  - exists st'. rewrite H. f_equal.
    assert (Hb : (login locked_out_world alice_cfg st0).1 = Ret false)
      by (vm_compute; reflexivity).
    rewrite H in Hb. simpl in Hb. by injection Hb as ->.
Defined.

(** The boundary of the model: an interrupt raised inside a client call is
    not an [Exception] and does leave [login]. *)
Example login_interrupted w cfg st :
  path_exists w (trace st) (session_file cfg) = false ->
  login_result w (trace st ++ [EvPathExists (session_file cfg)])
    (username cfg) (password cfg) = Raise (Exn KeyboardInterrupt "") ->
  (login w cfg st).1 = Raise (Exn KeyboardInterrupt "").
Proof.
  intros Hex Hlogin. unfold login, login_reuse, login_fresh, client_login.
  unfold_monad. rewrite Hex. simpl. rewrite Hlogin. reflexivity.
Qed.

(** ** Post collector *)

Arguments download_media : simpl never.
Arguments toggle : simpl never.
Arguments hasattr : simpl never.
Arguments getattr_default : simpl never.

Lemma sleep_ret_inv w secs st u st' :
  sleep w secs st = (Ret u, st') ->
  Qle_bool (inject_Z 0) secs = true /\
  st' = MkState (trace st ++ [EvSleep secs]) (fs st).
Proof.
  unfold sleep. destruct (Qle_bool _ _); [| discriminate].
  intros [= _ <-]. done.
Qed.

Lemma getattr_ret o name a :
  getattr o name = Ret a <-> obj_attrs o !! name = Some a.
Proof.
  unfold getattr. destruct (_ !! _); split; intros H; by simplify_eq.
Qed.

(** Building the record reads attributes and nothing else; when it succeeds
    the three attributes used again by the downloads are there. *)
Lemma post_record_inv media st base st' :
  post_record media st = (Ret base, st') ->
  st' = st /\
  exists mid mt thumb,
    obj_attrs media !! "id" = Some mid /\
    obj_attrs media !! "media_type" = Some mt /\
    obj_attrs media !! "thumbnail_url" = Some thumb /\
    dict_keys base = post_fields /\
    dict_lookup base "id" = Some (VStr (py_str mid)) /\
    dict_lookup base "local_file" = None.
Proof.
  unfold post_record, dict_literal, str_attr, attr, str_attr_or_empty, getattr.
  unfold_monad. intros H. case_oracles; simplify_eq; eauto 10.
Qed.

Lemma except_Exception_raise_inv {A} (m : M A) k st e st' :
  try_except m (except_Exception k) st = (Raise e, st') ->
  (forall e0, returns (k e0)) ->
  is_Exception e = false.
Proof.
  rewrite try_except_run. intros H Hk.
  destruct (m st) as [[a|e0] st1]; [discriminate |].
  unfold except_Exception in H. destruct (is_Exception e0) eqn:E.
  - destruct (Hk e0 st1) as (a & s & Hr). rewrite Hr in H. discriminate.
  - by injection H as <- <-.
Qed.

Section Posts.
Variable w : World.
Variable cfg : Config.

Lemma write_chunks_touches path cs :
  follows (touches transfer_event (fun p => p = path)) (write_chunks w path cs).
Proof.
  induction cs as [|c cs IH]; simpl.
  - apply follows_ret, _.
  - apply follows_bind; [apply _ | by apply touches_fs_write | intros _; exact IH].
Qed.

(** A call of [download_media] starts with the request to the URL it was
    given; it either returns, and then ends with its return marker, or is
    interrupted. *)
Lemma download_media_run url fn st r st' :
  download_media w cfg url fn st = (r, st') ->
  exists evs,
    Forall transfer_event evs /\
    ((exists ok, r = Ret ok /\
                 trace st' = trace st ++ EvHttpGet url :: evs ++ [EvDownloadMedia url fn ok]) \/
     (exists e, r = Raise e /\ is_Exception e = false /\
                trace st' = trace st ++ EvHttpGet url :: evs)).
Proof.
  unfold download_media. rewrite bind_run.
  destruct (try_except _ _ st) as [[ok|e] st1] eqn:E.
  - unfold download_media_try in E.
    apply (follows_after_call (touches transfer_event (fun p => p = media_path cfg fn)))
      in E as [(evs & Htr & Hevs) _].
    + unfold_monad. intros [= <- <-]. exists evs. split; [exact Hevs |].
      left. exists ok. split; [reflexivity |]. simpl in *.
      by rewrite Htr, <- !app_assoc.
    + intros resp. repeat first [apply write_chunks_touches | touches_step]; simpl; auto.
    + intros e k. unfold except_Exception. destruct (is_Exception e); [| discriminate].
      intros [= <-]. repeat touches_step; simpl; auto.
  - intros [= <- <-].
    assert (He : is_Exception e = false).
    { apply except_Exception_raise_inv in E; [exact E |].
      intros e0. apply returns_bind; [apply returns_emit |].
      intros _. apply returns_ret. }
    unfold download_media_try in E.
    apply (follows_after_call (touches transfer_event (fun p => p = media_path cfg fn)))
      in E as [(evs & Htr & Hevs) _].
    + exists evs. split; [exact Hevs |]. right. exists e.
      split; [reflexivity |]. split; [exact He |]. simpl in *.
      by rewrite Htr, <- !app_assoc.
    + intros resp. repeat first [apply write_chunks_touches | touches_step]; simpl; auto.
    + intros e0 k. unfold except_Exception. destruct (is_Exception e0); [| discriminate].
      intros [= <-]. repeat touches_step; simpl; auto.
Qed.

Lemma py_eq_int_1_2 a : py_eq_int a 1 = true -> py_eq_int a 2 = false.
Proof. destruct a as [|[]|z| | |]; simpl; try done. lia. Qed.

Lemma photo_download_run name media base mid mt thumb st :
  obj_attrs media !! "id" = Some mid ->
  obj_attrs media !! "media_type" = Some mt ->
  obj_attrs media !! "thumbnail_url" = Some thumb ->
  photo_download w cfg name media base st =
  if toggle w "DOWNLOAD_PHOTOS" && py_eq_int mt 1 then
    let fn := name +:+ "_" +:+ py_str mid +:+ ".jpg" in
    match download_media w cfg (py_str thumb) fn st with
    | (Ret ok, st') => (Ret (with_local_file base fn ok), st')
    | (Raise e, st') => (Raise e, st')
    end
  else (Ret base, st).
Proof.
  intros Hid Hmt Hth. unfold photo_download, getattr.
  rewrite Hid, Hmt, Hth. unfold_monad.
  destruct (toggle w "DOWNLOAD_PHOTOS"), (py_eq_int mt 1); simpl; try reflexivity.
  destruct (download_media _ _ _ _ _) as [[[|]|e] s]; reflexivity.
Qed.

Lemma video_download_run name media base mid mt st :
  obj_attrs media !! "id" = Some mid ->
  obj_attrs media !! "media_type" = Some mt ->
  video_download w cfg name media base st =
  if toggle w "DOWNLOAD_VIDEOS" && py_eq_int mt 2 then
    match obj_attrs media !! "video_url" with
    | Some url =>
        let fn := name +:+ "_" +:+ py_str mid +:+ ".mp4" in
        match download_media w cfg (py_str url) fn st with
        | (Ret ok, st') => (Ret (with_local_file base fn ok), st')
        | (Raise e, st') => (Raise e, st')
        end
    | None => (Ret base, st)
    end
  else (Ret base, st).
Proof.
  intros Hid Hmt. unfold video_download, getattr, hasattr.
  rewrite Hid, Hmt. unfold_monad.
  destruct (toggle w "DOWNLOAD_VIDEOS"), (py_eq_int mt 2); simpl; try reflexivity.
  destruct (obj_attrs media !! "video_url") as [url|]; simpl; [| reflexivity].
  destruct (download_media _ _ _ _ _) as [[[|]|e] s]; reflexivity.
Qed.

Lemma post_record_pure media : follows eq (post_record media).
Proof.
  unfold post_record. repeat touches_step.
Qed.

(** The loop body, by what its parts answer: the delay, the record, and
    the one download the item calls for, if any. *)
Lemma post_of_media_run name media st :
  let st1 := MkState (trace st ++ [EvSleep (inject_Z (request_delay cfg))]) (fs st) in
  post_of_media w cfg name media st =
  if Qle_bool (inject_Z 0) (inject_Z (request_delay cfg)) then
    match sleep_result w (trace st) (inject_Z (request_delay cfg)) with
    | Ret _ =>
        match post_record media st1 with
        | (Ret base, _) =>
            match spec_download_target w name media with
            | Some (url, fn) =>
                match download_media w cfg url fn st1 with
                | (Ret ok, st') => (Ret (with_local_file base fn ok), st')
                | (Raise e, st') => (Raise e, st')
                end
            | None => (Ret base, st1)
            end
        | (Raise e, _) => (Raise e, st1)
        end
    | Raise e => (Raise e, st1)
    end
  else (Raise (Exn ValueError "sleep length must be non-negative"), st).
Proof.
  intros st1. unfold post_of_media. rewrite bind_run. unfold sleep.
  destruct (Qle_bool _ _); [| reflexivity].
  unfold call at 1. fold st1.
  destruct (sleep_result w (trace st) _) as [u|e]; [| reflexivity].
  rewrite bind_run.
  destruct (post_record media st1) as [[base|e] s] eqn:Hrec.
  - apply post_record_inv in Hrec
      as (-> & mid & mt & thumb & Hid & Hmt & Hth & _).
    rewrite bind_run, (photo_download_run _ _ _ mid mt thumb) by assumption.
    unfold spec_download_target. rewrite Hmt, Hid, Hth.
    rewrite (andb_comm (py_eq_int mt 1)), (andb_comm (py_eq_int mt 2)).
    destruct (toggle w "DOWNLOAD_PHOTOS" && py_eq_int mt 1) eqn:Hphoto; simpl.
    + destruct (download_media _ _ _ _ _) as [[ok|e] s]; [| reflexivity].
      rewrite bind_run, (video_download_run _ _ _ mid mt) by assumption.
      apply andb_prop in Hphoto as [_ H1%py_eq_int_1_2].
      rewrite H1, andb_false_r. reflexivity.
    + rewrite bind_run, (video_download_run _ _ _ mid mt) by assumption.
      destruct (toggle w "DOWNLOAD_VIDEOS" && py_eq_int mt 2); [| reflexivity].
      destruct (obj_attrs media !! "video_url") as [url|]; [| reflexivity].
      simpl. destruct (download_media _ _ _ _ _) as [[ok|e] s]; reflexivity.
  - apply post_record_pure in Hrec as <-. reflexivity.
Qed.

Lemma transfer_no_attempts evs :
  Forall transfer_event evs -> attempts evs = [] /\ requests evs = [].
Proof.
  induction 1 as [|ev evs Hev _ [IH1 IH2]]; [done |].
  destruct ev; try destruct Hev; split; assumption.
Qed.


Lemma toggle_default var : environ w !! var = None -> toggle w var = true.
Proof. intros H. unfold toggle, getenv. rewrite H. reflexivity. Qed.

Lemma toggle_set var v :
  environ w !! var = Some v -> (toggle w var = true <-> str_lower v = "true").
Proof. intros H. unfold toggle, getenv. rewrite H. simpl. apply String.eqb_eq. Qed.

(** C4.  For a media item the loop body has processed, the downloads made
    are exactly the one the specification calls for: to the thumbnail URL
    and [{username}_{postId}.jpg] when the media-type is 1 and photos are
    enabled, to the video URL and [{username}_{postId}.mp4] when the
    media-type is 2, videos are enabled and the item has a [video_url],
    none otherwise.  A toggle is enabled when its variable is unset, and
    otherwise when its value lowercased is ["true"]. *)
Theorem downloads_attempted_as_specified name media st post st' :
  post_of_media w cfg name media st = (Ret post, st') ->
  (exists evs,
     trace st' = trace st ++ evs /\
     attempts evs = option_list (spec_download_target w name media) /\
     requests evs = fst <$> option_list (spec_download_target w name media)) /\
  (forall var, environ w !! var = None -> toggle w var = true) /\
  (forall var v, environ w !! var = Some v ->
                 (toggle w var = true <-> str_lower v = "true")).
Proof.
  intros H. split; [| split; [exact toggle_default | exact toggle_set]].
  rewrite post_of_media_run in H.
  destruct (Qle_bool _ _); [| discriminate].
  destruct (sleep_result w _ _); [| discriminate].
  destruct (post_record _ _) as [[base|e] s]; [| discriminate].
  destruct (spec_download_target w name media) as [[url fn]|].
  - destruct (download_media _ _ _ _ _) as [[ok|e] s1] eqn:Hdl; [| discriminate].
    injection H as _ <-.
    apply download_media_run in Hdl as (evs & Hevs & [(ok' & [= <-] & Htr)|(e & [=] & _)]).
    apply transfer_no_attempts in Hevs as [Ha Hr].
    exists (EvSleep (inject_Z (request_delay cfg)) :: EvHttpGet url :: evs ++
            [EvDownloadMedia url fn ok]).
    split; [| split].
    + rewrite Htr. simpl. by rewrite <- app_assoc.
    + unfold attempts in *. simpl. rewrite omap_app, Ha. reflexivity.
    + unfold requests in *. simpl. rewrite omap_app, Hr. reflexivity.
  - injection H as _ <-. exists [EvSleep (inject_Z (request_delay cfg))]. done.
Qed.




Lemma dict_lookup_set_ne d k k' v :
  k <> k' -> dict_lookup (dict_set d k v) k' = dict_lookup d k'.
Proof.
  intros Hne. apply String.eqb_neq in Hne.
  induction d as [|[k0 v0] d IH]; simpl.
  - by rewrite Hne.
  - destruct (String.eqb k0 k) eqn:E; simpl; [| by rewrite IH].
    apply String.eqb_eq in E as ->. by rewrite Hne.
Qed.

Lemma dict_keys_set_new d k v :
  dict_lookup d k = None -> dict_keys (dict_set d k v) = dict_keys d ++ [k].
Proof.
  unfold dict_keys. induction d as [|[k0 v0] d IH]; simpl; [done |].
  destruct (String.eqb k0 k); [discriminate |]. intros H. simpl. by rewrite IH.
Qed.

Lemma post_of_media_ret name media st post st' :
  post_of_media w cfg name media st = (Ret post, st') -> post_of media (VDict post).
Proof.
  rewrite post_of_media_run. intros H.
  destruct (Qle_bool _ _); [| discriminate].
  destruct (sleep_result w _ _); [| discriminate].
  destruct (post_record _ _) as [[base|e] s] eqn:Hrec; [| discriminate].
  apply post_record_inv in Hrec
    as (_ & mid & mt & thumb & Hid & _ & _ & Hkeys & Hidl & Hlocal).
  assert (Hbase : post_of media (VDict base)) by (exists base, mid; auto).
  destruct (spec_download_target w name media) as [[url fn]|].
  - destruct (download_media _ _ _ _ _) as [[[|]|e] s1]; try discriminate.
    + injection H as <- _. exists (dict_set base "local_file" (VStr ("media/" +:+ fn))), mid.
      split; [reflexivity |]. split; [exact Hid |]. split.
      * rewrite dict_lookup_set_ne by discriminate. exact Hidl.
      * right. rewrite dict_keys_set_new by exact Hlocal. by rewrite Hkeys.
    + by injection H as <- _.
  - by injection H as <- _.
Qed.

(** A failure in the loop body ends the loop, whatever was built so far. *)
Lemma for_medias_body_raises name media rest acc st e st1 :
  post_of_media w cfg name media st = (Raise e, st1) ->
  for_medias w cfg name (media :: rest) acc st = (Raise e, st1).
Proof. intros H. simpl. by rewrite bind_run, H. Qed.

(** A loop that completes has appended one record per item, in order. *)
Lemma for_medias_ret name medias acc st posts st' :
  for_medias w cfg name medias acc st = (Ret posts, st') ->
  exists new, posts = acc ++ new /\ Forall2 post_of medias new.
Proof.
  revert acc st. induction medias as [|media rest IH]; intros acc st; simpl.
  - intros [= <- _]. exists []. by rewrite app_nil_r.
  - rewrite bind_run.
    destruct (post_of_media w cfg name media st) as [[post|e] st1] eqn:Hbody;
      [| discriminate].
    intros (new & -> & Hnew)%IH. exists (VDict post :: new).
    split; [by rewrite <- app_assoc |].
    constructor; [by eapply post_of_media_ret | exact Hnew].
Qed.

(** C9.  When [get_user_posts] succeeds, it returns one record per media
    item the platform call returned, in the same order, each with its [id]
    field the string form of the item's identifier; so the two lengths
    agree. *)
Theorem get_user_posts_one_record_per_item name limit st posts st' :
  get_user_posts_try w cfg name (default 100%Z limit) st = (Ret posts, st') ->
  get_user_posts w cfg name limit st = (Ret posts, st') /\
  exists user_id medias,
    user_id_result w (trace st) name = Ret user_id /\
    user_medias_result w (trace st ++ [EvUserIdFromUsername name]) user_id
      (default 100%Z limit) = Ret medias /\
    length posts = length medias /\
    Forall2 (fun media post =>
               exists d mid,
                 post = VDict d /\
                 obj_attrs media !! "id" = Some mid /\
                 dict_lookup d "id" = Some (VStr (py_str mid)))
            medias posts.
Proof.
  intros H. split.
  - unfold get_user_posts. by rewrite try_except_run, H.
  - unfold get_user_posts_try in H.
    apply bind_ret_inv in H as (uid & s1 & Huid & H).
    apply bind_ret_inv in H as (medias & s2 & Hmed & H).
    apply bind_ret_inv in H as (posts' & s3 & Hloop & H).
    apply bind_ret_inv in H as (u & s4 & _ & [= <- _]).
    injection Huid as Huid <-. injection Hmed as Hmed _. simpl in Hmed.
    apply for_medias_ret in Hloop as (new & -> & Hnew). simpl.
    exists uid, medias. split; [exact Huid |]. split; [exact Hmed |].
    split; [symmetry; by eapply Forall2_length |].
    eapply Forall2_impl; [exact Hnew |].
    intros media post (d & mid & -> & Hid & Hidl & _). eauto.
Qed.

(** C3.  [get_user_posts] asks for 100 items unless told otherwise, and is
    all-or-nothing: a failure anywhere in its [try] makes it return the
    empty list; what it returns is either the empty list or the complete
    list its [try] built; and a failure in the loop body leaves the loop
    whatever records were built before it. *)
Theorem get_user_posts_all_or_nothing name :
  get_user_posts w cfg name None = get_user_posts w cfg name (Some 100%Z) /\
  (forall limit st e st1,
     get_user_posts_try w cfg name (default 100%Z limit) st = (Raise e, st1) ->
     is_Exception e = true ->
     (get_user_posts w cfg name limit st).1 = Ret []) /\
  (forall limit st l st',
     get_user_posts w cfg name limit st = (Ret l, st') ->
     l = [] \/
     get_user_posts_try w cfg name (default 100%Z limit) st = (Ret l, st')) /\
  (forall media rest acc st e st1,
     post_of_media w cfg name media st = (Raise e, st1) ->
     for_medias w cfg name (media :: rest) acc st = (Raise e, st1)).
Proof.
  split; [reflexivity |]. split; [| split].
  - intros limit st e st1 H He. unfold get_user_posts.
    rewrite try_except_run, H. unfold except_Exception. rewrite He. reflexivity.
  - intros limit st l st'. unfold get_user_posts. rewrite try_except_run.
    destruct (get_user_posts_try w cfg name _ st) as [[l'|e] s]; [by right |].
    unfold except_Exception. destruct (is_Exception e); [| discriminate].
    unfold_monad. intros [= <- _]. by left.
  - intros media rest acc st e st1. apply for_medias_body_raises.
Qed.
End Posts.

(** *** The post collector on concrete worlds *)

Ltac in_list := repeat first [apply list_elem_of_here | apply list_elem_of_further].


Lemma downloads_attempted_as_specified_witness :
  exists post st',
    post_of_media alice_world alice_cfg "alice" alice_video st0 = (Ret post, st') /\
    exists evs,
      trace st' = trace st0 ++ evs /\
      attempts evs = [("https://cdn/222.mp4", "alice_222_42.mp4")] /\
      requests evs = ["https://cdn/222.mp4"].
Proof.
  assert (Hr : exists post,
             (post_of_media alice_world alice_cfg "alice" alice_video st0).1 = Ret post)
    by (eexists; vm_compute; reflexivity).
  destruct (post_of_media alice_world alice_cfg "alice" alice_video st0)
    as [r st'] eqn:Hrun.
  destruct Hr as [post Hr]. simpl in Hr. subst r.
  exists post, st'. split; [reflexivity |].
  destruct (downloads_attempted_as_specified alice_world alice_cfg "alice"
              alice_video st0 post st' Hrun) as [(evs & Htr & Ha & Hr) _].
  exists evs. split; [exact Htr |]. split; [exact Ha | exact Hr].
Defined.

Lemma get_user_posts_one_record_per_item_witness :
  exists posts st',
    get_user_posts alice_world alice_cfg "alice" None st0 = (Ret posts, st') /\
    length posts = 2.
Proof.
  assert (Hr : exists posts,
             (get_user_posts_try alice_world alice_cfg "alice" 100 st0).1 = Ret posts)
    by (eexists; vm_compute; reflexivity).
  destruct (get_user_posts_try alice_world alice_cfg "alice" 100 st0)
    as [r st'] eqn:Hrun.
  destruct Hr as [posts Hr]. simpl in Hr. subst r. exists posts, st'.
  destruct (get_user_posts_one_record_per_item alice_world alice_cfg "alice"
              None st0 posts st' Hrun)
    as (Hget & uid & medias & _ & Hmed & Hlen & _).
  split; [exact Hget |]. rewrite Hlen. by injection Hmed as <-.
Defined.

Lemma get_user_posts_all_or_nothing_witness :
  (exists e st1,
     get_user_posts_try partial_world alice_cfg "alice" 100 st0 = (Raise e, st1) /\
     EvDownloadMedia "https://cdn/111.jpg" "alice_111_42.jpg" true ∈ trace st1) /\
  (get_user_posts partial_world alice_cfg "alice" None st0).1 = Ret [].
Proof.
  assert (Hr : (get_user_posts_try partial_world alice_cfg "alice" 100 st0).1 =
               Raise (Exn AttributeError "'Media' object has no attribute 'code'"))
    by (vm_compute; reflexivity).
  assert (Hin : EvDownloadMedia "https://cdn/111.jpg" "alice_111_42.jpg" true ∈
                trace (get_user_posts_try partial_world alice_cfg "alice" 100 st0).2)
    by (vm_compute; in_list).
  destruct (get_user_posts_try partial_world alice_cfg "alice" 100 st0)
    as [r st1] eqn:Hrun.
  simpl in Hr, Hin. subst r. split.
  - eexists _, st1. split; [reflexivity | exact Hin].
  - destruct (get_user_posts_all_or_nothing partial_world alice_cfg "alice")
      as (_ & Hfail & _ & _).
    apply (Hfail None st0 _ st1 Hrun). reflexivity.
Defined.

(** ** Relationship collectors *)

Section Relations.
Variable w : World.
Variable cfg : Config.

Lemma relationship_entry_pure info : follows eq (relationship_entry info).
Proof. unfold relationship_entry. repeat touches_step. Qed.

Lemma relationship_entry_inv key info st d st' :
  relationship_entry info st = (Ret d, st') ->
  st' = st /\ relation_of (key, info) (VDict d).
Proof.
  intros H. split; [symmetry; eapply relationship_entry_pure, H |].
  revert H.
  unfold relationship_entry, dict_literal, str_attr, attr, str_attr_or_empty, getattr.
  unfold_monad. intros H. case_oracles; simplify_eq; eexists _, _, _; eauto 10.
Qed.

(** A loop over the mapping that completes has slept once per item, for
    half the configured delay, done nothing else, and appended one record
    per item in the mapping's order. *)
Lemma for_relations_ret items acc st l st' :
  for_relations w cfg items acc st = (Ret l, st') ->
  exists new,
    l = acc ++ new /\ Forall2 relation_of items new /\
    st' = MkState (trace st ++
                   replicate (length items) (EvSleep (Qmake (request_delay cfg) 2)))
                  (fs st).
Proof.
  revert acc st. induction items as [|[key info] rest IH]; intros acc st; simpl.
  - intros [= <- <-]. exists []. rewrite !app_nil_r. by destruct st.
  - intros H. apply bind_ret_inv in H as (u & s1 & Hs & H).
    apply sleep_ret_inv in Hs as [_ ->].
    apply bind_ret_inv in H as (entry & s2 & He & H).
    apply (relationship_entry_inv key) in He as [-> Hentry].
    apply IH in H as (new & -> & Hnew & ->). simpl.
    exists (VDict entry :: new). split; [by rewrite <- app_assoc |].
    split; [by constructor |]. by rewrite <- app_assoc.
Qed.





End Relations.

Section RelationsContract.
Variable w : World.
Variable cfg : Config.







End RelationsContract.


(** ** Paths *)

Lemma string_app_assoc (s t u : string) : (s +:+ t) +:+ u = s +:+ (t +:+ u).
Proof.
  induction s as [|c s IH]; [done |].
  change (String c ((s +:+ t) +:+ u) = String c (s +:+ t +:+ u)). by rewrite IH.
Qed.

Lemma string_length_app (s t : string) :
  String.length (s +:+ t) = String.length s + String.length t.
Proof. induction s as [|c s IH]; [done |]. simpl. by rewrite <- IH. Qed.

Lemma string_app_inv_head (s a b : string) : s +:+ a = s +:+ b -> a = b.
Proof.
  induction s as [|c s IH]; simpl; [done |]. intros [= H]. by apply IH.
Qed.

(** Two texts that end in tails of the same length end in the same tail,
    and begin alike. *)
Lemma string_app_inv_both (s1 s2 t1 t2 : string) :
  String.length t1 = String.length t2 -> s1 +:+ t1 = s2 +:+ t2 ->
  s1 = s2 /\ t1 = t2.
Proof.
  intros Hlen. revert s2. induction s1 as [|c s1 IH]; intros [|c2 s2] H.
  - by split.
  - apply (f_equal String.length) in H.
    change ("" +:+ t1) with t1 in H.
    change (String c2 s2 +:+ t2) with (String c2 (s2 +:+ t2)) in H.
    cbn [String.length] in H. rewrite string_length_app in H. lia.
  - apply (f_equal String.length) in H.
    change ("" +:+ t2) with t2 in H.
    change (String c s1 +:+ t1) with (String c (s1 +:+ t1)) in H.
    cbn [String.length] in H. rewrite string_length_app in H. lia.
  - injection H as -> H. apply IH in H as [-> ->]. by split.
Qed.

Lemma string_app_inv_tail (s1 s2 t1 t2 : string) :
  String.length t1 = String.length t2 -> s1 +:+ t1 = s2 +:+ t2 -> t1 = t2.
Proof. intros Hlen H. by apply string_app_inv_both in H as [_ ->]. Qed.

Lemma last_char_app (s t : string) :
  t <> EmptyString -> last_char (s +:+ t) = last_char t.
Proof.
  intros Ht. induction s as [|c s IH]; simpl; [done |].
  destruct (s +:+ t) eqn:E; [| exact IH].
  destruct s; simpl in E; [by destruct Ht | discriminate].
Qed.

(** A text without a slash is its own single component. *)
Lemma split_slash_tail t :
  plain_name t = true -> split_slash t = [t].
Proof.
  induction t as [|c t IH]; [done |]. cbn [list_ascii_of_string forallb split_slash].
  intros [Hc Ht]%andb_prop. apply negb_true_iff in Hc. rewrite Hc, (IH Ht). reflexivity.
Qed.

(** Appending a text without a slash extends the last component. *)
Lemma split_slash_app x t :
  plain_name t = true ->
  exists init y,
    split_slash x = init ++ [y] /\ split_slash (x +:+ t) = init ++ [y +:+ t].
Proof.
  intros Ht. induction x as [|c x (init & y & Hx & Hxt)].
  - exists [], "". split; [reflexivity |]. by apply split_slash_tail.
  - change (String c x +:+ t) with (String c (x +:+ t)). cbn [split_slash].
    rewrite Hx, Hxt. destruct (is_slash c).
    + exists ("" :: init), y. done.
    + destruct init as [|z init]; simpl.
      * exists [], (String c y). done.
      * exists (String c z :: init), y. done.
Qed.

Lemma join_slash_snoc parts y t :
  join_slash (parts ++ [y +:+ t]) = join_slash (parts ++ [y]) +:+ t.
Proof.
  induction parts as [|p parts IH]; [done |].
  cbn [app join_slash]. rewrite IH.
  destruct parts; cbn [app]; by rewrite !string_app_assoc.
Qed.

Lemma path_str_snoc root parts y t :
  path_str root (parts ++ [y +:+ t]) = (root +:+ join_slash (parts ++ [y])) +:+ t.
Proof.
  unfold path_str. rewrite join_slash_snoc, string_app_assoc.
  destruct root; [| reflexivity]. by destruct parts.
Qed.

Lemma is_part_tail y t : is_part t = true -> is_part (y +:+ t) = true.
Proof.
  unfold is_part. destruct t as [|c t]; [done |]. intros Ht.
  destruct y as [|a y]; [exact Ht |].
  change (String a y +:+ String c t) with (String a (y +:+ String c t)).
  destruct y; simpl; by destruct (Ascii.eqb a ".").
Qed.

Lemma path_parts_tail x t :
  is_tail t = true ->
  exists parts y, path_parts (x +:+ t) = parts ++ [y +:+ t].
Proof.
  unfold is_tail. intros [Hpart Hslash]%andb_prop.
  destruct (split_slash_app x t Hslash) as (init & y & _ & Hxt).
  exists (List.filter is_part init), y. unfold path_parts.
  rewrite Hxt, List.filter_app. cbn [List.filter]. by rewrite is_part_tail.
Qed.

(** A last component that ends in [t] makes the whole path end in [t]. *)
Lemma path_join_tail dir x t :
  is_tail t = true -> exists pre, path_join dir (x +:+ t) = pre +:+ t.
Proof.
  intros Ht. destruct (path_parts_tail x t Ht) as (parts & y & Hparts).
  unfold path_join. rewrite Hparts. destruct (path_root (x +:+ t)).
  - rewrite app_assoc, path_str_snoc. by eexists.
  - rewrite path_str_snoc. by eexists.
Qed.

(** A file name without a slash is appended to the directory as it is. *)
Lemma path_join_plain dir x :
  is_tail x = true ->
  path_join dir x = (path_root dir +:+ join_slash (path_parts dir ++ [""])) +:+ x.
Proof.
  intros Hx. pose proof Hx as [Hpart Hplain]%andb_prop.
  unfold path_join, path_parts at 2. rewrite (split_slash_tail x Hplain).
  cbn [List.filter]. rewrite Hpart.
  assert (Hroot : path_root x = "").
  { destruct x as [|c x]; [done |]. unfold plain_name in Hplain.
    cbn [list_ascii_of_string forallb] in Hplain.
    apply andb_prop in Hplain as [Hc _]. apply negb_true_iff in Hc.
    unfold is_slash in Hc. apply Ascii.eqb_neq in Hc.
    unfold path_root.
    destruct c as [[] [] [] [] [] [] [] []]; try reflexivity. by destruct Hc. }
  rewrite Hroot. apply (path_str_snoc _ _ "" x).
Qed.

Lemma plain_name_tail name t :
  plain_name name = true -> is_tail t = true -> is_tail (name +:+ t) = true.
Proof.
  unfold is_tail. intros Hname [Hpart Hplain]%andb_prop.
  rewrite (is_part_tail _ _ Hpart). cbn [andb].
  induction name as [|c name IH]; [exact Hplain |].
  change (String c name +:+ t) with (String c (name +:+ t)).
  unfold plain_name in *. cbn [list_ascii_of_string forallb] in *.
  apply andb_prop in Hname as [-> Hname]. by apply IH.
Qed.

Lemma last_char_path_join dir x t :
  is_tail t = true -> last_char (path_join dir (x +:+ t)) = last_char t.
Proof.
  intros Ht. destruct (path_join_tail dir x t Ht) as [pre ->].
  apply last_char_app. by destruct t.
Qed.

Section Paths.
Variable cfg : Config.

Lemma is_tail_csv category :
  category ∈ categories -> is_tail ("_" +:+ category +:+ ".csv") = true.
Proof.
  unfold categories. intros Hc.
  repeat (apply elem_of_cons in Hc as [->|Hc]); try reflexivity.
  by apply elem_of_nil in Hc.
Qed.

Lemma csv_path_last name category :
  category ∈ categories ->
  last_char (csv_path cfg name category) = Some "v"%char.
Proof.
  intros Hc. unfold csv_path. rewrite last_char_path_join by (by apply is_tail_csv).
  unfold categories in Hc.
  repeat (apply elem_of_cons in Hc as [->|Hc]); try reflexivity.
  by apply elem_of_nil in Hc.
Qed.

Lemma json_path_last name : last_char (json_path cfg name) = Some "n"%char.
Proof. unfold json_path. by rewrite last_char_path_join. Qed.

(** The JSON documents of two accounts are two files. *)
Lemma json_path_inj name name' :
  plain_name name = true -> plain_name name' = true ->
  json_path cfg name = json_path cfg name' -> name = name'.
Proof.
  intros Hn Hn'. unfold json_path.
  rewrite (path_join_plain _ (name +:+ "_data.json")),
    (path_join_plain _ (name' +:+ "_data.json")) by (by apply plain_name_tail).
  intros H%string_app_inv_head. by apply string_app_inv_both in H as [-> _].
Qed.

(** [pathlib] drops the [.] of a name such as [./alice]. *)
Lemma json_path_dot :
  json_path alice_cfg "./alice" = "extracted_data/json_data/alice_data.json" /\
  json_path alice_cfg "alice" = "extracted_data/json_data/alice_data.json".
Proof. split; reflexivity. Qed.

(** A report never lands on a JSON document. *)
Lemma csv_path_not_json name category name' :
  category ∈ categories -> csv_path cfg name category <> json_path cfg name'.
Proof.
  intros Hc Heq. apply (f_equal last_char) in Heq.
  rewrite csv_path_last, json_path_last in Heq by exact Hc. discriminate Heq.
Qed.

(** The path of a report ends in the last six bytes of its file name. *)
Lemma csv_path_tail name category front back :
  is_tail ("_" +:+ category +:+ ".csv") = true ->
  "_" +:+ category +:+ ".csv" = front +:+ back ->
  exists pre, csv_path cfg name category = pre +:+ back.
Proof.
  intros Ht Hsplit. unfold csv_path.
  destruct (path_join_tail (output_dir cfg) name _ Ht) as [pre ->].
  exists (pre +:+ front). by rewrite Hsplit, string_app_assoc.
Qed.

(** The three reports of one account land on three different files. *)
Lemma csv_path_inj name c c' :
  c ∈ categories -> c' ∈ categories ->
  csv_path cfg name c = csv_path cfg name c' -> c = c'.
Proof.
  intros Hc Hc' H.
  assert (Hposts : exists pre, csv_path cfg name "posts" = pre +:+ "ts.csv")
    by (by apply (csv_path_tail name "posts" "_pos")).
  assert (Hfollowers : exists pre, csv_path cfg name "followers" = pre +:+ "rs.csv")
    by (by apply (csv_path_tail name "followers" "_followe")).
  assert (Hfollowing : exists pre, csv_path cfg name "following" = pre +:+ "ng.csv")
    by (by apply (csv_path_tail name "following" "_followi")).
  destruct Hposts as [p1 H1], Hfollowers as [p2 H2], Hfollowing as [p3 H3].
  unfold categories in *.
  repeat (apply elem_of_cons in Hc as [->|Hc]);
    repeat (apply elem_of_cons in Hc' as [->|Hc']);
    try reflexivity;
    try (by apply elem_of_nil in Hc); try (by apply elem_of_nil in Hc');
    rewrite ?H1, ?H2, ?H3 in H;
    by apply string_app_inv_tail in H.
Qed.
End Paths.

(** ** Report generator *)

Section Reports.
Variable w : World.
Variable cfg : Config.

Lemma csv_report_touches name data category :
  category ∈ categories ->
  follows (touches (report_event cfg name data) (report_file cfg name data))
    (csv_report w cfg name data category).
Proof.
  intros Hc. unfold csv_report, pd_DataFrame, to_csv.
  destruct (truthy _) eqn:Ht; [| apply follows_ret, _].
  assert (Hfile : report_file cfg name data (csv_path cfg name category))
    by (exists category; auto).
  repeat touches_step; simpl; auto.
Qed.

Lemma generate_csv_reports_touches name data :
  follows (touches (report_event cfg name data) (report_file cfg name data))
    (generate_csv_reports w cfg name data).
Proof.
  unfold generate_csv_reports.
  repeat first [apply csv_report_touches; unfold categories; in_list
               | touches_step]; simpl; auto.
Qed.

(** Whatever happens in [generate_csv_reports], no JSON document changes. *)
Lemma generate_csv_reports_keeps_json name data st r st' name' :
  generate_csv_reports w cfg name data st = (r, st') ->
  fs st' !! json_path cfg name' = fs st !! json_path cfg name'.
Proof.
  intros [_ Hfs]%generate_csv_reports_touches. apply Hfs.
  intros (category & Hc & _ & Heq). symmetry in Heq.
  by apply csv_path_not_json in Heq.
Qed.

Lemma fails_only_fs_open path :
  (forall tr p, failure_or_none (open_error w tr p)) -> fails_only (fs_open w path).
Proof.
  intros Ho st e st'. unfold fs_open. specialize (Ho (trace st) path).
  destruct (open_error w (trace st) path); [| discriminate].
  by intros [= <- _].
Qed.

Lemma fails_only_fs_write path item :
  (forall tr p, failure_or_none (write_error w tr p)) ->
  fails_only (fs_write w path item).
Proof.
  intros Hw st e st'. unfold fs_write. specialize (Hw (trace st) path).
  destruct (write_error w (trace st) path); [| discriminate].
  by intros [= <- _].
Qed.

Lemma fails_only_csv_report name data category :
  (forall tr rows, failure_or_none (dataframe_error w tr rows)) ->
  (forall tr p, failure_or_none (open_error w tr p)) ->
  (forall tr p, failure_or_none (write_error w tr p)) ->
  fails_only (csv_report w cfg name data category).
Proof.
  intros Hd Ho Hw. unfold csv_report, pd_DataFrame, to_csv.
  destruct (truthy _); [| apply fails_only_ret].
  apply fails_only_bind.
  { apply fails_only_lift. unfold dict_item. by destruct (dict_lookup _ _). }
  intros rows. apply fails_only_bind.
  { apply fails_only_call. intros tr. specialize (Hd tr rows).
    by destruct (dataframe_error w tr rows). }
  intros df. apply fails_only_bind; [by apply fails_only_fs_open |].
  intros _. by apply fails_only_fs_write.
Qed.

(** C6.  [generate_csv_reports] is skip-safe.  For every run:
    - a category whose entry in [data] is falsy (an empty list is) gets no
      report: its file is as before and is neither opened nor written;
    - if pandas and the file system raise failures only, the call returns;
    - no JSON document of any account is changed, however the call ends. *)
Theorem generate_csv_reports_skip_safe name data st :
  let r := (generate_csv_reports w cfg name data st).1 in
  let st' := (generate_csv_reports w cfg name data st).2 in
  (forall category,
     category ∈ categories ->
     truthy (dict_get data category VNone) = false ->
     fs st' !! csv_path cfg name category = fs st !! csv_path cfg name category /\
     exists evs,
       trace st' = trace st ++ evs /\
       (EvOpen (csv_path cfg name category) ∉ evs) /\
       (EvWrite (csv_path cfg name category) ∉ evs)) /\
  ((forall tr rows, failure_or_none (dataframe_error w tr rows)) ->
   (forall tr p, failure_or_none (open_error w tr p)) ->
   (forall tr p, failure_or_none (write_error w tr p)) ->
   r = Ret tt) /\
  (forall name', fs st' !! json_path cfg name' = fs st !! json_path cfg name').
Proof.
  intros r st'. subst r st'.
  destruct (generate_csv_reports w cfg name data st) as [r st'] eqn:Hrun. simpl.
  split; [| split].
  - intros category Hc Hfalsy.
    assert (Hno : ~ report_file cfg name data (csv_path cfg name category)).
    { intros (c & Hc' & Ht & Heq). apply csv_path_inj in Heq; [| done | done].
      subst c. rewrite Ht in Hfalsy. discriminate Hfalsy. }
    pose proof (generate_csv_reports_touches _ _ _ _ _ Hrun)
      as [(evs & Htr & Hevs) Hfs].
    split; [by apply Hfs |]. exists evs. split; [exact Htr |].
    rewrite Forall_forall in Hevs.
    split; intros Hin; apply Hno, (Hevs _ Hin).
  - intros Hd Ho Hw.
    assert (Hret : returns (generate_csv_reports w cfg name data)).
    { unfold generate_csv_reports. apply returns_except_Exception.
      - repeat (apply fails_only_bind; [by apply fails_only_csv_report | intros _]).
        apply fails_only_emit.
      - intros e. apply returns_emit. }
    destruct (Hret st) as ([] & s & Hs). rewrite Hs in Hrun. by injection Hrun as <- _.
  - intros name'. by eapply generate_csv_reports_keeps_json.
Qed.
End Reports.

Lemma generate_csv_reports_skip_safe_witness :
  let run := generate_csv_reports full_disk_world alice_cfg "alice" lonely_data st0 in
  run.1 = Ret tt /\
  fs run.2 !! "extracted_data/alice_followers.csv" = None /\
  fs run.2 !! "extracted_data/alice_posts.csv" = Some [] /\
  fs run.2 !! json_path alice_cfg "alice" = None.
Proof.
  intros run.
  destruct (generate_csv_reports_skip_safe full_disk_world alice_cfg "alice"
              lonely_data st0) as (Hskip & Hret & Hjson).
  split; [| split; [| split]].
  - apply Hret; intros; exact I || reflexivity.
  - destruct (Hskip "followers") as [Hfs _];
      [unfold categories; in_list | reflexivity |].
    exact Hfs.
  - vm_compute. reflexivity.
  - exact (Hjson "alice").
Defined.

(** ** Orchestrator and entry point *)

Arguments get_user_info : simpl never.
Arguments get_user_posts : simpl never.
Arguments get_followers : simpl never.
Arguments get_following : simpl never.
Arguments generate_csv_reports : simpl never.

Lemma ret_inv {A} (a b : A) st st' :
  (mret a : M A) st = (Ret b, st') -> b = a /\ st' = st.
Proof. by intros [= <- <-]. Qed.

Lemma dict_literal_cons k m rest :
  dict_literal ((k, m) :: rest) =
  (v ← m; d ← dict_literal rest; mret ((k, v) :: d)).
Proof. reflexivity. Qed.

Lemma dict_literal_keys entries st d st' :
  dict_literal entries st = (Ret d, st') -> dict_keys d = fst <$> entries.
Proof.
  revert st d st'. induction entries as [|[k m] rest IH]; intros st d st'.
  - by intros [-> _]%ret_inv.
  - rewrite dict_literal_cons.
    intros H. apply bind_ret_inv in H as (v & s1 & _ & H).
    apply bind_ret_inv in H as (d' & s2 & Hd & H). apply ret_inv in H as [-> _].
    simpl. f_equal. by eapply IH.
Qed.

Lemma dict_literal_cons_inv k m rest st d st' :
  dict_literal ((k, m) :: rest) st = (Ret d, st') ->
  exists v d' s, m st = (Ret v, s) /\ dict_literal rest s = (Ret d', st') /\
                 d = (k, v) :: d'.
Proof.
  rewrite dict_literal_cons.
  intros H. apply bind_ret_inv in H as (v & s1 & Hm & H).
  apply bind_ret_inv in H as (d' & s2 & Hd & H). apply ret_inv in H as [-> ->].
  eauto 10.
Qed.

Lemma fs_open_ret_inv w path st u st' :
  fs_open w path st = (Ret u, st') -> fs st' = <[path := []]> (fs st).
Proof.
  unfold fs_open. destruct (open_error _ _ _); [discriminate |]. by intros [= _ <-].
Qed.

(** The encoder accepts exactly the documents in which it meets no value
    it cannot encode. *)
Lemma unencodable_ok : forall v, json_ok v = true -> unencodable v = None.
Proof.
  fix IH 1. intros [a|l|d]; cbn [json_ok unencodable].
  - by intros ->.
  - induction l as [|x l IHl]; [done |]. cbn [forallb foldr].
    intros [Hx Hl]%andb_prop. by rewrite (IH x Hx), IHl.
  - induction d as [|[k x] d IHd]; [done |]. cbn [forallb foldr snd].
    intros [Hx Hd]%andb_prop. by rewrite (IH x Hx), IHd.
Qed.

Lemma json_dump_ret_inv w path doc st u st' :
  json_dump w path doc st = (Ret u, st') ->
  fs st' = <[path := default [] (fs st !! path) ++ [WJson doc]]> (fs st).
Proof.
  unfold json_dump. destruct (unencodable doc).
  - intros H. apply bind_ret_inv in H as (u' & s & _ & H). discriminate H.
  - unfold fs_write. destruct (write_error w _ _); [discriminate |].
    by intros [= _ <-].
Qed.

Lemma has_fields_post media v : post_of media v -> post_shape v.
Proof.
  intros (d & mid & -> & _ & _ & [Hk|Hk]); [left | right]; by exists d.
Qed.

Lemma has_fields_relation item v :
  relation_of item v -> has_fields relationship_fields v.
Proof. intros (d & pk & uname & -> & _ & _ & Hk & _). by exists d. Qed.

Section Orchestrator.
Variable w : World.
Variable cfg : Config.

Lemma get_user_info_ret name st v st' :
  get_user_info w cfg name st = (Ret v, st') ->
  v = VNone \/ exists ui, v = VDict ui /\ dict_keys ui = profile_fields.
Proof.
  unfold get_user_info. rewrite try_except_run.
  destruct (get_user_info_try w cfg name st) as [[v'|e] s] eqn:Htry.
  - intros [= <- <-]. right. unfold get_user_info_try in Htry.
    apply bind_ret_inv in Htry as (u & s1 & _ & H).
    apply bind_ret_inv in H as (info & s2 & _ & H).
    apply bind_ret_inv in H as (ud & s3 & Hd & H).
    apply bind_ret_inv in H as (u' & s4 & _ & [= <- _]).
    exists ud. split; [reflexivity |]. by apply dict_literal_keys in Hd.
  - unfold except_Exception. destruct (is_Exception e); [| discriminate].
    unfold_monad. intros [= <- _]. by left.
Qed.

Lemma get_user_posts_shape name limit st l st' :
  get_user_posts w cfg name limit st = (Ret l, st') -> Forall post_shape l.
Proof.
  unfold get_user_posts. rewrite try_except_run.
  destruct (get_user_posts_try w cfg name _ st) as [[l'|e] s] eqn:Htry.
  - intros [= <- <-]. unfold get_user_posts_try in Htry.
    apply bind_ret_inv in Htry as (uid & s1 & _ & H).
    apply bind_ret_inv in H as (medias & s2 & _ & H).
    apply bind_ret_inv in H as (posts & s3 & Hloop & H).
    apply bind_ret_inv in H as (u & s4 & _ & [= <- _]).
    apply for_medias_ret in Hloop as (new & -> & Hnew). simpl.
    induction Hnew; constructor; [by eapply has_fields_post | assumption].
  - unfold except_Exception. destruct (is_Exception e); [| discriminate].
    unfold_monad. by intros [= <- _].
Qed.

Lemma for_relations_shape items st l st' :
  for_relations w cfg items [] st = (Ret l, st') ->
  Forall (has_fields relationship_fields) l.
Proof.
  intros (new & -> & Hnew & _)%for_relations_ret. simpl.
  induction Hnew; constructor; [by eapply has_fields_relation | assumption].
Qed.

Lemma get_followers_shape name limit st l st' :
  get_followers w cfg name limit st = (Ret l, st') ->
  Forall (has_fields relationship_fields) l.
Proof.
  unfold get_followers. rewrite try_except_run.
  destruct (get_followers_try w cfg name _ st) as [[l'|e] s] eqn:Htry.
  - intros [= <- <-]. unfold get_followers_try in Htry.
    apply bind_ret_inv in Htry as (uid & s1 & _ & H).
    apply bind_ret_inv in H as (items & s2 & _ & H).
    apply bind_ret_inv in H as (l & s3 & Hloop & H).
    apply bind_ret_inv in H as (u & s4 & _ & [= <- _]).
    by eapply for_relations_shape.
  - unfold except_Exception. destruct (is_Exception e); [| discriminate].
    unfold_monad. by intros [= <- _].
Qed.

Lemma get_following_shape name limit st l st' :
  get_following w cfg name limit st = (Ret l, st') ->
  Forall (has_fields relationship_fields) l.
Proof.
  unfold get_following. rewrite try_except_run.
  destruct (get_following_try w cfg name _ st) as [[l'|e] s] eqn:Htry.
  - intros [= <- <-]. unfold get_following_try in Htry.
    apply bind_ret_inv in Htry as (uid & s1 & _ & H).
    apply bind_ret_inv in H as (items & s2 & _ & H).
    apply bind_ret_inv in H as (l & s3 & Hloop & H).
    apply bind_ret_inv in H as (u & s4 & _ & [= <- _]).
    by eapply for_relations_shape.
  - unfold except_Exception. destruct (is_Exception e); [| discriminate].
    unfold_monad. by intros [= <- _].
Qed.

(** A non-empty result of [extract_user_data] is a well-formed document,
    and it is what the JSON file of the account holds. *)
Lemma extract_user_data_ret name st data st1 :
  extract_user_data w cfg name st = (Ret data, st1) ->
  truthy (VDict data) = true ->
  well_formed_document (VDict data) /\
  fs st1 !! json_path cfg name = Some [WJson (VDict data)].
Proof.
  unfold extract_user_data. intros H Hdata.
  apply bind_ret_inv in H as (u & s1 & _ & H).
  apply bind_ret_inv in H as (ui & s2 & Hinfo & H).
  destruct (truthy ui) eqn:Hui; cbn [negb] in H.
  2:{ apply ret_inv in H as [-> _]. discriminate Hdata. }
  apply get_user_info_ret in Hinfo as [->|(uid & -> & Hkeys)]; [discriminate Hui |].
  apply bind_ret_inv in H as (ed & s3 & Hlit & H).
  apply bind_ret_inv in H as (u1 & s4 & Hopen & H).
  apply bind_ret_inv in H as (u2 & s5 & Hdump & H).
  apply bind_ret_inv in H as (u3 & s6 & Hlog & [= <- <-]).
  apply dict_literal_cons_inv in Hlit as (v1 & d1 & t1 & [= <- <-] & Hlit & ->).
  apply dict_literal_cons_inv in Hlit as (v2 & d2 & t2 & Hposts & Hlit & ->).
  apply dict_literal_cons_inv in Hlit as (v3 & d3 & t3 & Hfollowers & Hlit & ->).
  apply dict_literal_cons_inv in Hlit as (v4 & d4 & t4 & Hfollowing & Hlit & ->).
  apply dict_literal_cons_inv in Hlit as (v5 & d5 & t5 & Hnow & [= <- _] & ->).
  apply bind_ret_inv in Hposts as (posts & ? & Hposts%get_user_posts_shape & [= <- _]).
  apply bind_ret_inv in Hfollowers
    as (followers & ? & Hfollowers%get_followers_shape & [= <- _]).
  apply bind_ret_inv in Hfollowing
    as (following & ? & Hfollowing%get_following_shape & [= <- _]).
  unfold now_isoformat in Hnow. destruct (datetime_now w (trace t4)) as [d t].
  injection Hnow as <- _.
  split.
  - exists uid, posts, followers, following, (d +:+ "T" +:+ t). auto.
  - apply fs_open_ret_inv in Hopen. apply json_dump_ret_inv in Hdump.
    injection Hlog as _ <-. simpl. rewrite Hdump, Hopen.
    rewrite lookup_insert_eq. by rewrite lookup_insert_eq.
Qed.
End Orchestrator.

Section EntryPoint.
Variable w : World.
Variable cfg : Config.

Lemma summary_line_run label unit_ key dflt data st n :
  py_len (dict_get data key dflt) = Ret n ->
  summary_line label unit_ key dflt data st =
  (Ret tt, MkState (trace st ++ [EvPrint ("- " +:+ label +:+ ": " +:+ pretty n +:+ " " +:+ unit_)])
                   (fs st)).
Proof. intros H. unfold summary_line. unfold_monad. by rewrite H. Qed.

(** The [try] block of [main] after a successful extraction: the reports,
    then the summary of the document. *)
Lemma main_try_run target st data st1 :
  extract_user_data w cfg target st = (Ret data, st1) ->
  truthy (VDict data) = true ->
  main_try w cfg target st =
  match generate_csv_reports w cfg target data st1 with
  | (Ret _, s) => (Ret tt, MkState (trace s ++ summary cfg target (VDict data)) (fs s))
  | (Raise e, s) => (Raise e, s)
  end.
Proof.
  intros Hext Hdata. unfold main_try. rewrite bind_run, Hext, Hdata.
  destruct (extract_user_data_ret w cfg _ _ _ _ Hext Hdata)
    as [(ui & posts & followers & following & ts & [= ->] & _) _].
  rewrite bind_run.
  destruct (generate_csv_reports w cfg target _ st1) as [[u|e] s]; [| reflexivity].
  unfold print, emit. rewrite !bind_run. cbv beta iota.
  repeat (erewrite summary_line_run by reflexivity; cbv beta iota; rewrite ?bind_run).
  cbn [trace fs]. rewrite <- !app_assoc. reflexivity.
Qed.

(** C7.  After a successful extraction the JSON file of the account holds
    exactly the value [extract_user_data] returned; that value has the
    fields of the data model for every entity; the reports leave the file
    alone; and the summary printed by the entry point gives, for posts,
    followers and following, the lengths of the sequences in that
    document. *)
Theorem persisted_document_matches_result target st data st1 :
  extract_user_data w cfg target st = (Ret data, st1) ->
  truthy (VDict data) = true ->
  fs st1 !! json_path cfg target = Some [WJson (VDict data)] /\
  well_formed_document (VDict data) /\
  forall r st2,
    main_try w cfg target st = (r, st2) ->
    fs st2 !! json_path cfg target = Some [WJson (VDict data)] /\
    ((generate_csv_reports w cfg target data st1).1 = Ret tt -> r = Ret tt) /\
    (r = Ret tt ->
     exists evs, trace st2 = trace st1 ++ evs ++ summary cfg target (VDict data)).
Proof.
  intros Hext Hdata.
  destruct (extract_user_data_ret w cfg _ _ _ _ Hext Hdata) as [Hwf Hfile].
  split; [exact Hfile |]. split; [exact Hwf |].
  intros r st2. rewrite (main_try_run _ _ _ _ Hext Hdata).
  destruct (generate_csv_reports w cfg target data st1) as [[u|e] s] eqn:Hgen;
    intros [= <- <-]; simpl.
  - split; [| split; [done |]].
    + rewrite <- Hfile. by eapply generate_csv_reports_keeps_json.
    + intros _. apply generate_csv_reports_touches in Hgen as [(evs & Htr & _) _].
      exists evs. by rewrite Htr, <- app_assoc.
  - split; [| split; [done | discriminate]].
    rewrite <- Hfile. by eapply generate_csv_reports_keeps_json.
Qed.
End EntryPoint.

Lemma persisted_document_matches_result_witness :
  exists data st1 st2,
    extract_user_data alice_world alice_cfg "alice" st0 = (Ret data, st1) /\
    truthy (VDict data) = true /\
    main_try alice_world alice_cfg "alice" st0 = (Ret tt, st2) /\
    fs st2 !! "extracted_data/json_data/alice_data.json" = Some [WJson (VDict data)] /\
    seq_len (VDict data) "posts" = 2 /\
    EvPrint "- Posts: 2 items" ∈ trace st2.
Proof.
  assert (Hr : exists data,
             (extract_user_data alice_world alice_cfg "alice" st0).1 = Ret data /\
             truthy (VDict data) = true /\ seq_len (VDict data) "posts" = 2)
    by (eexists; repeat split; vm_compute; reflexivity).
  assert (Hm : (main_try alice_world alice_cfg "alice" st0).1 = Ret tt)
    by (vm_compute; reflexivity).
  assert (Hp : EvPrint "- Posts: 2 items" ∈
               trace (main_try alice_world alice_cfg "alice" st0).2)
    by (vm_compute; in_list).
  destruct (extract_user_data alice_world alice_cfg "alice" st0) as [r st1] eqn:Hext.
  destruct (main_try alice_world alice_cfg "alice" st0) as [r2 st2] eqn:Hmain.
  destruct Hr as (data & Hr & Htruthy & Hlen). simpl in Hr, Hm, Hp. subst r r2.
  exists data, st1, st2.
  destruct (persisted_document_matches_result alice_world alice_cfg "alice" st0
              data st1 Hext Htruthy) as (_ & _ & Hmain').
  destruct (Hmain' _ _ Hmain) as (Hfile & _ & _).
  repeat split; try assumption; reflexivity.
Defined.

(** * Further properties of the program *)

(** ** Session manager *)

(** The first [try] of [login], by the answers it gets. *)
Lemma login_reuse_run w cfg st :
  let sf := session_file cfg in
  let s1 := MkState (trace st ++ [EvPathExists sf]) (fs st) in
  let s2 := MkState (trace s1 ++ [EvLoadSettings sf]) (fs st) in
  let s3 := MkState (trace s2 ++ [EvLogin (username cfg) (password cfg)]) (fs st) in
  login_reuse w cfg st =
  if path_exists w (trace st) sf then
    match load_settings_result w (trace s1) sf with
    | Ret _ =>
        match login_result w (trace s2) (username cfg) (password cfg) with
        | Ret _ =>
            (Ret (Some true),
             MkState (trace s3 ++ [EvLog INFO "Logged in using existing session"]) (fs st))
        | Raise e =>
            if is_Exception e
            then (Ret None,
                  MkState (trace s3 ++
                           [EvLog WARNING ("Failed to load session: " +:+ exn_msg e)])
                          (fs st))
            else (Raise e, s3)
        end
    | Raise e =>
        if is_Exception e
        then (Ret None,
              MkState (trace s2 ++
                       [EvLog WARNING ("Failed to load session: " +:+ exn_msg e)])
                      (fs st))
        else (Raise e, s2)
    end
  else (Ret None, s1).
Proof.
  unfold login_reuse, client_login. unfold_monad.
  destruct (path_exists _ _ _); simpl; [| reflexivity].
  destruct (load_settings_result _ _ _) as [u|e]; simpl.
  - destruct (login_result _ _ _ _) as [b|e]; simpl; [reflexivity |].
    by destruct (is_Exception e).
  - by destruct (is_Exception e).
Qed.

(** X1.  When the reuse attempt has fallen through and the fresh
    [client.login] call returns, whatever boolean it returns, and the dump
    returns too, [login] returns [True] after exactly: the login call, the
    dump, one log record. *)
Theorem login_fresh_succeeds w cfg st st1 b :
  login_reuse w cfg st = (Ret None, st1) ->
  login_result w (trace st1) (username cfg) (password cfg) = Ret b ->
  dump_settings_result w (trace st1 ++ [EvLogin (username cfg) (password cfg)])
    (session_file cfg) = Ret tt ->
  login w cfg st =
  (Ret true,
   MkState (trace st1 ++ [EvLogin (username cfg) (password cfg);
                          EvDumpSettings (session_file cfg);
                          EvLog INFO "Successfully logged in with fresh session"])
           (fs st1)).
Proof.
  intros Hre Hlogin Hdump. rewrite login_run, Hre, login_fresh_run. simpl.
  rewrite Hlogin, Hdump. by rewrite <- !app_assoc.
Qed.

Lemma login_fresh_succeeds_witness :
  login first_run_world alice_cfg st0 =
  (Ret true,
   MkState [EvPathExists "instagram_session.json";
            EvLogin (Some "me") (Some "secret");
            EvDumpSettings "instagram_session.json";
            EvLog INFO "Successfully logged in with fresh session"] ∅).
Proof.
  apply (login_fresh_succeeds first_run_world alice_cfg st0
           (MkState [EvPathExists "instagram_session.json"] ∅) false);
    reflexivity.
Defined.

(** X2.  When the fresh [client.login] call returns but storing the session
    fails, [login] returns [False], although the client is logged in, and
    logs the failure as a login failure. *)
Theorem login_fails_when_dump_fails w cfg st st1 b e :
  login_reuse w cfg st = (Ret None, st1) ->
  login_result w (trace st1) (username cfg) (password cfg) = Ret b ->
  dump_settings_result w (trace st1 ++ [EvLogin (username cfg) (password cfg)])
    (session_file cfg) = Raise e ->
  is_Exception e = true ->
  login w cfg st =
  (Ret false,
   MkState (trace st1 ++ [EvLogin (username cfg) (password cfg);
                          EvDumpSettings (session_file cfg);
                          EvLog ERROR (login_error_message e)])
           (fs st1)).
Proof.
  intros Hre Hlogin Hdump He. rewrite login_run, Hre, login_fresh_run. simpl.
  rewrite Hlogin, Hdump, He. by rewrite <- !app_assoc.
Qed.

Lemma login_fails_when_dump_fails_witness :
  login readonly_home_world alice_cfg st0 =
  (Ret false,
   MkState [EvPathExists "instagram_session.json";
            EvLogin (Some "me") (Some "secret");
            EvDumpSettings "instagram_session.json";
            EvLog ERROR "Login failed: Permission denied"] ∅).
Proof.
  apply (login_fails_when_dump_fails readonly_home_world alice_cfg st0
           (MkState [EvPathExists "instagram_session.json"] ∅) true
           (Exn OtherException "Permission denied"));
    reflexivity.
Defined.

(** X3.  [login] calls [client.login] at most twice; twice only when a
    session file exists; and at least once whenever it returns. *)
Theorem login_calls_client_at_most_twice w cfg st :
  exists evs,
    trace (login w cfg st).2 = trace st ++ evs /\
    login_calls evs <= 2 /\
    (login_calls evs = 2 -> path_exists w (trace st) (session_file cfg) = true) /\
    (forall b, (login w cfg st).1 = Ret b -> 1 <= login_calls evs).
Proof.
  rewrite login_run, login_reuse_run. cbv zeta.
  destruct (path_exists _ _ _).
  - destruct (load_settings_result _ _ _) as [u|e1]; cbn [trace fs].
    + destruct (login_result _ _ _ _) as [b1|e1]; cbn [trace fs].
      * eexists. split; [cbn [snd trace]; rewrite <- !app_assoc; reflexivity |].
        vm_compute. repeat split; intros; lia || done.
      * destruct (is_Exception e1); cbn [trace fs].
        -- rewrite login_fresh_run. cbn [trace fs].
           destruct (login_result _ _ _ _) as [b2|e2];
             [destruct (dump_settings_result _ _ _) as [u2|e2] |];
             try destruct (is_Exception e2);
             (eexists; split; [cbn [snd trace]; rewrite <- !app_assoc; reflexivity |]);
             vm_compute; repeat split; intros; lia || done.
        -- eexists. split; [cbn [snd trace]; rewrite <- !app_assoc; reflexivity |].
           vm_compute. repeat split; intros; lia || done.
    + destruct (is_Exception e1); cbn [trace fs].
      * rewrite login_fresh_run. cbn [trace fs].
        destruct (login_result _ _ _ _) as [b2|e2];
          [destruct (dump_settings_result _ _ _) as [u2|e2] |];
          try destruct (is_Exception e2);
          (eexists; split; [cbn [snd trace]; rewrite <- !app_assoc; reflexivity |]);
          vm_compute; repeat split; intros; lia || done.
      * eexists. split; [cbn [snd trace]; rewrite <- !app_assoc; reflexivity |].
        vm_compute. repeat split; intros; lia || done.
  - rewrite login_fresh_run. cbn [trace fs].
    destruct (login_result _ _ _ _) as [b2|e2];
      [destruct (dump_settings_result _ _ _) as [u2|e2] |];
      try destruct (is_Exception e2);
      (eexists; split; [cbn [snd trace]; rewrite <- !app_assoc; reflexivity |]);
      vm_compute; repeat split; intros; lia || done.
Qed.

Lemma login_calls_client_at_most_twice_witness :
  exists evs,
    trace (login expired_session_world alice_cfg st0).2 = trace st0 ++ evs /\
    login_calls evs = 2 /\
    (login expired_session_world alice_cfg st0).1 = Ret true.
Proof.
  destruct (login_calls_client_at_most_twice expired_session_world alice_cfg st0)
    as (evs & Htr & _).
  exists evs. split; [exact Htr |]. simpl in Htr. rewrite <- Htr.
  split; vm_compute; reflexivity.
Defined.

Lemma login_touches w cfg :
  follows (touches session_event (fun _ => False)) (login w cfg).
Proof.
  intros st r st'. rewrite login_run, login_reuse_run. cbv zeta.
  assert (Hext : forall evs (s : State),
             Forall session_event evs -> trace s = trace st ++ evs -> fs s = fs st ->
             touches session_event (fun _ => False) st s).
  { intros evs s Hevs Htr Hfs. split; [by exists evs |]. intros p _. by rewrite Hfs. }
  destruct (path_exists _ _ _);
    [destruct (load_settings_result _ _ _) as [u|e1];
       [destruct (login_result _ _ _ _) as [b1|e1] |];
       try destruct (is_Exception e1) |];
    cbn [trace fs]; try rewrite login_fresh_run; cbn [trace fs];
    try (destruct (login_result _ _ _ _) as [b2|e2];
         [destruct (dump_settings_result _ _ _) as [u2|e2] |];
         try destruct (is_Exception e2));
    intros [= _ <-];
    (eapply Hext; [| cbn [trace]; rewrite <- ?app_assoc; reflexivity | reflexivity]);
    repeat constructor.
Qed.

(** ** What an extraction may touch *)

Lemma follows_weaken {A} (R R' : relation State) (m : M A) :
  (forall s s', R s s' -> R' s s') -> follows R m -> follows R' m.
Proof. intros HR Hm st r st' H. eapply HR, Hm, H. Qed.

Lemma write_chunks_touches_gen (P : event -> Prop) (Q : string -> Prop) w path cs :
  P (EvWrite path) -> Q path -> follows (touches P Q) (write_chunks w path cs).
Proof.
  intros HP HQ. induction cs as [|c cs IH]; simpl.
  - apply follows_ret, _.
  - apply follows_bind; [apply _ | by apply touches_fs_write | intros _; exact IH].
Qed.

(** A media file ends in [g] or in [4]. *)
Lemma media_file_last cfg target path :
  media_file cfg target path ->
  last_char path = Some "g"%char \/ last_char path = Some "4"%char.
Proof.
  intros (mid & ext & Hext & ->). unfold media_path.
  rewrite <- !string_app_assoc.
  destruct Hext as [-> | ->]; rewrite last_char_path_join by reflexivity; auto.
Qed.

Section ExtractionFrame.
Variable w : World.
Variable cfg : Config.
Variable target : string.

Lemma download_media_touches url fn :
  media_file cfg target (media_path cfg fn) ->
  follows (touches (extractor_event cfg target) (extractor_file cfg target))
    (download_media w cfg url fn).
Proof.
  intros Hmedia. unfold download_media, download_media_try. cbv zeta.
  assert (Hfile : extractor_file cfg target (media_path cfg fn)) by (by left).
  repeat first [apply write_chunks_touches_gen | touches_step]; simpl; auto.
Qed.

Lemma post_of_media_touches media :
  follows (touches (extractor_event cfg target) (extractor_file cfg target))
    (post_of_media w cfg target media).
Proof.
  unfold post_of_media, post_record, photo_download, video_download. cbv zeta.
  repeat first
    [ apply download_media_touches; eexists _, _; split; [| reflexivity]; auto
    | touches_step ]; simpl; auto.
Qed.

Lemma for_medias_touches medias acc :
  follows (touches (extractor_event cfg target) (extractor_file cfg target))
    (for_medias w cfg target medias acc).
Proof.
  revert acc. induction medias as [|media rest IH]; intros acc; simpl.
  - apply follows_ret, _.
  - apply follows_bind; [apply _ | apply post_of_media_touches | intros p; apply IH].
Qed.

Lemma for_relations_touches_gen (P : event -> Prop) (Q : string -> Prop) items acc :
  (forall secs, P (EvSleep secs)) ->
  follows (touches P Q) (for_relations w cfg items acc).
Proof.
  intros HP. revert acc. induction items as [|[key info] rest IH]; intros acc; simpl.
  - apply follows_ret, _.
  - apply follows_bind; [apply _ | by apply touches_sleep |]. intros _.
    apply follows_bind; [apply _ | | intros entry; apply IH].
    unfold relationship_entry. repeat touches_step.
Qed.

Lemma get_user_posts_touches limit :
  follows (touches (extractor_event cfg target) (extractor_file cfg target))
    (get_user_posts w cfg target limit).
Proof.
  unfold get_user_posts, get_user_posts_try. cbv zeta.
  repeat first [apply for_medias_touches | touches_step]; simpl; auto.
Qed.

Lemma get_followers_touches_target limit :
  follows (touches (extractor_event cfg target) (extractor_file cfg target))
    (get_followers w cfg target limit).
Proof.
  unfold get_followers, get_followers_try. cbv zeta.
  repeat first [apply for_relations_touches_gen; done | touches_step]; simpl; auto.
Qed.

Lemma get_following_touches_target limit :
  follows (touches (extractor_event cfg target) (extractor_file cfg target))
    (get_following w cfg target limit).
Proof.
  unfold get_following, get_following_try. cbv zeta.
  repeat first [apply for_relations_touches_gen; done | touches_step]; simpl; auto.
Qed.

Lemma extract_user_data_touches :
  follows (touches (extractor_event cfg target) (extractor_file cfg target))
    (extract_user_data w cfg target).
Proof.
  unfold extract_user_data, json_dump. cbv zeta.
  assert (Hfile : extractor_file cfg target (json_path cfg target)) by (by right).
  repeat first
    [ apply get_user_posts_touches
    | apply get_followers_touches_target
    | apply get_following_touches_target
    | eapply follows_weaken; [| apply get_user_info_touches];
      intros s s'; apply touches_weaken; [intros []; simpl; tauto | tauto]
    | touches_step ]; simpl; auto.
Qed.
End ExtractionFrame.

Lemma csv_path_not_extractor_file cfg target name category :
  category ∈ categories -> ~ extractor_file cfg target (csv_path cfg name category).
Proof.
  intros Hc [H|H].
  - apply media_file_last in H. rewrite csv_path_last in H by exact Hc.
    by destruct H.
  - by apply csv_path_not_json in H.
Qed.

Lemma json_path_not_media_file cfg target name :
  ~ media_file cfg target (json_path cfg name).
Proof.
  intros H%media_file_last. rewrite json_path_last in H. by destruct H.
Qed.

(** X6.  An extraction for [target] asks the platform about [target] only,
    never prints, prompts or touches the session, and, log records apart,
    opens or writes no path other than the JSON document of [target] and
    the media files of [target], [media/{target}_{id}.jpg] and
    [media/{target}_{id}.mp4] in the output directory.  So, however the
    extraction ends, the CSV reports of every account hold what they held
    before, and so does the JSON document of every other account. *)
Theorem extract_user_data_frame w cfg target st :
  let st' := (extract_user_data w cfg target st).2 in
  (exists evs,
     trace st' = trace st ++ evs /\ Forall (extractor_event cfg target) evs) /\
  (forall name category, category ∈ categories ->
                         fs st' !! csv_path cfg name category =
                         fs st !! csv_path cfg name category) /\
  (forall other, plain_name other = true -> plain_name target = true ->
                 other <> target ->
                 fs st' !! json_path cfg other = fs st !! json_path cfg other).
Proof.
  intros st'. subst st'.
  destruct (extract_user_data w cfg target st) as [r st'] eqn:Hrun.
  apply extract_user_data_touches in Hrun as [Hevs Hfs]. simpl.
  split; [exact Hevs |]. split.
  - intros name category Hc. apply Hfs. by apply csv_path_not_extractor_file.
  - intros other Hother Htarget Hne. apply Hfs. intros [H|H].
    + by apply json_path_not_media_file in H.
    + by apply json_path_inj in H.
Qed.

Lemma extract_user_data_frame_witness :
  let st' := (extract_user_data alice_world alice_cfg "alice" st0).2 in
  fs st' !! json_path alice_cfg "bob" = None /\
  fs st' !! csv_path alice_cfg "alice" "posts" = None /\
  fs st' !! json_path alice_cfg "alice" <> None.
Proof.
  intros st'. subst st'.
  destruct (extract_user_data_frame alice_world alice_cfg "alice" st0)
    as (_ & Hcsv & Hjson).
  split; [| split].
  - rewrite Hjson by (reflexivity || discriminate). reflexivity.
  - rewrite Hcsv by (unfold categories; in_list). reflexivity.
  - vm_compute. discriminate.
Defined.

(** ** Media downloader *)

Lemma write_chunks_ret w path cs st old u st' :
  fs st !! path = Some old ->
  write_chunks w path cs st = (Ret u, st') ->
  fs st' !! path = Some (old ++ (WBytes <$> cs)).
Proof.
  revert st old. induction cs as [|c cs IH]; intros st old Hold; simpl.
  - intros [_ ->]%ret_inv. by rewrite app_nil_r.
  - intros H. apply bind_ret_inv in H as (u1 & s1 & Hw & H).
    unfold fs_write in Hw. destruct (write_error _ _ _); [discriminate |].
    injection Hw as _ <-. apply (IH _ (old ++ [WBytes c])) in H.
    + rewrite H, <- app_assoc. reflexivity.
    + simpl. rewrite lookup_insert_eq. by rewrite Hold.
Qed.

Lemma write_chunks_ok w path cs st :
  (forall tr, write_error w tr path = None) ->
  exists st', write_chunks w path cs st = (Ret tt, st').
Proof.
  intros Hw. revert st. induction cs as [|c cs IH]; intros st; simpl.
  - by eexists.
  - rewrite bind_run. unfold fs_write at 1. rewrite Hw. apply IH.
Qed.

Section Downloader.
Variable w : World.
Variable cfg : Config.

(** X8.  When [download_media] returns [True], the request and the status
    check raised nothing, the stream ended without error, and the file under
    the media directory holds all the chunks of the response, in order, and
    nothing else: a file reported as downloaded is complete. *)
Theorem download_media_true_complete url fn st st' :
  download_media w cfg url fn st = (Ret true, st') ->
  exists resp,
    http_get_result w (trace st) url = Ret resp /\
    status_error resp = None /\
    stream_error resp = None /\
    fs st' !! media_path cfg fn = Some (WBytes <$> chunks resp).
Proof.
  unfold download_media. intros H.
  apply bind_ret_inv in H as (ok & s & Htry & H).
  apply bind_ret_inv in H as (u & s' & Hemit & [<- ->]%ret_inv).
  injection Hemit as _ <-. simpl.
  rewrite try_except_run in Htry.
  destruct (download_media_try w cfg url fn st) as [[b|e] s0] eqn:Hbody.
  - injection Htry as -> ->. unfold download_media_try in Hbody.
    apply bind_ret_inv in Hbody as (resp & s1 & Hget & H).
    injection Hget as Hget <-.
    apply bind_ret_inv in H as (u1 & s2 & Hstatus & H).
    destruct (status_error resp) eqn:Hst; [discriminate |].
    apply ret_inv in Hstatus as [_ ->]. cbv zeta in H.
    apply bind_ret_inv in H as (u2 & s3 & Hopen & H).
    apply fs_open_ret_inv in Hopen.
    apply bind_ret_inv in H as (u3 & s4 & Hwrite & H).
    apply bind_ret_inv in H as (u4 & s5 & Hstream & [_ ->]%ret_inv).
    destruct (stream_error resp) eqn:Hse; [discriminate |].
    apply ret_inv in Hstream as [_ ->].
    exists resp. repeat split; try done.
    eapply (write_chunks_ret _ _ _ _ []) in Hwrite; [exact Hwrite |].
    rewrite Hopen. apply lookup_insert_eq.
  - unfold except_Exception in Htry. destruct (is_Exception e); [| discriminate].
    unfold_monad. discriminate.
Qed.

Lemma download_media_only_file url fn :
  follows (touches (fun _ => True) (fun p => p = media_path cfg fn))
    (download_media w cfg url fn).
Proof.
  unfold download_media, download_media_try. cbv zeta.
  repeat first [apply write_chunks_touches_gen | touches_step]; simpl; auto.
Qed.

(** X9.  [download_media] changes no file but the one it downloads to; and
    when the request or the status check fails, it creates no file at all:
    it logs the failure and returns [False]. *)
Theorem download_media_frame url fn st :
  (forall path, path <> media_path cfg fn ->
     fs (download_media w cfg url fn st).2 !! path = fs st !! path) /\
  (forall e,
     (http_get_result w (trace st) url = Raise e \/
      exists resp, http_get_result w (trace st) url = Ret resp /\
                   status_error resp = Some e) ->
     is_Exception e = true ->
     download_media w cfg url fn st =
     (Ret false,
      MkState (trace st ++ [EvHttpGet url;
                            EvLog ERROR (download_error_message fn e);
                            EvDownloadMedia url fn false])
              (fs st))).
Proof.
  split.
  - intros path Hpath.
    destruct (download_media w cfg url fn st) as [r st'] eqn:Hrun.
    apply download_media_only_file in Hrun as [_ Hfs]. by apply Hfs.
  - intros e Hfail He. unfold download_media, download_media_try, download_error_message.
    unfold_monad.
    destruct Hfail as [-> | (resp & -> & Hst)]; simpl.
    + rewrite He. simpl. by rewrite <- !app_assoc.
    + rewrite Hst. simpl. rewrite He. simpl. by rewrite <- !app_assoc.
Qed.

(** X10.  When the stream breaks after the file has been opened and the
    chunks received so far have been written, [download_media] returns
    [False] and leaves the partial file in place. *)
Theorem download_media_leaves_partial_file url fn st resp e :
  http_get_result w (trace st) url = Ret resp ->
  status_error resp = None ->
  open_error w (trace st ++ [EvHttpGet url]) (media_path cfg fn) = None ->
  (forall tr, write_error w tr (media_path cfg fn) = None) ->
  stream_error resp = Some e ->
  is_Exception e = true ->
  (download_media w cfg url fn st).1 = Ret false /\
  fs (download_media w cfg url fn st).2 !! media_path cfg fn =
    Some (WBytes <$> chunks resp).
Proof.
  intros Hget Hst Hopen Hw Hse He.
  destruct (write_chunks_ok w (media_path cfg fn) (chunks resp)
              (MkState ((trace st ++ [EvHttpGet url]) ++ [EvOpen (media_path cfg fn)])
                       (<[media_path cfg fn := []]> (fs st))) Hw) as [s4 Hwr].
  assert (Hrun : download_media w cfg url fn st =
                 (Ret false,
                  MkState (trace s4 ++ [EvLog ERROR (download_error_message fn e);
                                        EvDownloadMedia url fn false])
                          (fs s4))).
  { unfold download_media, download_media_try, download_error_message, fs_open.
    unfold mbind, M_bind, mret, M_ret, try_except, except_Exception, raise, call,
      log, emit.
    rewrite Hget; simpl. rewrite Hst; simpl. rewrite Hopen; simpl.
    rewrite Hwr; simpl. rewrite Hse; simpl. rewrite He; simpl.
    by rewrite <- app_assoc. }
  rewrite Hrun. split; [reflexivity |]. cbn [snd fs].
  apply (write_chunks_ret _ _ _ _ [] _ _ (lookup_insert_eq _ _ _) Hwr).
Qed.
End Downloader.

Lemma download_media_true_complete_witness :
  exists st',
    download_media alice_world alice_cfg "https://cdn/111.jpg" "alice_111_42.jpg" st0 =
      (Ret true, st') /\
    fs st' !! "extracted_data/media/alice_111_42.jpg" =
      Some [WBytes "chunk1"; WBytes "chunk2"].
Proof.
  assert (Hr : (download_media alice_world alice_cfg "https://cdn/111.jpg"
                  "alice_111_42.jpg" st0).1 = Ret true) by (vm_compute; reflexivity).
  destruct (download_media alice_world alice_cfg "https://cdn/111.jpg"
              "alice_111_42.jpg" st0) as [r st'] eqn:Hrun.
  simpl in Hr. subst r. exists st'. split; [reflexivity |].
  destruct (download_media_true_complete alice_world alice_cfg _ _ _ _ Hrun)
    as (resp & Hget & _ & _ & Hfile).
  injection Hget as <-. exact Hfile.
Defined.

Lemma download_media_frame_witness :
  download_media not_found_world alice_cfg "https://cdn/111.jpg" "alice_111_42.jpg" st0 =
  (Ret false,
   MkState [EvHttpGet "https://cdn/111.jpg";
            EvLog ERROR "Failed to download media alice_111_42.jpg: 404 Client Error";
            EvDownloadMedia "https://cdn/111.jpg" "alice_111_42.jpg" false] ∅).
Proof.
  destruct (download_media_frame not_found_world alice_cfg "https://cdn/111.jpg"
              "alice_111_42.jpg" st0) as [_ Hfail].
  apply (Hfail (Exn OtherException "404 Client Error")); [| reflexivity].
  right. eexists. split; reflexivity.
Defined.

Lemma download_media_leaves_partial_file_witness :
  (download_media dropped_stream_world alice_cfg "https://cdn/111.jpg"
     "alice_111_42.jpg" st0).1 = Ret false /\
  fs (download_media dropped_stream_world alice_cfg "https://cdn/111.jpg"
        "alice_111_42.jpg" st0).2 !! "extracted_data/media/alice_111_42.jpg" =
    Some [WBytes "chunk1"; WBytes "chunk2"].
Proof.
  apply (download_media_leaves_partial_file dropped_stream_world alice_cfg
           "https://cdn/111.jpg" "alice_111_42.jpg" st0
           (Response None ["chunk1"; "chunk2"]
              (Some (Exn OtherException "Connection broken")))
           (Exn OtherException "Connection broken"));
    reflexivity.
Defined.

Section DownloaderTotal.
Variable w : World.
Variable cfg : Config.
Hypothesis http_failures :
  forall tr url,
    match http_get_result w tr url with
    | Ret resp => failure_or_none (status_error resp) /\
                  failure_or_none (stream_error resp)
    | Raise e => is_Exception e = true
    end.
Hypothesis open_failures : forall tr p, failure_or_none (open_error w tr p).
Hypothesis write_failures : forall tr p, failure_or_none (write_error w tr p).

Lemma fails_only_write_chunks path cs : fails_only (write_chunks w path cs).
Proof.
  induction cs as [|c cs IH]; simpl.
  - apply fails_only_ret.
  - apply fails_only_bind; [by apply fails_only_fs_write | intros _; exact IH].
Qed.

Lemma fails_only_download_media_try url fn :
  fails_only (download_media_try w cfg url fn).
Proof.
  intros st e st' H. unfold download_media_try in H.
  pose proof (http_failures (trace st) url) as Hhttp.
  apply bind_raise_inv in H as [H | (resp & s1 & Hget & H)].
  - injection H as H _. by rewrite H in Hhttp.
  - injection Hget as Hget _. rewrite Hget in Hhttp. destruct Hhttp as [Hst Hse].
    eapply fails_only_bind; [| | exact H].
    { destruct (status_error resp); [by apply fails_only_raise | apply fails_only_ret]. }
    intros ?. cbv beta zeta. apply fails_only_bind; [by apply fails_only_fs_open |].
    intros ?. apply fails_only_bind; [apply fails_only_write_chunks |].
    intros ?. apply fails_only_bind; [| intros ?; apply fails_only_ret].
    destruct (stream_error resp); [by apply fails_only_raise | apply fails_only_ret].
Qed.

(** X11.  If the HTTP library and the file system raise failures only,
    [download_media] raises nothing: every call returns a boolean. *)
Theorem download_media_returns_bool url fn st :
  exists (ok : bool) st', download_media w cfg url fn st = (Ret ok, st').
Proof.
  revert st. change (returns (download_media w cfg url fn)). unfold download_media.
  apply returns_bind.
  - apply returns_except_Exception; [apply fails_only_download_media_try |].
    intros e. apply returns_bind; [apply returns_emit | intros _; apply returns_ret].
  - intros ok. apply returns_bind; [apply returns_emit | intros _; apply returns_ret].
Qed.
End DownloaderTotal.

Lemma download_media_returns_bool_witness :
  exists ok st',
    download_media dropped_stream_world alice_cfg "https://cdn/111.jpg"
      "alice_111_42.jpg" st0 = (Ret ok, st').
Proof.
  apply (download_media_returns_bool dropped_stream_world alice_cfg).
  - intros tr url. split; [exact I | reflexivity].
  - intros tr p. exact I.
  - intros tr p. exact I.
Defined.

(** ** Collectors at the edges of the configuration *)

Lemma negative_delay_sleep d :
  (d < 0)%Z -> Qle_bool (inject_Z 0) (inject_Z d) = false.
Proof. intros Hd. unfold Qle_bool, inject_Z. simpl. apply Z.leb_gt. lia. Qed.

Lemma negative_half_delay_sleep d :
  (d < 0)%Z -> Qle_bool (inject_Z 0) (Qmake d 2) = false.
Proof. intros Hd. unfold Qle_bool, inject_Z. simpl. apply Z.leb_gt. lia. Qed.

Section NegativeDelay.
Variable w : World.
Variable cfg : Config.
Hypothesis negative : (request_delay cfg < 0)%Z.

Lemma for_medias_negative name medias acc st posts st' :
  for_medias w cfg name medias acc st = (Ret posts, st') -> medias = [] /\ posts = acc.
Proof.
  destruct medias as [|media rest]; simpl.
  - by intros [-> _]%ret_inv.
  - rewrite bind_run, post_of_media_run, negative_delay_sleep by exact negative.
    discriminate.
Qed.

Lemma for_relations_negative items acc st l st' :
  for_relations w cfg items acc st = (Ret l, st') -> items = [] /\ l = acc.
Proof.
  destruct items as [|[key info] rest]; simpl.
  - by intros [-> _]%ret_inv.
  - rewrite bind_run. unfold sleep.
    rewrite negative_half_delay_sleep by exact negative. discriminate.
Qed.

(** X12.  With a negative request delay nothing can be extracted: the pause
    before the profile request is refused, so [extract_user_data] returns
    the empty dict after two log records and without any request; and each
    collector, whenever it returns, returns the empty list. *)
Theorem negative_delay_extracts_nothing name :
  (forall st,
     extract_user_data w cfg name st =
     (Ret [],
      MkState (trace st ++
               [EvLog INFO ("Starting data extraction for " +:+ name);
                EvLog ERROR ("Failed to get user info for " +:+ name +:+
                             ": sleep length must be non-negative")])
              (fs st))) /\
  (forall limit st l st',
     get_user_posts w cfg name limit st = (Ret l, st') -> l = []) /\
  (forall limit st l st',
     get_followers w cfg name limit st = (Ret l, st') -> l = []) /\
  (forall limit st l st',
     get_following w cfg name limit st = (Ret l, st') -> l = []).
Proof.
  split; [| split; [| split]].
  - intros st. unfold extract_user_data, get_user_info, get_user_info_try, sleep.
    rewrite negative_delay_sleep by exact negative.
    unfold_monad. by rewrite <- app_assoc.
  - intros limit st l st'. unfold get_user_posts. rewrite try_except_run.
    destruct (get_user_posts_try w cfg name _ st) as [[l'|e] s] eqn:Htry.
    + intros [= <- _]. unfold get_user_posts_try in Htry.
      apply bind_ret_inv in Htry as (uid & s1 & _ & H).
      apply bind_ret_inv in H as (medias & s2 & _ & H).
      apply bind_ret_inv in H as (posts & s3 & Hloop & H).
      apply bind_ret_inv in H as (u & s4 & _ & [-> _]%ret_inv).
      by apply for_medias_negative in Hloop as [_ ->].
    + unfold except_Exception. destruct (is_Exception e); [| discriminate].
      unfold_monad. by intros [= <- _].
  - intros limit st l st'. unfold get_followers. rewrite try_except_run.
    destruct (get_followers_try w cfg name _ st) as [[l'|e] s] eqn:Htry.
    + intros [= <- _]. unfold get_followers_try in Htry.
      apply bind_ret_inv in Htry as (uid & s1 & _ & H).
      apply bind_ret_inv in H as (items & s2 & _ & H).
      apply bind_ret_inv in H as (l & s3 & Hloop & H).
      apply bind_ret_inv in H as (u & s4 & _ & [-> _]%ret_inv).
      by apply for_relations_negative in Hloop as [_ ->].
    + unfold except_Exception. destruct (is_Exception e); [| discriminate].
      unfold_monad. by intros [= <- _].
  - intros limit st l st'. unfold get_following. rewrite try_except_run.
    destruct (get_following_try w cfg name _ st) as [[l'|e] s] eqn:Htry.
    + intros [= <- _]. unfold get_following_try in Htry.
      apply bind_ret_inv in Htry as (uid & s1 & _ & H).
      apply bind_ret_inv in H as (items & s2 & _ & H).
      apply bind_ret_inv in H as (l & s3 & Hloop & H).
      apply bind_ret_inv in H as (u & s4 & _ & [-> _]%ret_inv).
      by apply for_relations_negative in Hloop as [_ ->].
    + unfold except_Exception. destruct (is_Exception e); [| discriminate].
      unfold_monad. by intros [= <- _].
Qed.
End NegativeDelay.

Lemma negative_delay_extracts_nothing_witness :
  extract_user_data alice_world hasty_cfg "alice" st0 =
  (Ret [],
   MkState [EvLog INFO "Starting data extraction for alice";
            EvLog ERROR
              "Failed to get user info for alice: sleep length must be non-negative"]
           ∅) /\
  get_user_posts alice_world hasty_cfg "alice" None st0 =
  (Ret [],
   MkState [EvUserIdFromUsername "alice"; EvUserMedias (AStr "42") 100;
            EvLog ERROR "Failed to get posts for alice: sleep length must be non-negative"]
           ∅).
Proof.
  destruct (negative_delay_extracts_nothing alice_world hasty_cfg) with (name := "alice")
    as (Hextract & Hposts & _); [reflexivity |].
  split; [exact (Hextract st0) |].
  assert (Htr : (get_user_posts alice_world hasty_cfg "alice" None st0).2 =
                MkState [EvUserIdFromUsername "alice"; EvUserMedias (AStr "42") 100;
                         EvLog ERROR
                           "Failed to get posts for alice: sleep length must be non-negative"]
                        ∅) by (vm_compute; reflexivity).
  assert (Hr : exists l, (get_user_posts alice_world hasty_cfg "alice" None st0).1 = Ret l)
    by (eexists; vm_compute; reflexivity).
  destruct (get_user_posts alice_world hasty_cfg "alice" None st0) as [r st'] eqn:Hrun.
  destruct Hr as [l Hr]. simpl in Hr, Htr. subst r st'.
  by rewrite (Hposts None st0 l _ Hrun) in *.
Defined.

Section MetadataOnly.
Variable w : World.
Variable cfg : Config.
Hypothesis photos_off : toggle w "DOWNLOAD_PHOTOS" = false.
Hypothesis videos_off : toggle w "DOWNLOAD_VIDEOS" = false.

Lemma no_download_target name media : spec_download_target w name media = None.
Proof.
  unfold spec_download_target. rewrite photos_off, videos_off.
  destruct (obj_attrs media !! "media_type"), (obj_attrs media !! "id");
    try reflexivity.
  by rewrite !andb_false_r.
Qed.

Lemma post_of_media_off name media st r st' :
  post_of_media w cfg name media st = (r, st') ->
  touches lookup_event (fun _ => False) st st' /\
  forall post, r = Ret post -> dict_keys post = post_fields.
Proof.
  rewrite post_of_media_run, no_download_target.
  assert (Hslept : touches lookup_event (fun _ => False) st
                     (MkState (trace st ++ [EvSleep (inject_Z (request_delay cfg))]) (fs st))).
  { split; [| done]. eexists. split; [reflexivity |]. by constructor. }
  destruct (Qle_bool _ _).
  - destruct (sleep_result w _ _).
    2:{ intros [= <- <-]. split; [exact Hslept | discriminate]. }
    destruct (post_record _ _) as [[base|e] s] eqn:Hrec.
    + apply post_record_inv in Hrec as (_ & _ & _ & _ & _ & _ & _ & Hkeys & _).
      intros [= <- <-]. split; [exact Hslept |]. by intros post [= <-].
    + intros [= <- <-]. split; [exact Hslept | discriminate].
  - intros [= <- <-]. split; [reflexivity | discriminate].
Qed.

Lemma for_medias_off name medias acc st r st' :
  for_medias w cfg name medias acc st = (r, st') ->
  touches lookup_event (fun _ => False) st st' /\
  forall posts, r = Ret posts ->
    exists new, posts = acc ++ new /\ Forall (has_fields post_fields) new.
Proof.
  revert acc st. induction medias as [|media rest IH]; intros acc st; simpl.
  - intros [= <- <-]. split; [reflexivity |].
    intros posts [= <-]. exists []. by rewrite app_nil_r.
  - rewrite bind_run.
    destruct (post_of_media w cfg name media st) as [[post|e] s1] eqn:Hbody.
    + apply post_of_media_off in Hbody as [H1 Hkeys].
      intros [H2 Hnew]%IH. split; [by transitivity s1 |].
      intros posts (new & -> & Hall)%Hnew. exists (VDict post :: new).
      split; [by rewrite <- app_assoc |].
      constructor; [| exact Hall]. exists post. split; [reflexivity | by apply Hkeys].
    + apply post_of_media_off in Hbody as [H1 _].
      intros [= <- <-]. split; [exact H1 | discriminate].
Qed.

Lemma lookup_no_requests evs :
  Forall lookup_event evs -> requests evs = [] /\ attempts evs = [].
Proof.
  induction 1 as [|ev evs Hev _ [IH1 IH2]]; [done |].
  destruct ev; try destruct Hev; split; assumption.
Qed.

(** X13.  With both download toggles off, [get_user_posts] is a pure
    metadata collector, whatever happens during the run: the file store is
    left as it was, the only events are log records, pauses and the two
    platform lookups (so no URL is requested and [download_media] is never
    called), and every record returned has exactly the ten fields of a
    Post, without [local_file]. *)
Theorem downloads_disabled_metadata_only name limit st :
  let run := get_user_posts w cfg name limit st in
  fs run.2 = fs st /\
  (exists evs,
     trace run.2 = trace st ++ evs /\
     Forall lookup_event evs /\ requests evs = [] /\ attempts evs = []) /\
  forall l, run.1 = Ret l -> Forall (has_fields post_fields) l.
Proof.
  intros run. subst run.
  destruct (get_user_posts w cfg name limit st) as [r st'] eqn:Hrun. simpl.
  unfold get_user_posts in Hrun. rewrite try_except_run in Hrun.
  destruct (get_user_posts_try w cfg name _ st) as [[l'|e] s] eqn:Htry.
  - injection Hrun as <- <-.
    unfold get_user_posts_try in Htry.
    apply bind_ret_inv in Htry as (uid & s1 & [= _ <-] & H).
    apply bind_ret_inv in H as (medias & s2 & [= _ <-] & H).
    apply bind_ret_inv in H as (posts & s3 & Hloop & H).
    apply bind_ret_inv in H as (u & s4 & [= <-] & [-> <-]%ret_inv).
    apply for_medias_off in Hloop as [[(evs & Htr & Hevs) Hfs] Hnew].
    destruct (Hnew _ eq_refl) as (new & -> & Hall). simpl in *. subst s.
    assert (Hlook : Forall lookup_event
                      ([EvUserIdFromUsername name; EvUserMedias uid (default 100%Z limit)]
                       ++ evs ++ [EvLog INFO ("Retrieved " +:+ pretty (length new) +:+
                                               " posts for " +:+ name)])).
    { apply Forall_app. split; [by repeat constructor |].
      apply Forall_app. split; [exact Hevs | by repeat constructor]. }
    split; [| split].
    + apply map_eq; intros p; apply Hfs; tauto.
    + eexists. split; [| split; [exact Hlook | by apply lookup_no_requests]].
      rewrite Htr. by rewrite <- !app_assoc.
    + by intros l [= <-].
  - assert (Hfollows : touches lookup_event (fun _ => False) st s).
    { revert Htry.
      generalize st (Raise e : Res (list pyval)) s.
      change (follows (touches lookup_event (fun _ => False))
                (get_user_posts_try w cfg name (default 100%Z limit))).
      unfold get_user_posts_try.
      repeat first
        [ match goal with
          | |- follows _ (for_medias _ _ _ _ _) =>
              intros s0 r0 s0' H0; by apply for_medias_off in H0 as [? _]
          end
        | touches_step ]; simpl; auto. }
    unfold except_Exception in Hrun. destruct (is_Exception e).
    + unfold_monad. injection Hrun as <- <-.
      destruct Hfollows as [(evs & Htr & Hevs) Hfs]. simpl.
      assert (Hlook : Forall lookup_event
                        (evs ++ [EvLog ERROR ("Failed to get posts for " +:+ name +:+
                                              ": " +:+ exn_msg e)])).
      { apply Forall_app. split; [exact Hevs | by repeat constructor]. }
      split; [| split].
      * apply map_eq; intros p; apply Hfs; tauto.
      * eexists. split; [| split; [exact Hlook | by apply lookup_no_requests]].
        rewrite Htr. by rewrite <- !app_assoc.
      * intros l [= <-]. constructor.
    + injection Hrun as <- <-.
      destruct Hfollows as [(evs & Htr & Hevs) Hfs].
      split; [| split].
      * apply map_eq; intros p; apply Hfs; tauto.
      * exists evs. split; [exact Htr |]. split; [exact Hevs | by apply lookup_no_requests].
      * discriminate.
Qed.
End MetadataOnly.

Lemma downloads_disabled_metadata_only_witness :
  let run := get_user_posts metadata_only_world alice_cfg "alice" None st0 in
  (fs run.2 = fs st0 /\
   (exists evs,
      trace run.2 = trace st0 ++ evs /\
      Forall lookup_event evs /\ requests evs = [] /\ attempts evs = []) /\
   forall l, run.1 = Ret l -> Forall (has_fields post_fields) l) /\
  exists p1 p2, run.1 = Ret [p1; p2].
Proof.
  split.
  - apply (downloads_disabled_metadata_only metadata_only_world alice_cfg);
      vm_compute; reflexivity.
  - eexists _, _. vm_compute. reflexivity.
Defined.

(** ** Malformed media items *)



Section Malformed.
Variable w : World.
Variable cfg : Config.




(** X16.  A photo whose [thumbnail_url] is [None] is still downloaded: with
    photo downloads enabled the loop body requests the URL ["None"], the
    string form of the missing value, while the record keeps the empty
    string as its [thumbnail_url]. *)
Theorem photo_without_thumbnail_requests_None name media mt st post st' :
  toggle w "DOWNLOAD_PHOTOS" = true ->
  obj_attrs media !! "media_type" = Some mt ->
  py_eq_int mt 1 = true ->
  obj_attrs media !! "thumbnail_url" = Some ANone ->
  post_of_media w cfg name media st = (Ret post, st') ->
  dict_lookup post "thumbnail_url" = Some (VStr "") /\
  exists evs, trace st' = trace st ++ evs /\ requests evs = ["None"].
Proof.
  intros Hon Hmt Hphoto Hth. rewrite post_of_media_run.
  destruct (Qle_bool _ _); [| discriminate].
  destruct (sleep_result w _ _); [| discriminate].
  destruct (post_record media _) as [[base|e] s] eqn:Hrec; [| discriminate].
  assert (Hfield : dict_lookup base "thumbnail_url" = Some (VStr "")).
  { revert Hrec.
    unfold post_record, dict_literal, str_attr, attr, str_attr_or_empty, getattr.
    rewrite Hth. unfold_monad. intros Hrec. case_oracles; by simplify_eq. }
  apply post_record_inv in Hrec as (_ & mid & mt' & thumb & Hid & Hmt' & Hth' & _).
  unfold spec_download_target. rewrite Hmt, Hid, Hphoto, Hon, Hth. simpl.
  destruct (download_media _ _ _ _ _) as [[ok|e] s1] eqn:Hdl; [| discriminate].
  intros [= <- <-].
  apply download_media_run in Hdl
    as (evs & [_ Hevs]%transfer_no_attempts & [(ok' & [= <-] & Htr)|(e & [=] & _)]).
  split.
  - destruct ok; simpl; [| exact Hfield].
    by rewrite dict_lookup_set_ne.
  - eexists. split; [rewrite Htr; simpl; rewrite <- app_assoc; reflexivity |].
    unfold requests in *. simpl. rewrite omap_app, Hevs. reflexivity.
Qed.
End Malformed.



Lemma photo_without_thumbnail_requests_None_witness :
  exists post st',
    post_of_media alice_world alice_cfg "alice" bare_photo st0 = (Ret post, st') /\
    dict_lookup post "thumbnail_url" = Some (VStr "") /\
    exists evs, trace st' = trace st0 ++ evs /\ requests evs = ["None"].
Proof.
  assert (Hr : exists post,
             (post_of_media alice_world alice_cfg "alice" bare_photo st0).1 = Ret post)
    by (eexists; vm_compute; reflexivity).
  destruct (post_of_media alice_world alice_cfg "alice" bare_photo st0)
    as [r st'] eqn:Hrun.
  destruct Hr as [post Hr]. simpl in Hr. subst r.
  exists post, st'. split; [reflexivity |].
  apply (photo_without_thumbnail_requests_None alice_world alice_cfg "alice"
           bare_photo (AInt 1) st0 post st'); try reflexivity.
  exact Hrun.
Defined.

(** ** Orchestrator: degraded and failed extractions *)

Lemma get_user_posts_lookup_fails w cfg name limit st e :
  user_id_result w (trace st) name = Raise e -> is_Exception e = true ->
  get_user_posts w cfg name limit st =
  (Ret [],
   MkState (trace st ++ [EvUserIdFromUsername name;
                         EvLog ERROR ("Failed to get posts for " +:+ name +:+ ": " +:+
                                      exn_msg e)])
           (fs st)).
Proof.
  intros H He. unfold get_user_posts, get_user_posts_try.
  rewrite try_except_run, bind_run. unfold call at 1. rewrite H.
  unfold except_Exception. rewrite He. unfold_monad. by rewrite <- app_assoc.
Qed.

Lemma get_followers_lookup_fails w cfg name limit st e :
  user_id_result w (trace st) name = Raise e -> is_Exception e = true ->
  get_followers w cfg name limit st =
  (Ret [],
   MkState (trace st ++ [EvUserIdFromUsername name;
                         EvLog ERROR ("Failed to get followers for " +:+ name +:+ ": " +:+
                                      exn_msg e)])
           (fs st)).
Proof.
  intros H He. unfold get_followers, get_followers_try.
  rewrite try_except_run, bind_run. unfold call at 1. rewrite H.
  unfold except_Exception. rewrite He. unfold_monad. by rewrite <- app_assoc.
Qed.

Lemma get_following_lookup_fails w cfg name limit st e :
  user_id_result w (trace st) name = Raise e -> is_Exception e = true ->
  get_following w cfg name limit st =
  (Ret [],
   MkState (trace st ++ [EvUserIdFromUsername name;
                         EvLog ERROR ("Failed to get following for " +:+ name +:+ ": " +:+
                                      exn_msg e)])
           (fs st)).
Proof.
  intros H He. unfold get_following, get_following_try.
  rewrite try_except_run, bind_run. unfold call at 1. rewrite H.
  unfold except_Exception. rewrite He. unfold_monad. by rewrite <- app_assoc.
Qed.

Lemma ret_run {A} (a : A) st : (mret a : M A) st = (Ret a, st).
Proof. reflexivity. Qed.

(** X17.  Degraded extraction: when the profile has been fetched but the
    platform refuses every user-id lookup, the three collectors each fail
    on their own, and [extract_user_data] still returns, and stores as the
    JSON document of the account, a result with the profile and three empty
    lists. *)
Theorem extraction_survives_lookup_failure w cfg name st ui s1 e :
  get_user_info w cfg name (started name st) = (Ret (VDict ui), s1) ->
  ui <> [] ->
  json_ok (VDict ui) = true ->
  (forall tr, user_id_result w tr name = Raise e) ->
  is_Exception e = true ->
  (forall tr, open_error w tr (json_path cfg name) = None) ->
  (forall tr, write_error w tr (json_path cfg name) = None) ->
  exists ts st',
    let data := [("user_info", VDict ui); ("posts", VList []); ("followers", VList []);
                 ("following", VList []); ("extraction_timestamp", VStr ts)] in
    extract_user_data w cfg name st = (Ret data, st') /\
    fs st' = <[json_path cfg name := [WJson (VDict data)]]> (fs st).
Proof.
  intros Hinfo Hne Hjson Huid He Hopen Hwrite.
  assert (Hfs1 : fs s1 = fs st).
  { apply get_user_info_touches in Hinfo. apply (touches_no_file _ _ _ Hinfo). }
  unfold extract_user_data. rewrite bind_run. unfold log at 1, emit at 1.
  fold (started name st). rewrite bind_run, Hinfo.
  destruct ui as [|kv ui]; [done |]. cbn [truthy negb].
  rewrite bind_run, !dict_literal_cons.
  repeat first [rewrite bind_run | rewrite ret_run | progress cbv beta iota].
  rewrite (get_user_posts_lookup_fails _ _ _ _ _ e) by auto.
  repeat first [rewrite bind_run | rewrite ret_run | progress cbv beta iota].
  rewrite (get_followers_lookup_fails _ _ _ _ _ e) by auto.
  repeat first [rewrite bind_run | rewrite ret_run | progress cbv beta iota].
  rewrite (get_following_lookup_fails _ _ _ _ _ e) by auto.
  repeat first [rewrite bind_run | rewrite ret_run | progress cbv beta iota].
  cbn [trace fs]. unfold now_isoformat.
  destruct (datetime_now w _) as [d t]. exists (d +:+ "T" +:+ t).
  change (dict_literal []) with (mret [] : M dict).
  repeat first [rewrite bind_run | rewrite ret_run | progress cbv beta iota].
  assert (Hok : json_ok (VDict [("user_info", VDict (kv :: ui)); ("posts", VList []);
                                ("followers", VList []); ("following", VList []);
                                ("extraction_timestamp", VStr (d +:+ "T" +:+ t))]) = true).
  { cbn [json_ok forallb snd] in Hjson |- *. by rewrite Hjson. }
  unfold fs_open. cbv beta zeta. rewrite Hopen.
  repeat first [rewrite bind_run | rewrite ret_run | progress cbv beta iota].
  unfold json_dump. rewrite (unencodable_ok _ Hok).
  unfold fs_write. cbv beta zeta. rewrite Hwrite.
  repeat first [rewrite bind_run | rewrite ret_run | progress cbv beta iota].
  unfold log, emit.
  repeat first [rewrite bind_run | rewrite ret_run | progress cbv beta iota].
  eexists. split; [reflexivity |]. cbn [fs].
  by rewrite lookup_insert_eq, insert_insert_eq, Hfs1.
Qed.

Lemma extraction_survives_lookup_failure_witness :
  exists data st',
    extract_user_data rate_limited_world alice_cfg "alice" st0 = (Ret data, st') /\
    dict_lookup data "posts" = Some (VList []) /\
    dict_lookup data "followers" = Some (VList []) /\
    fs st' = <[json_path alice_cfg "alice" := [WJson (VDict data)]]> (fs st0).
Proof.
  assert (Hui : exists ui,
             (get_user_info rate_limited_world alice_cfg "alice"
                (started "alice" st0)).1 = Ret (VDict ui) /\
             ui <> [] /\ json_ok (VDict ui) = true)
    by (eexists; split; [vm_compute; reflexivity |];
        split; [discriminate | vm_compute; reflexivity]).
  destruct (get_user_info rate_limited_world alice_cfg "alice" (started "alice" st0))
    as [r s1] eqn:Hinfo.
  destruct Hui as (ui & Hr & Hne & Hok). simpl in Hr. subst r.
  destruct (extraction_survives_lookup_failure rate_limited_world alice_cfg "alice"
              st0 ui s1 (Exn OtherException "Please wait a few minutes")
              Hinfo Hne Hok) as (ts & st' & Hrun & Hfs); try reflexivity.
  eexists _, st'. split; [exact Hrun |]. split; [reflexivity |].
  split; [reflexivity | exact Hfs].
Defined.

Section Unserializable.
Variable w : World.
Variable cfg : Config.





End Unserializable.


(** ** Report generator: failures and repetition *)

Lemma csv_report_own_file w cfg name data category :
  follows (touches (fun _ => True) (fun p => p = csv_path cfg name category))
    (csv_report w cfg name data category).
Proof.
  unfold csv_report, pd_DataFrame, to_csv.
  repeat touches_step; simpl; auto.
Qed.

(** X20.  The three reports share one [try]: when the posts report fails,
    [generate_csv_reports] logs the failure and returns without attempting
    the followers and following reports, whose files stay as they were
    even when there are followers or followed accounts to report. *)
Theorem failed_posts_report_stops_the_others w cfg name data st e s1 :
  csv_report w cfg name data "posts" st = (Raise e, s1) ->
  is_Exception e = true ->
  generate_csv_reports w cfg name data st =
  (Ret tt,
   MkState (trace s1 ++ [EvLog ERROR ("Failed to generate CSV reports: " +:+ exn_msg e)])
           (fs s1)) /\
  forall category,
    category ∈ ["followers"; "following"] ->
    fs s1 !! csv_path cfg name category = fs st !! csv_path cfg name category.
Proof.
  intros Hposts He. split.
  - unfold generate_csv_reports. rewrite try_except_run, bind_run, Hposts.
    unfold except_Exception. rewrite He. reflexivity.
  - intros category Hc. apply csv_report_own_file in Hposts as [_ Hfs].
    apply Hfs. intros Heq. apply csv_path_inj in Heq.
    + subst category. repeat (apply elem_of_cons in Hc as [Hc|Hc]; [discriminate Hc |]).
      by apply elem_of_nil in Hc.
    + unfold categories. by apply list_elem_of_further.
    + unfold categories. in_list.
Qed.

Lemma failed_posts_report_stops_the_others_witness :
  exists st',
    generate_csv_reports full_disk_world alice_cfg "alice" popular_data st0 =
      (Ret tt, st') /\
    last (trace st') =
      Some (EvLog ERROR "Failed to generate CSV reports: No space left on device") /\
    fs st' !! csv_path alice_cfg "alice" "followers" = None.
Proof.
  assert (Hp : exists s1,
            csv_report full_disk_world alice_cfg "alice" popular_data "posts" st0 =
            (Raise (Exn OtherException "No space left on device"), s1))
    by (eexists; vm_compute; reflexivity).
  destruct Hp as [s1 Hp].
  destruct (failed_posts_report_stops_the_others full_disk_world alice_cfg "alice"
              popular_data st0 _ s1 Hp eq_refl) as [Hrun Hfs].
  eexists. split; [exact Hrun |]. split; [apply last_snoc |].
  cbn [fs]. rewrite Hfs by in_list. reflexivity.
Defined.

Section HealthyReports.
Variable w : World.
Variable cfg : Config.
Hypothesis frames_ok : forall tr rows, dataframe_error w tr rows = None.
Hypothesis opens_ok : forall tr p, open_error w tr p = None.
Hypothesis writes_ok : forall tr p, write_error w tr p = None.

Lemma csv_report_healthy name data category st :
  exists evs,
    csv_report w cfg name data category st =
    (Ret tt, MkState (trace st ++ evs) (with_report cfg name data category (fs st))).
Proof.
  unfold csv_report, with_report, dict_get, dict_item.
  destruct (dict_lookup data category) as [rows|]; simpl.
  - destruct (truthy rows).
    + unfold pd_DataFrame, to_csv, fs_open, fs_write. unfold_monad.
      rewrite frames_ok, opens_ok. simpl. rewrite writes_ok.
      eexists. rewrite lookup_insert_eq, insert_insert_eq, <- !app_assoc. reflexivity.
    + exists []. rewrite app_nil_r. by destruct st.
  - exists []. rewrite app_nil_r. by destruct st.
Qed.

Lemma generate_csv_reports_healthy name data st :
  exists evs,
    generate_csv_reports w cfg name data st =
    (Ret tt,
     MkState (trace st ++ evs)
       (with_report cfg name data "following"
          (with_report cfg name data "followers"
             (with_report cfg name data "posts" (fs st))))).
Proof.
  unfold generate_csv_reports. rewrite try_except_run, bind_run.
  destruct (csv_report_healthy name data "posts" st) as [e1 ->].
  rewrite bind_run.
  destruct (csv_report_healthy name data "followers"
              (MkState (trace st ++ e1) (with_report cfg name data "posts" (fs st))))
    as [e2 ->].
  rewrite bind_run.
  destruct (csv_report_healthy name data "following"
              (MkState (trace (MkState (trace st ++ e1)
                                 (with_report cfg name data "posts" (fs st))) ++ e2)
                 (with_report cfg name data "followers"
                    (fs (MkState (trace st ++ e1)
                           (with_report cfg name data "posts" (fs st)))))))
    as [e3 ->].
  unfold log, emit. cbn [trace fs].
  eexists. rewrite <- !app_assoc. reflexivity.
Qed.

Lemma lookup_with_report name data category files p :
  with_report cfg name data category files !! p =
  if truthy (dict_get data category VNone) && bool_decide (csv_path cfg name category = p)
  then Some [WCsv (dict_get data category VNone)]
  else files !! p.
Proof.
  unfold with_report. destruct (truthy _); [| reflexivity].
  rewrite lookup_insert. simpl.
  by destruct (decide _);
    [rewrite bool_decide_eq_true_2 | rewrite bool_decide_eq_false_2].
Qed.

(** X21.  On a healthy file system and with pandas accepting the rows,
    [generate_csv_reports] returns, every category with a non-empty
    sequence gets a report that holds exactly that sequence, and running
    it again on the same data leaves the file store as the first run left
    it. *)
Theorem reports_complete_and_idempotent name data st :
  let run := generate_csv_reports w cfg name data st in
  run.1 = Ret tt /\
  (forall category rows,
     category ∈ categories ->
     dict_lookup data category = Some rows ->
     truthy rows = true ->
     fs run.2 !! csv_path cfg name category = Some [WCsv rows]) /\
  fs (generate_csv_reports w cfg name data run.2).2 = fs run.2.
Proof.
  intros run. subst run.
  destruct (generate_csv_reports_healthy name data st) as [evs ->].
  cbn [fst snd]. split; [reflexivity |]. split.
  - intros category rows Hc Hl Ht. cbn [fs].
    assert (Hget : dict_get data category VNone = rows)
      by (unfold dict_get; by rewrite Hl).
    rewrite !lookup_with_report.
    unfold categories in Hc.
    repeat (apply elem_of_cons in Hc as [->|Hc]);
      [| | | by apply elem_of_nil in Hc];
      rewrite ?Hget, ?Ht in *.
    + destruct (truthy (dict_get data "following" VNone) && _) eqn:E1.
      { apply andb_prop in E1 as [_ E1%bool_decide_eq_true].
        apply csv_path_inj in E1; [discriminate E1 | |]; unfold categories; in_list. }
      destruct (truthy (dict_get data "followers" VNone) && _) eqn:E2.
      { apply andb_prop in E2 as [_ E2%bool_decide_eq_true].
        apply csv_path_inj in E2; [discriminate E2 | |]; unfold categories; in_list. }
      by rewrite bool_decide_eq_true_2.
    + destruct (truthy (dict_get data "following" VNone) && _) eqn:E1.
      { apply andb_prop in E1 as [_ E1%bool_decide_eq_true].
        apply csv_path_inj in E1; [discriminate E1 | |]; unfold categories; in_list. }
      by rewrite bool_decide_eq_true_2.
    + by rewrite bool_decide_eq_true_2.
  - destruct (generate_csv_reports_healthy name data
                (MkState (trace st ++ evs)
                   (with_report cfg name data "following"
                      (with_report cfg name data "followers"
                         (with_report cfg name data "posts" (fs st))))))
      as [evs' ->].
    cbn [fst snd fs]. apply map_eq. intros p. rewrite !lookup_with_report.
    destruct (truthy (dict_get data "following" VNone) &&
              bool_decide (csv_path cfg name "following" = p));
      destruct (truthy (dict_get data "followers" VNone) &&
                bool_decide (csv_path cfg name "followers" = p));
      destruct (truthy (dict_get data "posts" VNone) &&
                bool_decide (csv_path cfg name "posts" = p)); reflexivity.
Qed.
End HealthyReports.

Lemma reports_complete_and_idempotent_witness :
  let run := generate_csv_reports alice_world alice_cfg "alice" popular_data st0 in
  run.1 = Ret tt /\
  fs run.2 !! "extracted_data/alice_followers.csv" =
    Some [WCsv (VList [VDict [("pk", VStr "7")]])] /\
  fs (generate_csv_reports alice_world alice_cfg "alice" popular_data run.2).2 = fs run.2.
Proof.
  intros run.
  destruct (reports_complete_and_idempotent alice_world alice_cfg) with
    (name := "alice") (data := popular_data) (st := st0) as (Hret & Hfiles & Hidem);
    try reflexivity.
  split; [exact Hret |]. split; [| exact Hidem].
  apply (Hfiles "followers"); [unfold categories; in_list | reflexivity | reflexivity].
Defined.

(** ** Profile fetcher *)

Lemma fails_only_now w : fails_only (now_isoformat w).
Proof.
  intros st e st'. unfold now_isoformat.
  destruct (datetime_now w (trace st)). discriminate.
Qed.

(** X22.  [get_user_info] never raises a failure: when the pause and the
    platform call raise failures only (no interrupt arrives while it
    waits), it returns, with [None] or with a dict of the twelve fields of a
    Profile, after log records, the pause and at most the one profile
    request, and without touching any file. *)
Theorem get_user_info_returns_profile_or_none w cfg name st :
  (forall tr, failure_or_value (sleep_result w tr (inject_Z (request_delay cfg)))) ->
  (forall tr, failure_or_value (user_info_result w tr name)) ->
  exists v st',
    get_user_info w cfg name st = (Ret v, st') /\
    (v = VNone \/ exists ui, v = VDict ui /\ dict_keys ui = profile_fields) /\
    fs st' = fs st /\
    exists evs, trace st' = trace st ++ evs /\ Forall (profile_event name) evs.
Proof.
  intros Hsleep Hinfo.
  assert (Hret : returns (get_user_info w cfg name)).
  { unfold get_user_info. apply returns_except_Exception.
    - unfold get_user_info_try.
      apply fails_only_bind; [by apply fails_only_sleep | intros _].
      apply fails_only_bind; [by apply fails_only_call | intros info].
      apply fails_only_bind; [| intros d].
      + apply fails_only_dict_literal.
        repeat (apply Forall_cons_2 || apply Forall_nil_2); simpl;
          first [apply fails_only_attr | apply fails_only_str_attr | apply fails_only_now].
      + apply fails_only_bind; [apply fails_only_emit | intros _; apply fails_only_ret].
    - intros e. apply returns_bind; [apply returns_emit | intros _; apply returns_ret]. }
  destruct (Hret st) as (v & st' & Hrun). exists v, st'.
  split; [exact Hrun |]. split; [by eapply get_user_info_ret |].
  pose proof (get_user_info_touches _ _ _ _ _ _ Hrun) as Ht.
  split; [exact (touches_no_file _ _ _ Ht) |].
  destruct Ht as [(evs & Htr & Hevs) _]. by exists evs.
Qed.

Lemma get_user_info_returns_profile_or_none_witness :
  exists st',
    get_user_info offline_world alice_cfg "ghost" st0 = (Ret VNone, st') /\
    fs st' = fs st0.
Proof.
  assert (Hr : (get_user_info offline_world alice_cfg "ghost" st0).1 = Ret VNone)
    by (vm_compute; reflexivity).
  destruct (get_user_info_returns_profile_or_none offline_world alice_cfg "ghost" st0)
    as (v & st' & Hrun & _ & Hfs & _); [intros tr; exact I | intros tr; reflexivity |].
  rewrite Hrun in Hr. simpl in Hr. injection Hr as ->.
  exists st'. split; [exact Hrun | exact Hfs].
Defined.

(** ** [setup.py] *)

Lemma rev_app_append s t : String.rev_app s t = String.rev s +:+ t.
Proof.
  unfold String.rev. revert t. induction s as [|c s IH]; intros t; simpl; [done |].
  rewrite IH, (IH (String c "")), string_app_assoc. reflexivity.
Qed.

Lemma rev_cons c s : String.rev (String c s) = String.rev s +:+ String c "".
Proof. unfold String.rev at 1. simpl. apply rev_app_append. Qed.

Lemma rev_empty s : String.rev s = "" -> s = "".
Proof.
  destruct s as [|c s]; [done |]. rewrite rev_cons.
  destruct (String.rev s); discriminate.
Qed.

Lemma last_char_rev s : last_char (String.rev s) = first_char s.
Proof.
  destruct s as [|c s]; [done |]. rewrite rev_cons. by rewrite last_char_app.
Qed.

Lemma first_char_rev s : first_char (String.rev s) = last_char s.
Proof.
  induction s as [|c s IH]; [done |]. rewrite rev_cons.
  destruct (String.rev s) as [|a r] eqn:E.
  - apply rev_empty in E. by subst s.
  - simpl in *. destruct s; [discriminate E | exact IH].
Qed.

(** What is left after stripping does not start with white space of one
    byte, and is the end of the text. *)
Lemma lstrip_first t c : first_char (lstrip t) = Some c -> py_isspace c = false.
Proof.
  remember (String.length t) as n eqn:Hn. revert t Hn.
  induction n as [n IH] using lt_wf_ind. intros t Hn.
  destruct t as [|c1 s1]; [done |]. cbn [lstrip String.length] in *.
  destruct (py_isspace c1) eqn:E1.
  { apply (IH (String.length s1)); [lia | reflexivity]. }
  destruct s1 as [|c2 s2]; [simpl; by intros [= <-] |]. cbn [String.length] in *.
  destruct (space2 c1 c2).
  { apply (IH (String.length s2)); [lia | reflexivity]. }
  destruct s2 as [|c3 s3]; [simpl; by intros [= <-] |]. cbn [String.length] in *.
  destruct (space3 c1 c2 c3); [| simpl; by intros [= <-]].
  apply (IH (String.length s3)); [lia | reflexivity].
Qed.

Lemma rstrip_rev_first t c :
  first_char (rstrip_rev t) = Some c -> py_isspace c = false.
Proof.
  remember (String.length t) as n eqn:Hn. revert t Hn.
  induction n as [n IH] using lt_wf_ind. intros t Hn.
  destruct t as [|c1 s1]; [done |]. cbn [rstrip_rev String.length] in *.
  destruct (py_isspace c1) eqn:E1.
  { apply (IH (String.length s1)); [lia | reflexivity]. }
  destruct s1 as [|c2 s2]; [simpl; by intros [= <-] |]. cbn [String.length] in *.
  destruct (space2 c2 c1).
  { apply (IH (String.length s2)); [lia | reflexivity]. }
  destruct s2 as [|c3 s3]; [simpl; by intros [= <-] |]. cbn [String.length] in *.
  destruct (space3 c3 c2 c1); [| simpl; by intros [= <-]].
  apply (IH (String.length s3)); [lia | reflexivity].
Qed.

Lemma rstrip_rev_suffix t : exists pre, t = pre +:+ rstrip_rev t.
Proof.
  remember (String.length t) as n eqn:Hn. revert t Hn.
  induction n as [n IH] using lt_wf_ind. intros t Hn.
  destruct t as [|c1 s1]; [by exists "" |]. cbn [rstrip_rev String.length] in *.
  destruct (py_isspace c1).
  { destruct (IH (String.length s1)) with (t := s1) as [pre Hpre]; [lia | reflexivity |].
    exists (String c1 pre). rewrite Hpre at 1. reflexivity. }
  destruct s1 as [|c2 s2]; [by exists "" |]. cbn [String.length] in *.
  destruct (space2 c2 c1).
  { destruct (IH (String.length s2)) with (t := s2) as [pre Hpre]; [lia | reflexivity |].
    exists (String c1 (String c2 pre)). rewrite Hpre at 1. reflexivity. }
  destruct s2 as [|c3 s3]; [by exists "" |]. cbn [String.length] in *.
  destruct (space3 c3 c2 c1); [| by exists ""].
  destruct (IH (String.length s3)) with (t := s3) as [pre Hpre]; [lia | reflexivity |].
  exists (String c1 (String c2 (String c3 pre))). rewrite Hpre at 1. reflexivity.
Qed.

Lemma last_char_rstrip_rev t c :
  last_char (rstrip_rev t) = Some c -> last_char t = Some c.
Proof.
  intros H. destruct (rstrip_rev_suffix t) as [pre Hpre]. rewrite Hpre.
  rewrite last_char_app; [exact H |]. by destruct (rstrip_rev t).
Qed.

Lemma py_strip_clean s : py_strip s <> "" -> clean (py_strip s).
Proof.
  intros Hne. split; [exact Hne |]. unfold py_strip. split.
  - intros c. rewrite first_char_rev. intros H%last_char_rstrip_rev.
    rewrite last_char_rev in H. by eapply lstrip_first.
  - intros c. rewrite last_char_rev. apply rstrip_rev_first.
Qed.

(** X23.  Every requirement [setup.py] reads from [requirements.txt] is
    clean: it is not empty and has no white space at either end; and it is
    the stripped form of a line of the file that does not start with [#]. *)
Theorem read_requirements_clean lines r :
  r ∈ read_requirements lines ->
  clean r /\
  exists line, line ∈ lines /\ r = py_strip line /\ startswith line "#" = false.
Proof.
  unfold read_requirements. intros (line & -> & Hin)%list_elem_of_fmap.
  apply list_elem_of_In, filter_In in Hin as [Hin Hkeep].
  apply andb_prop in Hkeep as [Hne Hhash].
  split.
  - apply py_strip_clean. intros Heq. rewrite Heq in Hne. discriminate Hne.
  - exists line. split; [by apply list_elem_of_In |]. split; [reflexivity |].
    by destruct (startswith line "#").
Qed.

Lemma read_requirements_clean_witness :
  read_requirements requirements_txt = ["instagrapi>=2.0.0"; "pandas"] /\
  clean "pandas".
Proof.
  split; [vm_compute; reflexivity |].
  apply (read_requirements_clean requirements_txt "pandas").
  vm_compute. in_list.
Defined.

(** ** Entry point *)

Lemma mkdirs_touches w directories :
  follows (touches startup_event (fun _ => False)) (mkdirs w directories).
Proof.
  induction directories as [|d rest IH]; simpl.
  - apply follows_ret, _.
  - apply follows_bind; [apply _ | by apply touches_call | intros _; exact IH].
Qed.

Lemma InstagramExtractor_touches w :
  follows (touches startup_event (fun _ => False)) (InstagramExtractor w).
Proof.
  unfold InstagramExtractor, setup_directories. cbv zeta.
  repeat first [apply mkdirs_touches | touches_step]; simpl; auto.
Qed.

Lemma login_startup w cfg :
  follows (touches startup_event (fun _ => False)) (login w cfg).
Proof.
  eapply follows_weaken; [| apply login_touches].
  intros s s'. apply touches_weaken; [intros []; simpl; tauto | tauto].
Qed.

(** [main], by what the constructor, [login], [input] and the extraction
    answer. *)
Lemma main_run w st :
  main w st =
  match InstagramExtractor w st with
  | (Ret extractor, s0) =>
      match login w extractor s0 with
      | (Ret true, s1) =>
          match stdin_line w (trace s1) with
          | Ret line =>
              if String.eqb (py_strip line) ""
              then (Ret tt,
                    MkState (trace (prompted s1) ++ [EvPrint "No username provided."])
                            (fs s1))
              else
                match main_try w extractor (py_strip line) (prompted s1) with
                | (Ret u, s2) => (Ret u, s2)
                | (Raise e, s2) =>
                    match exn_class_of e with
                    | KeyboardInterrupt =>
                        (Ret tt,
                         MkState (trace s2 ++
                                  [EvPrint (LF +:+ "Extraction interrupted by user.")])
                                 (fs s2))
                    | OtherBaseException => (Raise e, s2)
                    | _ =>
                        (Ret tt,
                         MkState (trace s2 ++
                                  [EvPrint ("An error occurred: " +:+ exn_msg e)])
                                 (fs s2))
                    end
                end
          | Raise e => (Raise e, prompted s1)
          end
      | (Ret false, s1) =>
          (Ret tt,
           MkState (trace s1 ++
                    [EvPrint "Failed to login. Please check your credentials."])
                   (fs s1))
      | (Raise e, s1) => (Raise e, s1)
      end
  | (Raise e, s0) => (Raise e, s0)
  end.
Proof.
  unfold main. rewrite bind_run.
  destruct (InstagramExtractor w st) as [[extractor|e] s0]; [| reflexivity].
  rewrite bind_run.
  destruct (login w extractor s0) as [[[|]|e] s1]; try reflexivity.
  cbn [negb]. rewrite bind_run. unfold call at 1. fold (prompted s1).
  destruct (stdin_line w (trace s1)) as [line|e]; [| reflexivity].
  cbv zeta. unfold truthy, VStr, atom_truthy. rewrite negb_involutive.
  destruct (String.eqb (py_strip line) ""); [reflexivity |].
  rewrite try_except_run.
  destruct (main_try w extractor (py_strip line) (prompted s1)) as [[u|e] s2];
    [reflexivity |].
  destruct e as [[] msg]; reflexivity.
Qed.

(** X4.  [main] lets exactly these escape: what the constructor raises
    (a delay that is no integer, a directory or log file that cannot be
    made); what [login] raises; what [input] raises; and, from the
    extraction, what is neither an [Exception] nor a [KeyboardInterrupt].
    Every [Exception] and every [KeyboardInterrupt] raised once the user
    name has been read is caught. *)
Theorem main_raises_iff w st e st' :
  main w st = (Raise e, st') <->
  InstagramExtractor w st = (Raise e, st') \/
  exists extractor s0,
    InstagramExtractor w st = (Ret extractor, s0) /\
    (login w extractor s0 = (Raise e, st') \/
     exists s1,
       login w extractor s0 = (Ret true, s1) /\
       ((stdin_line w (trace s1) = Raise e /\ st' = prompted s1) \/
        exists line,
          stdin_line w (trace s1) = Ret line /\
          py_strip line <> "" /\
          main_try w extractor (py_strip line) (prompted s1) = (Raise e, st') /\
          exn_class_of e = OtherBaseException)).
Proof.
  rewrite main_run. split.
  - destruct (InstagramExtractor w st) as [[extractor|e0] s0];
      [| intros [= <- <-]; by left].
    intros H. right. exists extractor, s0. split; [reflexivity |].
    destruct (login w extractor s0) as [[[|]|e1] s1]; try discriminate.
    + right. exists s1. split; [reflexivity |].
      destruct (stdin_line w (trace s1)) as [line|e1] eqn:Hin.
      * right. exists line. split; [reflexivity |].
        destruct (String.eqb _ _) eqn:Hblank; [discriminate |].
        apply String.eqb_neq in Hblank. split; [exact Hblank |].
        destruct (main_try _ _ _ _) as [[u|e2] s2]; [discriminate |].
        destruct e2 as [[] msg]; try discriminate. by injection H as <- <-.
      * injection H as <- <-. by left.
    + injection H as <- <-. by left.
  - intros [H|(extractor & s0 & H & [Hl|(s1 & Hl & [[Hin ->]|Hrest])])];
      rewrite H; [reflexivity | | |]; rewrite Hl; [reflexivity | |].
    + by rewrite Hin.
    + destruct Hrest as (line & Hin & Hname & Htry & Hclass).
      apply String.eqb_neq in Hname. by rewrite Hin, Hname, Htry, Hclass.
Qed.

(** X5.  An [Exception] or a [KeyboardInterrupt] raised during the
    extraction ends [main] normally, with one more line on the console:
    the text of the error, or the notice of the interrupt. *)
Theorem main_reports_extraction_errors w st extractor s0 s1 line e s2 :
  InstagramExtractor w st = (Ret extractor, s0) ->
  login w extractor s0 = (Ret true, s1) ->
  stdin_line w (trace s1) = Ret line ->
  py_strip line <> "" ->
  main_try w extractor (py_strip line) (prompted s1) = (Raise e, s2) ->
  is_Exception e = true \/ exn_class_of e = KeyboardInterrupt ->
  main w st =
  (Ret tt,
   MkState (trace s2 ++
            [EvPrint (if is_Exception e then "An error occurred: " +:+ exn_msg e
                      else LF +:+ "Extraction interrupted by user.")])
           (fs s2)).
Proof.
  intros Hinit Hlogin Hin Hname Htry Hclass. rewrite main_run, Hinit, Hlogin, Hin.
  apply String.eqb_neq in Hname. rewrite Hname, Htry.
  destruct e as [[] msg]; try reflexivity. by destruct Hclass.
Qed.

Lemma main_raises_iff_witness :
  (exists st',
     main bad_delay_world st0 =
     (Raise (Exn ValueError "invalid literal for int() with base 10: 'abc'"), st') /\
     trace st' = [EvClient]) /\
  (exists st',
     main closed_stdin_world st0 =
     (Raise (Exn OtherException "EOF when reading a line"), st')).
Proof.
  split.
  - eexists. split.
    + apply main_raises_iff. left. vm_compute. reflexivity.
    + reflexivity.
  - eexists. apply main_raises_iff. right. eexists _, _.
    split; [vm_compute; reflexivity |]. right. eexists.
    split; [vm_compute; reflexivity |]. left.
    split; [vm_compute; reflexivity | reflexivity].
Defined.

Lemma main_reports_extraction_errors_witness :
  exists s2,
    main interrupted_world st0 =
    (Ret tt,
     MkState (trace s2 ++ [EvPrint (LF +:+ "Extraction interrupted by user.")])
             (fs s2)).
Proof.
  eexists.
  eapply (main_reports_extraction_errors interrupted_world st0 _ _ _ " alice "
            (Exn KeyboardInterrupt ""));
    [vm_compute; reflexivity | vm_compute; reflexivity | vm_compute; reflexivity
    | vm_compute; discriminate | vm_compute; reflexivity | by right].
Defined.

Section MainFrame.
Variable w : World.

Lemma main_try_asks_about cfg target :
  follows (touches (asks_about target) (fun _ => True)) (main_try w cfg target).
Proof.
  unfold main_try, summary_line.
  repeat first
    [ eapply follows_weaken; [| apply extract_user_data_touches];
      intros s s'; apply touches_weaken; [intros []; simpl; tauto | tauto]
    | eapply follows_weaken; [| apply generate_csv_reports_touches];
      intros s s'; apply touches_weaken; [intros []; simpl; tauto | tauto]
    | touches_step ]; simpl; auto.
Qed.

Lemma startup_not_extraction evs :
  Forall startup_event evs -> Forall (fun ev => ~ extraction_event ev) evs.
Proof. intros H. eapply Forall_impl; [exact H |]. intros []; simpl; tauto. Qed.

Lemma startup_asks_about target evs :
  Forall startup_event evs -> Forall (asks_about target) evs.
Proof. intros H. eapply Forall_impl; [exact H |]. intros []; simpl; tauto. Qed.

(** X7.  If a run of [main] asks the platform for account data (profile,
    user id, media, followers, following), transfers a file over HTTP,
    builds a data frame, or itself opens or writes a file (JSON document,
    CSV report, media file), then the extractor had been built, [login] had
    returned [True] and the line typed at the prompt is not blank; and
    every account the platform is asked about in that run is the typed
    line, stripped.  What [main] does to the session file, the log file
    and the directories happens before the prompt and is not counted. *)
Theorem main_extracts_only_for_typed_name st evs :
  trace (main w st).2 = trace st ++ evs ->
  Exists extraction_event evs ->
  exists extractor s0 s1 line,
    InstagramExtractor w st = (Ret extractor, s0) /\
    login w extractor s0 = (Ret true, s1) /\
    stdin_line w (trace s1) = Ret line /\
    py_strip line <> "" /\
    forall n, EvUserInfoByUsername n ∈ evs \/ EvUserIdFromUsername n ∈ evs ->
              n = py_strip line.
Proof.
  rewrite main_run. intros Htr Hex.
  assert (Hquiet : forall evs', evs = evs' ->
                     Forall (fun ev => ~ extraction_event ev) evs' -> False).
  { intros evs' -> Hall. apply Exists_exists in Hex as (ev & Hin & Hev).
    rewrite Forall_forall in Hall. by apply (Hall ev). }
  destruct (InstagramExtractor w st) as [[extractor|e] s0] eqn:Hinit.
  2:{ exfalso.
      pose proof (InstagramExtractor_touches w _ _ _ Hinit) as [(e0 & Htr0 & He0) _].
      simpl in Htr. rewrite Htr0 in Htr. apply app_inv_head in Htr.
      eapply Hquiet; [symmetry; exact Htr |]. by apply startup_not_extraction. }
  pose proof (InstagramExtractor_touches w _ _ _ Hinit) as [(e0 & Htr0 & He0) _].
  destruct (login w extractor s0) as [[[|]|e] s1] eqn:Hlogin;
    pose proof (login_startup w extractor _ _ _ Hlogin) as [(e1 & Htr1 & He1) _].
  - destruct (stdin_line w (trace s1)) as [line|e] eqn:Hin.
    + destruct (String.eqb (py_strip line) "") eqn:Hblank.
      * exfalso. simpl in Htr. rewrite Htr1, Htr0, <- !app_assoc in Htr.
        apply app_inv_head in Htr. eapply Hquiet; [symmetry; exact Htr |].
        apply Forall_app. split; [by apply startup_not_extraction |].
        apply Forall_app. split; [by apply startup_not_extraction |].
        repeat constructor; simpl; tauto.
      * apply String.eqb_neq in Hblank.
        exists extractor, s0, s1, line. repeat split; try done.
        destruct (main_try w extractor (py_strip line) (prompted s1))
          as [r s2] eqn:Htry.
        pose proof (main_try_asks_about _ _ _ _ _ Htry) as [(e2 & Htr2 & He2) _].
        assert (Hall : Forall (asks_about (py_strip line)) evs).
        { assert (Hpre : forall tail,
                     Forall (asks_about (py_strip line)) tail ->
                     trace st ++ evs =
                       trace st ++ e0 ++ e1 ++
                       EvInput "Enter the Instagram username to extract data from: "
                         :: e2 ++ tail ->
                     Forall (asks_about (py_strip line)) evs).
          { intros tail Htail Heq. apply app_inv_head in Heq. subst evs.
            apply Forall_app. split; [by apply startup_asks_about |].
            apply Forall_app. split; [by apply startup_asks_about |].
            constructor; [exact I |]. apply Forall_app. by split. }
          destruct r as [u|[[] msg]]; simpl in Htr; rewrite Htr2 in Htr;
            simpl in Htr; rewrite Htr1, Htr0, <- ?app_assoc in Htr;
            simpl in Htr; symmetry in Htr;
            first [ apply (Hpre []); [apply Forall_nil_2 | rewrite app_nil_r; exact Htr]
                  | eapply (Hpre [_]); [| exact Htr]; by repeat constructor ]. }
        rewrite Forall_forall in Hall.
        intros n [Hn|Hn]; apply (Hall _ Hn).
    + exfalso. simpl in Htr. rewrite Htr1, Htr0, <- !app_assoc in Htr.
      apply app_inv_head in Htr. eapply Hquiet; [symmetry; exact Htr |].
      apply Forall_app. split; [by apply startup_not_extraction |].
      apply Forall_app. split; [by apply startup_not_extraction |].
      repeat constructor; simpl; tauto.
  - exfalso. simpl in Htr. rewrite Htr1, Htr0, <- !app_assoc in Htr.
    apply app_inv_head in Htr. eapply Hquiet; [symmetry; exact Htr |].
    apply Forall_app. split; [by apply startup_not_extraction |].
    apply Forall_app. split; [by apply startup_not_extraction |].
    repeat constructor; simpl; tauto.
  - exfalso. simpl in Htr. rewrite Htr1, Htr0, <- !app_assoc in Htr.
    apply app_inv_head in Htr. eapply Hquiet; [symmetry; exact Htr |].
    apply Forall_app. split; by apply startup_not_extraction.
Qed.

Lemma print_last line st u st' :
  print line st = (Ret u, st') -> last (trace st') = Some (EvPrint line).
Proof. intros [= _ <-]. apply last_snoc. Qed.

Lemma main_try_ends_with_print cfg target st u st' :
  main_try w cfg target st = (Ret u, st') ->
  exists line, last (trace st') = Some (EvPrint line).
Proof.
  unfold main_try. intros H.
  apply bind_ret_inv in H as (data & s1 & _ & H).
  destruct (truthy (VDict data)).
  - apply bind_ret_inv in H as (u1 & s2 & _ & H).
    apply bind_ret_inv in H as (u2 & s3 & _ & H).
    apply bind_ret_inv in H as (u3 & s4 & _ & H).
    apply bind_ret_inv in H as (u4 & s5 & _ & H).
    apply bind_ret_inv in H as (u5 & s6 & _ & H).
    apply bind_ret_inv in H as (u6 & s7 & _ & H).
    unfold summary_line in H.
    apply bind_ret_inv in H as (n & s8 & _ & H).
    eexists. by eapply print_last.
  - eexists. by eapply print_last.
Qed.

(** X19.  Whenever [main] returns, the last thing it did was to print a
    line on the console: the operator is always told how the run ended. *)
Theorem main_ends_with_console_line st u st' :
  main w st = (Ret u, st') ->
  exists line, last (trace st') = Some (EvPrint line).
Proof.
  rewrite main_run.
  destruct (InstagramExtractor w st) as [[extractor|e] s0]; [| discriminate].
  destruct (login w extractor s0) as [[[|]|e] s1]; [| | discriminate].
  - destruct (stdin_line w (trace s1)) as [line|e]; [| discriminate].
    destruct (String.eqb _ _).
    + intros [= _ <-]. eexists. apply last_snoc.
    + destruct (main_try w extractor _ _) as [[u'|e] s2] eqn:Htry.
      * intros [= _ <-]. by eapply main_try_ends_with_print.
      * destruct e as [[] msg]; try discriminate;
          intros [= _ <-]; eexists; apply last_snoc.
  - intros [= _ <-]. eexists. apply last_snoc.
Qed.
End MainFrame.

Lemma main_extracts_only_for_typed_name_witness :
  (forall n, EvUserIdFromUsername n ∈ trace (main alice_world st0).2 -> n = "alice") /\
  EvPrint "No username provided." ∈ trace (main nbsp_world st0).2.
Proof.
  split; [| vm_compute; in_list].
  destruct (main_extracts_only_for_typed_name alice_world st0
              (trace (main alice_world st0).2) eq_refl)
    as (extractor & s0 & s1 & line & Hinit & Hlogin & Hin & _ & Hn).
  - apply Exists_exists. exists (EvUserInfoByUsername "alice").
    split; [vm_compute; in_list | exact I].
  - assert (Hline : forall s, stdin_line alice_world s = Ret " alice ")
      by reflexivity.
    rewrite Hline in Hin. injection Hin as <-.
    intros n Hin'. apply Hn. by right.
Defined.

Lemma main_ends_with_console_line_witness :
  exists st',
    main alice_world st0 = (Ret tt, st') /\
    last (trace st') = Some (EvPrint "- Following: 1 users").
Proof.
  assert (Hr : (main alice_world st0).1 = Ret tt) by (vm_compute; reflexivity).
  assert (Hl : last (trace (main alice_world st0).2) =
               Some (EvPrint "- Following: 1 users")) by (vm_compute; reflexivity).
  destruct (main alice_world st0) as [r st'] eqn:Hrun.
  simpl in Hr, Hl. subst r. exists st'. split; [reflexivity |].
  destruct (main_ends_with_console_line alice_world st0 tt st' Hrun) as [line Hline].
  rewrite Hline in Hl |- *. exact Hl.
Defined.

(** The extractor built in the scenario is the configuration the other
    scenarios start from. *)
Lemma alice_extractor : (InstagramExtractor alice_world st0).1 = Ret alice_cfg.
Proof. vm_compute. reflexivity. Qed.
